(** * A-NLO: the per-cycle decision pipeline, embedded and verified

    Shallow embedding of the core of the repository:

    - [agents_investment/market_generator.py]  (synthetic market, module [market_generator])
    - [agents_investment/trading_bot.py]       (signal generator, module [trading_bot])
    - [agents_investment/investment_agent.py]  (ledger and sizing policy, module [investment_agent];
                                                the ledger in binary64, module [binary64])
    - [backend/utils.py], [backend/main.py]    (account state, module [utils], [main])
    - [agents_core/*.py]                       (observe, plan, execute, reward, cycle)
    - [frontend/pages/investments.py]          (the drawdown of the NAV, module [investments])

    Conventions of the embedding.

    - A Python [float] is a real number ([R]): rounding, infinities and NaN are
      outside that model.  What the program does only up to rounding (a
      quotient multiplied back by its divisor, a difference compared with
      [0.0]) is not stated over [R]: the ledger and the investment are
      embedded a second time over binary64, the kernel's [PrimFloat.float]
      (module [binary64]), and such properties are settled there.
    - A Python [int] is a [Z] or a [nat] (lengths).  A Python [str] is a
      string of ASCII characters.
    - The process-wide mutable objects ([_state], [SIM_STATE],
      [_global_portfolio], the SQLite file, the [random] generator) are the
      fields of one record [World]; code that touches them lives in the
      monad [M], state passing with failure, where failure is an uncaught
      Python exception.
    - [random.gauss(mu, sigma)] consumes the next standard normal sample of
      an arbitrary sequence carried by the world and returns
      [mu + z * sigma], as CPython does.
    - Dictionaries with a fixed set of keys are records; a key that a reader
      fetches with [.get(key, default)] is an [option] field.  [_state] is an
      insertion-ordered association list (its iteration order feeds the
      random draws) and [Portfolio.positions] is a [gmap]; in [binary64],
      where the order of a sum matters, it is insertion-ordered too. *)

From Stdlib Require Import PrimFloat.
From Stdlib Require Import Reals Lra Lia ZArith.
From stdpp Require Import base option list gmap strings.

Local Open Scope string_scope.
Local Open Scope list_scope.
Local Open Scope R_scope.

(* ===================================================================== *)
(** * Part I: the program                                                 *)
(* ===================================================================== *)

(** ** Python primitives *)

#[global] Instance Rlt_decision : RelDecision Rlt := Rlt_dec.
#[global] Instance Rle_decision : RelDecision Rle := Rle_dec.
#[global] Instance Rgt_decision : RelDecision Rgt := Rgt_dec.
#[global] Instance Rge_decision : RelDecision Rge := Rge_dec.
#[global] Instance Req_decision : EqDecision R := Req_dec_T.

Module py.

(** [sum(xs)] on floats. *)
Definition sum (xs : list R) : R := foldl Rplus 0 xs.

(** [float(len(xs))]. *)
Definition len {A} (xs : list A) : R := INR (length xs).

(** [xs[-n:]] for [0 < n]: the last [n] elements (all of them when the list is shorter). *)
Definition last_n {A} (n : nat) (xs : list A) : list A :=
  drop (length xs - n) xs.

(** [xs[-1]] on a list known to be non-empty; [d] stands for the IndexError
    that the callers exclude by their own emptiness tests. *)
Definition last_or {A} (d : A) (xs : list A) : A := List.last xs d.

(** [x or y] where [x : float | None]: [None] and [0.0] are falsy. *)
Definition or_else (x : option R) (y : R) : R :=
  match x with
  | Some v => if bool_decide (v = 0) then y else v
  | None => y
  end.

(** An insertion-ordered [dict] with string keys. *)
Definition dict (V : Type) : Type := list (string * V).

Fixpoint getitem {V} (d : dict V) (k : string) : option V :=
  match d with
  | [] => None
  | (k', v) :: d' => if String.eqb k k' then Some v else getitem d' k
  end.

(** [d[k] = v]: overwrite in place, or append a fresh key. *)
Fixpoint setitem {V} (d : dict V) (k : string) (v : V) : dict V :=
  match d with
  | [] => [(k, v)]
  | (k', v') :: d' =>
      if String.eqb k k' then (k', v) :: d' else (k', v') :: setitem d' k v
  end.

Definition keys {V} (d : dict V) : list string := map fst d.

(** [d.pop(k, None)], the value dropped: the entry of [k] removed, if any. *)
Fixpoint pop {V} (d : dict V) (k : string) : dict V :=
  match d with
  | [] => []
  | (k', v) :: d' => if String.eqb k k' then d' else (k', v) :: pop d' k
  end.

(** [k in d]. *)
Definition contains {V} (d : dict V) (k : string) : bool :=
  match getitem d k with Some _ => true | None => false end.

(** [x or y] where [x : str | None]: [None] and the empty string are falsy. *)
Definition str_or (x : option string) (y : string) : string :=
  match x with
  | Some s => if String.eqb s "" then y else s
  | None => y
  end.

(** [c.lower()] for an ASCII character. *)
Definition lower_char (c : Ascii.ascii) : Ascii.ascii :=
  let n := Ascii.nat_of_ascii c in
  if (65 <=? n)%nat && (n <=? 90)%nat then Ascii.ascii_of_nat (n + 32) else c.

(** [s.lower()]; the strings of the model are ASCII. *)
Fixpoint lower (s : string) : string :=
  match s with
  | EmptyString => EmptyString
  | String c s' => String (lower_char c) (lower s')
  end.

(** [sep in s]. *)
Fixpoint str_contains (sep s : string) : bool :=
  String.prefix sep s
  || match s with
     | EmptyString => false
     | String _ s' => str_contains sep s'
     end.

(** [s.split(sep)[0]] for a non-empty [sep]: what precedes the first
    occurrence of [sep], all of [s] when there is none. *)
Fixpoint split_head (sep s : string) : string :=
  match s with
  | EmptyString => EmptyString
  | String c s' => if String.prefix sep s then EmptyString else String c (split_head sep s')
  end.

End py.

(** ** The world: every module-level mutable object *)

(** One entry of [market_generator._state]. *)
Record Instrument := mkInstrument {
  price : R;
  history : list R;
  mu : R;
  sigma : R;
}.

(** [investment_agent.Portfolio]. *)
Record Portfolio := mkPortfolio {
  cash : R;
  positions : gmap string R;
}.

(** [backend.utils.SIM_STATE]. *)
Record SimState := mkSimState {
  bank_balance : R;
  base_income : R;
  base_expense : R;
  income_history : list R;
  expense_history : list R;
  balance_history : list R;
  sip_history : list R;
  lumpsum_history : list R;
  nav_history : list R;
  invested_amount : R;
  last_sip_suggested : R;
}.

(** What the program sends to SQLite ([backend/database.py]); the sink is an
    external collaborator, so the model keeps the trace of the writes. *)
Inductive DbWrite :=
  | InsertTransaction (timestamp ttype category : string) (amount : R)
                      (description : string) (balance_after : R)
  | ReplaceBalance (date : string) (balance : R)
  | ResetDb.

(** The [random] module: an arbitrary sequence of standard normal samples
    and the number of samples already consumed. *)
Record Random := mkRandom {
  normal_samples : nat -> R;
  consumed : nat;
}.

Record World := mkWorld {
  _state : py.dict Instrument;
  SIM_STATE : SimState;
  _global_portfolio : Portfolio;
  db : list DbWrite;
  random : Random;
}.

(** ** The monad of the program: state passing with exceptions *)

Definition M (A : Type) : Type := World -> option (A * World).

Definition ret {A} (a : A) : M A := fun w => Some (a, w).

Definition bind {A B} (c : M A) (k : A -> M B) : M B :=
  fun w => match c w with
           | Some (a, w') => k a w'
           | None => None
           end.

(** An uncaught exception. *)
Definition raise {A} : M A := fun _ => None.

Definition gets {A} (f : World -> A) : M A := fun w => Some (f w, w).

Definition modify (f : World -> World) : M unit := fun w => Some (tt, f w).

Notation "'let*' x ':=' c 'in' k" := (bind c (fun x => k))
  (at level 10, x name, c at level 100, k at level 200, only parsing).
Notation "c ';;;' k" := (bind c (fun _ => k))
  (at level 100, k at level 200, right associativity, only parsing).

(** [for x in xs: body(x)]. *)
Fixpoint for_each {A} (xs : list A) (body : A -> M unit) : M unit :=
  match xs with
  | [] => ret tt
  | x :: xs' => body x ;;; for_each xs' body
  end.

(** [for _ in range(n): body()]. *)
Fixpoint repeat_n (n : nat) (body : M unit) : M unit :=
  match n with
  | O => ret tt
  | S n' => body ;;; repeat_n n' body
  end.

Definition set__state (m : py.dict Instrument) (w : World) : World :=
  mkWorld m (SIM_STATE w) (_global_portfolio w) (db w) (random w).
Definition set_SIM_STATE (s : SimState) (w : World) : World :=
  mkWorld (_state w) s (_global_portfolio w) (db w) (random w).
Definition set__global_portfolio (p : Portfolio) (w : World) : World :=
  mkWorld (_state w) (SIM_STATE w) p (db w) (random w).
Definition set_db (d : list DbWrite) (w : World) : World :=
  mkWorld (_state w) (SIM_STATE w) (_global_portfolio w) d (random w).
Definition set_random (r : Random) (w : World) : World :=
  mkWorld (_state w) (SIM_STATE w) (_global_portfolio w) (db w) r.

(** [random.gauss(mu, sigma)]. *)
Definition gauss (mu sigma : R) : M R :=
  let* r := gets random in
  modify (set_random (mkRandom (normal_samples r) (S (consumed r)))) ;;;
  ret (mu + normal_samples r (consumed r) * sigma).

(** ** The loop written twice in the source

    [market_generator._realized_volatility] and [trading_bot._volatility]
    have the same body; its two halves are shared here. *)

(** The percentage returns of the consecutive pairs whose first price is positive. *)
Fixpoint returns (prices : list R) : list R :=
  match prices with
  | [] => []
  | a :: tl =>
      match tl with
      | [] => []
      | b :: _ =>
          (if bool_decide (a > 0) then [(b - a) / a] else []) ++ returns tl
      end
  end.

(** Mean, variance and square root: the end of both volatility functions. *)
Definition std_of_returns (rets : list R) : R :=
  match rets with
  | [] => 0
  | _ :: _ =>
      let mu := py.sum rets / py.len rets in
      let var := py.sum (map (fun r => (r - mu) ^ 2) rets) / py.len rets in
      sqrt var
  end.

(** ** agents_investment/market_generator.py *)

Module market_generator.

(** The literal the module starts from. *)
Definition _state_literal : py.dict Instrument :=
  [ ("INDEX",   mkInstrument 100 [] 0.0008 0.02);
    ("STOCK_A", mkInstrument 60  [] 0.0010 0.03);
    ("STOCK_B", mkInstrument 140 [] 0.0004 0.025) ].

(** [_state[ticker]]: a missing key is a KeyError. *)
Definition _state_getitem (ticker : string) : M Instrument :=
  let* m := gets _state in
  match py.getitem m ticker with
  | Some d => ret d
  | None => raise
  end.

Definition set_index_volatility (sigma : R) : M unit :=
  let sigma := Rmax 0.005 (Rmin 0.05 sigma) in
  let* d := _state_getitem "INDEX" in
  modify (fun w => set__state
    (py.setitem (_state w) "INDEX" (mkInstrument (price d) (history d) (mu d) sigma)) w).

(** The price computed by one step from the previous price and the draw. *)
Definition next_price (price mu sigma z : R) : R :=
  let log_ret := (mu - 0.5 * sigma ^ 2) + sigma * z in
  let new_price := price * exp log_ret in
  if bool_decide (new_price <= 0) || bool_decide (Rabs (new_price - price) < 1e-6)
  then
    let direction := if bool_decide (z >= 0) then 1 else -1 in
    price * (1 + 0.003 * direction)
  else new_price.

(** [history.append(new_price)] followed by the eviction of the oldest
    entry once more than 2000 are held. *)
Definition push_history (history : list R) (new_price : R) : list R :=
  let history := history ++ [new_price] in
  if bool_decide (2000 < length history)%nat then drop 1 history else history.

Definition _step_gbm (ticker : string) : M unit :=
  let* d := _state_getitem ticker in
  let* z := gauss 0 1 in
  let new_price := next_price (price d) (mu d) (sigma d) z in
  modify (fun w => set__state
    (py.setitem (_state w) ticker
       (mkInstrument new_price (push_history (history d) new_price) (mu d) (sigma d))) w).

Definition step_market : M unit :=
  let* m := gets _state in
  for_each (py.keys m) _step_gbm.

Definition get_price (ticker : string) : M R :=
  let* m := gets _state in
  let ticker := if py.contains m ticker then ticker else "INDEX" in
  let* d := _state_getitem ticker in
  ret (price d).

Definition get_history (ticker : string) : M (list R) :=
  let* m := gets _state in
  let ticker := if py.contains m ticker then ticker else "INDEX" in
  let* d := _state_getitem ticker in
  ret (history d).

Definition _ensure_bootstrap : M unit :=
  let* d := _state_getitem "INDEX" in
  match history d with
  | [] => repeat_n 200 step_market
  | _ :: _ => ret tt
  end.

Definition _realized_volatility (prices : list R) : R :=
  if bool_decide (length prices < 2)%nat then 0
  else std_of_returns (returns prices).

(** What [get_index_metrics] computes from the history it has read:
    [(price_history, current_price, volatility, total_return)]. *)
Definition index_metrics (hist : list R) : list R * R * R * R :=
  let current := match hist with [] => 100 | _ :: _ => py.last_or 0 hist end in
  let vol := _realized_volatility hist in
  let total_ret :=
    if bool_decide (2 <= length hist)%nat && bool_decide (hd 0 hist > 0)
    then py.last_or 0 hist / hd 0 hist - 1
    else 0 in
  (hist, current, vol, total_ret).

Definition get_index_metrics : M (list R * R * R * R) :=
  _ensure_bootstrap ;;;
  let* hist := get_history "INDEX" in
  ret (index_metrics hist).

End market_generator.

(** ** agents_investment/trading_bot.py *)

(** The dictionary returned by [analyze_market]. *)
Module SignalInfo.
Record t := mk {
  signal : string;
  confidence : Z;
  volatility : R;
}.
End SignalInfo.

Module trading_bot.

Definition _sma (values : list R) (window : nat) : option R :=
  if bool_decide (length values < window)%nat then None
  else Some (py.sum (py.last_n window values) / INR window).

Definition _volatility (values : list R) : R :=
  if bool_decide (length values < 2)%nat then 0
  else std_of_returns (returns values).

(** The moving average crossover and breakout rule: signal and raw confidence. *)
Definition crossover (short long price vol : R) : string * Z :=
  if bool_decide (short > long * 1.01) && bool_decide (price > long) then
    ("buy", if bool_decide (vol < 0.02) then (70 + 20)%Z else 70%Z)
  else if bool_decide (short < long * 0.99) && bool_decide (price < long) then
    ("sell", if bool_decide (vol > 0.03) then (70 + 20)%Z else 70%Z)
  else
    ("hold", 10%Z).

Definition analyze_market (history : list R) : SignalInfo.t :=
  match history with
  | [] => SignalInfo.mk "hold" 0 0
  | _ :: _ =>
      let short := py.or_else (_sma history 5) (py.last_or 0 history) in
      let long := py.or_else (_sma history 20) short in
      let price := py.last_or 0 history in
      let vol := _volatility history in
      let sc := crossover short long price vol in
      (* volatility filter *)
      let sc := if bool_decide (vol > 0.06) then ("hold", 20%Z) else sc in
      SignalInfo.mk (fst sc) (Z.min 100 (Z.max 0 (snd sc))) vol
  end.

Definition predict_price (history : list R) : R :=
  match history with
  | [] => 0
  | _ :: _ =>
      if bool_decide (length history < 3)%nat then py.last_or 0 history
      else
        (* linear trend on last N points *)
        let n := Nat.min 10 (length history) in
        let ys := py.last_n n history in
        let xs := map INR (seq 0 n) in
        let mean_x := py.sum xs / INR n in
        let mean_y := py.sum ys / INR n in
        let num := py.sum (zip_with (fun x y => (x - mean_x) * (y - mean_y)) xs ys) in
        let den := py.or_else (Some (py.sum (map (fun x => (x - mean_x) ^ 2) xs))) 1 in
        let slope := num / den in
        let intercept := mean_y - slope * mean_x in
        let next_x := INR n in
        let pred := intercept + slope * next_x in
        Rmax 0 pred
  end.

End trading_bot.

(** ** The dictionaries that travel between the modules *)

(** A list held by a state snapshot: the very object bound to
    [SIM_STATE["nav_history"]] when the snapshot was taken (so that later
    appends show through the snapshot), or a list of the snapshot's own. *)
Inductive ListObj :=
  | SIM_STATE_nav_history
  | Fresh (l : list R).

Definition deref (heap : SimState) (o : ListObj) : list R :=
  match o with
  | SIM_STATE_nav_history => nav_history heap
  | Fresh l => l
  end.

(** The state snapshot; [None] is an absent key. *)
Module State.
Record t := mk {
  balance : option R;
  income_rate : option R;
  expense_rate : option R;
  volatility : option R;
  portfolio_value : option R;
  emergency_buffer_ok : option bool;
  risk_profile : option string;
  bank_balance : option R;
  monthly_income : option R;
  monthly_expense : option R;
  emergency_buffer : option R;
  price_history : option ListObj;
  nav_history : option ListObj;
  sip_suggested_amount : option R;
  cashflow_inflow : option R;
  cashflow_outflow : option R;
  nav : option R;
  last_invest_amount : option R;
}.

(** The empty dictionary. *)
Definition empty : t :=
  mk None None None None None None None None None
     None None None None None None None None None.
End State.

(** The result of a trade or of an execution step. *)
Module Result.
Record t := mk {
  status : option string;
  ticker : option string;
  amount : option R;
  units : option R;
  price : option R;
}.
End Result.

(** The dictionary returned by [evaluate_investment_opportunity]. *)
Module Opportunity.
Record t := mk {
  should_invest : bool;
  amount : R;
  mode : string;
  signal : string;
  confidence : Z;
  ticker : string;
  sip_suggested_amount : R;
}.
End Opportunity.

(** The dictionary returned by [plan], with the timestamp [run_cycle] adds. *)
Module Plan.
Record t := mk {
  action : option string;
  invest_amount : option R;
  invest_mode : option string;
  ticker : option string;
  signal : option string;
  signal_confidence : option Z;
  suggested_sip : option R;
  timestamp : option string;
}.
End Plan.

(** The body of POST /transactions ([models.TransactionIn]); [None] is an
    absent key. *)
Module Transaction.
Record t := mk {
  date : option string;
  timestamp : option string;
  type : option string;
  category : option string;
  amount : option R;
  description : option string;
}.
End Transaction.

(** The dictionary returned by [get_portfolio]. *)
Module PortfolioView.
Record t := mk {
  cash : R;
  positions : gmap string R;
  value : R;
  invested_amount : R;
  absolute_profit_loss : R;
  percentage_profit_loss : R;
  daily_profit_loss : R;
  sip_suggested_amount : R;
  cashflow_inflow : R;
  cashflow_outflow : R;
}.
End PortfolioView.

(** The dictionary returned by [get_market]. *)
Module MarketView.
Record t := mk {
  price_history : list R;
  current_price : R;
  volatility : R;
  return_rate : R;
  nav_history : list R;
  sip_history : list R;
  lumpsum_history : list R;
  income_history : list R;
  expense_history : list R;
  balance_history : list R;
}.
End MarketView.

(** ** agents_investment/investment_agent.py *)

Module RiskConfig.
Record t := mk {
  max_vol : R;
  max_alloc : R;
  lumpsum_factor : R;
  sip_factor : R;
}.
End RiskConfig.

Module investment_agent.

Definition risk_config : py.dict RiskConfig.t :=
  [ ("conservative", RiskConfig.mk 0.02 0.03 0.0 0.7);
    ("balanced",     RiskConfig.mk 0.03 0.06 1.0 1.0);
    ("aggressive",   RiskConfig.mk 0.05 0.12 2.0 1.5) ].

(** [risk_config.get(profile, risk_config["balanced"])]. *)
Definition risk_config_get (profile : string) : RiskConfig.t :=
  default (RiskConfig.mk 0.03 0.06 1.0 1.0) (py.getitem risk_config profile).

(** [Portfolio(cash=0.0)]. *)
Definition Portfolio__init__ (cash : R) : Portfolio := mkPortfolio cash ∅.

(** [Portfolio.buy]: the result and the portfolio after the call.  With the
    rounded operations of the program: [binary64.Portfolio_buy]. *)
Definition Portfolio_buy (self : Portfolio) (ticker : string) (amount : R)
  : M (Result.t * Portfolio) :=
  let amount := Rmax 0 amount in
  if bool_decide (amount <= 0) then
    ret (Result.mk (Some "noop") (Some ticker) (Some 0) (Some 0) None, self)
  else
    let* price := market_generator.get_price ticker in
    if bool_decide (price <= 0) then
      ret (Result.mk (Some "failed") (Some ticker) (Some 0) (Some 0) None, self)
    else
      let units := amount / price in
      let self := mkPortfolio (cash self)
                    (<[ticker := default 0 (positions self !! ticker) + units]> (positions self)) in
      ret (Result.mk (Some "filled") (Some ticker) (Some amount) (Some units) (Some price), self).

(** [Portfolio.sell].  Over [R] the units of a clamped sale,
    [units_owned * price / price], are the units held; with the rounded
    operations of the program they need not be: [binary64.Portfolio_sell]. *)
Definition Portfolio_sell (self : Portfolio) (ticker : string) (amount : R)
  : M (Result.t * Portfolio) :=
  let amount := Rmax 0 amount in
  if bool_decide (amount <= 0) then
    ret (Result.mk (Some "noop") (Some ticker) (Some 0) (Some 0) None, self)
  else
    let* price := market_generator.get_price ticker in
    let units_owned := default 0 (positions self !! ticker) in
    if bool_decide (units_owned <= 0) || bool_decide (price <= 0) then
      ret (Result.mk (Some "failed") (Some ticker) (Some 0) (Some 0) None, self)
    else
      let max_cash := units_owned * price in
      let sell_cash := Rmin amount max_cash in
      let units := sell_cash / price in
      let positions1 := <[ticker := Rmax 0 (units_owned - units)]> (positions self) in
      let positions2 :=
        if bool_decide (default 0 (positions1 !! ticker) = 0)
        then delete ticker positions1
        else positions1 in
      let self := mkPortfolio (cash self + sell_cash) positions2 in
      ret (Result.mk (Some "filled") (Some ticker) (Some sell_cash) (Some units) (Some price), self).

(** The loop of [Portfolio.portfolio_value] over [positions.items()]. *)
Fixpoint value_of_items (items : list (string * R)) (total : R) : M R :=
  match items with
  | [] => ret total
  | (t, units) :: items' =>
      let* p := market_generator.get_price t in
      value_of_items items' (total + units * p)
  end.

(** [Portfolio.portfolio_value].  The items come in the order of
    [map_to_list]; the sum of reals does not depend on it. *)
Definition Portfolio_portfolio_value (self : Portfolio) : M R :=
  value_of_items (map_to_list (positions self)) (cash self).

Definition get_positions : M (gmap string R) :=
  let* p := gets _global_portfolio in ret (positions p).

Definition get_portfolio_value : M R :=
  let* p := gets _global_portfolio in Portfolio_portfolio_value p.

(** Module-level [buy]: the method applied to [_global_portfolio]. *)
Definition buy (ticker : string) (amount : R) : M Result.t :=
  let* p := gets _global_portfolio in
  let* rp := Portfolio_buy p ticker amount in
  modify (set__global_portfolio (snd rp)) ;;;
  ret (fst rp).

Definition sell (ticker : string) (amount : R) : M Result.t :=
  let* p := gets _global_portfolio in
  let* rp := Portfolio_sell p ticker amount in
  modify (set__global_portfolio (snd rp)) ;;;
  ret (fst rp).

(* ---------------- SIP + opportunity logic ---------------- *)

Definition _compute_sip (state : State.t) (history : list R) (profile : string) : R :=
  let cfg := risk_config_get profile in
  let cash := default (default 0 (State.balance state)) (State.bank_balance state) in
  let income := default (default 0 (State.income_rate state)) (State.monthly_income state) in
  let expense := default (default 0 (State.expense_rate state)) (State.monthly_expense state) in
  let emergency_buffer :=
    default (if bool_decide (expense > 0) then expense * 3 else 0)
            (State.emergency_buffer state) in
  let vol := default 0 (State.volatility state) in
  (* Base SIP per spec *)
  let base_sip := Rmax (0.03 * income) (0.02 * cash) in
  (* Do not breach emergency buffer *)
  let available := Rmax 0 (cash - emergency_buffer) in
  let sip := Rmin base_sip available in
  (* Adjust for risk profile + volatility *)
  let sip := sip * RiskConfig.sip_factor cfg in
  let sip := if bool_decide (vol > RiskConfig.max_vol cfg) then sip * 0.5 else sip in
  Rmax 0 sip.

(** The body of [evaluate_investment_opportunity] once the history, the
    signal and the forecast have been obtained. *)
Definition evaluate_with (state : State.t) (history : list R)
    (signal_info : SignalInfo.t) (pred_price : R) : Opportunity.t :=
  let ticker := "INDEX" in
  let signal := SignalInfo.signal signal_info in
  let confidence := SignalInfo.confidence signal_info in
  let vol := SignalInfo.volatility signal_info in
  let profile := default "balanced" (State.risk_profile state) in
  let cfg := risk_config_get profile in
  let last_price := match history with [] => pred_price | _ :: _ => py.last_or 0 history end in
  let trend_positive := bool_decide (pred_price > last_price) in
  let sip_amount := _compute_sip state history profile in
  let mode := "sip" in
  let amount := sip_amount in
  let should_invest :=
    bool_decide (sip_amount > 0) && bool_decide (vol <= RiskConfig.max_vol cfg) in
  (* Lump-sum only on strong BUY with positive trend and low vol *)
  let lump :=
    String.eqb signal "buy"
    && bool_decide (confidence >= 75)%Z
    && trend_positive
    && bool_decide (vol < RiskConfig.max_vol cfg)
    && bool_decide (RiskConfig.lumpsum_factor cfg > 0) in
  let mode := if lump then "lumpsum" else mode in
  let amount := if lump then sip_amount * RiskConfig.lumpsum_factor cfg else amount in
  let should_invest := if lump then bool_decide (amount > 0) else should_invest in
  Opportunity.mk
    should_invest
    (if should_invest then Rmax amount 0 else 0)
    (if should_invest then mode else "sip")
    signal
    confidence
    ticker
    sip_amount.

Definition evaluate_investment_opportunity (state : State.t) : M Opportunity.t :=
  let ticker := "INDEX" in
  let* history := market_generator.get_history ticker in
  let signal_info := trading_bot.analyze_market history in
  let pred_price := trading_bot.predict_price history in
  ret (evaluate_with state history signal_info pred_price).

End investment_agent.

(** ** backend/utils.py *)

Module utils.

(** The dictionary literal [SIM_STATE] starts from. *)
Definition SIM_STATE_literal : SimState :=
  mkSimState 10000 5000 3000 [] [] [10000] [] [] [] 0 0.

(** Assignments to one key of [SIM_STATE]. *)
Definition set_bank_balance (v : R) (s : SimState) : SimState :=
  mkSimState v (base_income s) (base_expense s) (income_history s)
    (expense_history s) (balance_history s) (sip_history s) (lumpsum_history s)
    (nav_history s) (invested_amount s) (last_sip_suggested s).
Definition set_income_history (v : list R) (s : SimState) : SimState :=
  mkSimState (bank_balance s) (base_income s) (base_expense s) v
    (expense_history s) (balance_history s) (sip_history s) (lumpsum_history s)
    (nav_history s) (invested_amount s) (last_sip_suggested s).
Definition set_expense_history (v : list R) (s : SimState) : SimState :=
  mkSimState (bank_balance s) (base_income s) (base_expense s) (income_history s)
    v (balance_history s) (sip_history s) (lumpsum_history s)
    (nav_history s) (invested_amount s) (last_sip_suggested s).
Definition set_balance_history (v : list R) (s : SimState) : SimState :=
  mkSimState (bank_balance s) (base_income s) (base_expense s) (income_history s)
    (expense_history s) v (sip_history s) (lumpsum_history s)
    (nav_history s) (invested_amount s) (last_sip_suggested s).
Definition set_sip_history (v : list R) (s : SimState) : SimState :=
  mkSimState (bank_balance s) (base_income s) (base_expense s) (income_history s)
    (expense_history s) (balance_history s) v (lumpsum_history s)
    (nav_history s) (invested_amount s) (last_sip_suggested s).
Definition set_lumpsum_history (v : list R) (s : SimState) : SimState :=
  mkSimState (bank_balance s) (base_income s) (base_expense s) (income_history s)
    (expense_history s) (balance_history s) (sip_history s) v
    (nav_history s) (invested_amount s) (last_sip_suggested s).
Definition set_nav_history (v : list R) (s : SimState) : SimState :=
  mkSimState (bank_balance s) (base_income s) (base_expense s) (income_history s)
    (expense_history s) (balance_history s) (sip_history s) (lumpsum_history s)
    v (invested_amount s) (last_sip_suggested s).
Definition set_invested_amount (v : R) (s : SimState) : SimState :=
  mkSimState (bank_balance s) (base_income s) (base_expense s) (income_history s)
    (expense_history s) (balance_history s) (sip_history s) (lumpsum_history s)
    (nav_history s) v (last_sip_suggested s).
Definition set_last_sip_suggested (v : R) (s : SimState) : SimState :=
  mkSimState (bank_balance s) (base_income s) (base_expense s) (income_history s)
    (expense_history s) (balance_history s) (sip_history s) (lumpsum_history s)
    (nav_history s) (invested_amount s) v.

(** [SIM_STATE[key] = f(SIM_STATE)]. *)
Definition update (f : SimState -> SimState) : M unit :=
  modify (fun w => set_SIM_STATE (f (SIM_STATE w)) w).

Definition reset_sim_state : M unit :=
  update (set_bank_balance 10000) ;;;
  update (set_income_history []) ;;;
  update (set_expense_history []) ;;;
  update (fun s => set_balance_history [bank_balance s] s) ;;;
  update (set_sip_history []) ;;;
  update (set_lumpsum_history []) ;;;
  update (set_nav_history []) ;;;
  update (set_invested_amount 0) ;;;
  update (set_last_sip_suggested 0).

(** [db.execute(...)]: one more write sent to the sink. *)
Definition db_execute (wr : DbWrite) : M unit :=
  modify (fun w => set_db (db w ++ [wr]) w).

(** The key of the row [_persist_balance] writes: the date of the timestamp. *)
Definition balance_date (timestamp : string) : string :=
  py.str_or
    (Some (if py.str_contains "T" timestamp then py.split_head "T" timestamp
           else timestamp))
    "1970-01-01".

Definition _persist_balance (timestamp : string) : M unit :=
  let date := balance_date timestamp in
  let* s := gets SIM_STATE in
  db_execute (ReplaceBalance date (bank_balance s)).

Definition _log_transaction (timestamp ttype : string) (amount : R)
    (description category : string) : M unit :=
  let* s := gets SIM_STATE in
  let bal := bank_balance s in
  db_execute (InsertTransaction timestamp ttype category amount description bal).

(** The dictionary [_construct_core_state] builds from what it has read. *)
Definition core_state (metrics : list R * R * R * R) (nav_holdings : R) (s : SimState)
  : State.t :=
  let '(price_history, current_price, vol, ret_) := metrics in
  let bank_balance := bank_balance s in
  let income_hist := income_history s in
  let expense_hist := expense_history s in
  let monthly_income := match income_hist with [] => 0 | _ :: _ => py.last_or 0 income_hist end in
  let monthly_expense := match expense_hist with [] => 0 | _ :: _ => py.last_or 0 expense_hist end in
  let emergency_buffer := if bool_decide (monthly_expense > 0) then monthly_expense * 3 else 0 in
  let emergency_ok := bool_decide (bank_balance >= emergency_buffer) in
  let risk_profile :=
    if bool_decide (vol < 0.02) then "aggressive"
    else if bool_decide (vol < 0.035) then "balanced"
    else "conservative" in
  let total_portfolio_value := bank_balance + nav_holdings in
  State.mk
    (Some bank_balance)             (* balance *)
    (Some monthly_income)           (* income_rate *)
    (Some monthly_expense)          (* expense_rate *)
    (Some vol)                      (* volatility *)
    (Some total_portfolio_value)    (* portfolio_value *)
    (Some emergency_ok)             (* emergency_buffer_ok *)
    (Some risk_profile)             (* risk_profile *)
    (Some bank_balance)             (* bank_balance *)
    (Some monthly_income)           (* monthly_income *)
    (Some monthly_expense)          (* monthly_expense *)
    (Some emergency_buffer)         (* emergency_buffer *)
    (Some (Fresh price_history))    (* price_history: a copy *)
    (Some SIM_STATE_nav_history)    (* nav_history: the list itself, not a copy *)
    None None None None None.

Definition _construct_core_state : M State.t :=
  let* metrics := market_generator.get_index_metrics in
  let* nav_holdings := investment_agent.get_portfolio_value in
  let* s := gets SIM_STATE in
  ret (core_state metrics nav_holdings s).

Definition _recompute_sip_suggestion (state_for_agent : State.t) : M R :=
  let* rec := investment_agent.evaluate_investment_opportunity state_for_agent in
  let sip := Opportunity.sip_suggested_amount rec in
  update (set_last_sip_suggested sip) ;;;
  ret sip.

(** Returns [(monthly_income, monthly_expense)]. *)
Definition simulate_income_and_expense (timestamp : string) : M (R * R) :=
  let* s := gets SIM_STATE in
  let base_inc := base_income s in
  let base_exp := base_expense s in
  let* inc := gauss base_inc (0.3 * base_inc) in
  let income := Rmax 0 inc in
  let* exp_ := gauss base_exp (0.2 * base_exp) in
  let expense := Rmax 0 exp_ in
  update (fun s => set_bank_balance (bank_balance s + income) s) ;;;
  update (fun s => set_income_history (income_history s ++ [income]) s) ;;;
  _log_transaction timestamp "income" income "unstable income" "income" ;;;
  update (fun s => set_bank_balance (bank_balance s - expense) s) ;;;
  update (fun s => set_expense_history (expense_history s ++ [expense]) s) ;;;
  _log_transaction timestamp "expense" expense "variable expense" "expense" ;;;
  update (fun s => set_balance_history (balance_history s ++ [bank_balance s]) s) ;;;
  _persist_balance timestamp ;;;
  let* core := _construct_core_state in
  _recompute_sip_suggestion core ;;;
  ret (income, expense).

Definition apply_investment (timestamp mode ticker : string) (amount : R) : M Result.t :=
  let amount := Rmax 0 amount in
  if bool_decide (amount <= 0) then
    update (fun s => set_sip_history (sip_history s ++ [0]) s) ;;;
    update (fun s => set_lumpsum_history (lumpsum_history s ++ [0]) s) ;;;
    ret (Result.mk (Some "noop") None (Some 0) None None)
  else
    let* s := gets SIM_STATE in
    let invest_amt := Rmin amount (bank_balance s) in
    update (fun s => set_bank_balance (bank_balance s - invest_amt) s) ;;;
    (if String.eqb mode "lumpsum" then
       update (fun s => set_sip_history (sip_history s ++ [0]) s) ;;;
       update (fun s => set_lumpsum_history (lumpsum_history s ++ [invest_amt]) s) ;;;
       _log_transaction timestamp "lumpsum" invest_amt "lump-sum investment" "invest"
     else
       update (fun s => set_sip_history (sip_history s ++ [invest_amt]) s) ;;;
       update (fun s => set_lumpsum_history (lumpsum_history s ++ [0]) s) ;;;
       _log_transaction timestamp "sip" invest_amt "SIP investment" "invest") ;;;
    let* trade_result := investment_agent.buy ticker invest_amt in
    _log_transaction timestamp "portfolio_buy" invest_amt ("Portfolio buy " +:+ ticker) "portfolio" ;;;
    update (fun s => set_balance_history (balance_history s ++ [bank_balance s]) s) ;;;
    update (fun s => set_invested_amount (invested_amount s + invest_amt) s) ;;;
    _persist_balance timestamp ;;;
    let* core := _construct_core_state in
    _recompute_sip_suggestion core ;;;
    ret trade_result.

Definition update_nav_history : M R :=
  let* nav := investment_agent.get_portfolio_value in
  update (fun s => set_nav_history (nav_history s ++ [nav]) s) ;;;
  ret nav.

Definition get_state : M State.t :=
  let* core := _construct_core_state in
  _recompute_sip_suggestion core ;;;
  let* s := gets SIM_STATE in
  ret (State.mk
         (State.balance core) (State.income_rate core) (State.expense_rate core)
         (State.volatility core) (State.portfolio_value core)
         (State.emergency_buffer_ok core) (State.risk_profile core)
         (State.bank_balance core) (State.monthly_income core)
         (State.monthly_expense core) (State.emergency_buffer core)
         (State.price_history core) (State.nav_history core)
         (Some (last_sip_suggested s))          (* sip_suggested_amount *)
         (Some (py.sum (income_history s)))     (* cashflow_inflow *)
         (Some (py.sum (expense_history s)))    (* cashflow_outflow *)
         (State.nav core) (State.last_invest_amount core)).

Definition insert_transaction (tx : Transaction.t) : M unit :=
  let timestamp := py.str_or (Transaction.date tx) (py.str_or (Transaction.timestamp tx) "") in
  let amount := default 0 (Transaction.amount tx) in
  let ttype := py.lower (py.str_or (Transaction.type tx) "manual") in
  let category := default "" (Transaction.category tx) in
  let desc := default "manual" (Transaction.description tx) in
  (if String.eqb ttype "income" then
     update (fun s => set_bank_balance (bank_balance s + amount) s) ;;;
     update (fun s => set_income_history (income_history s ++ [amount]) s)
   else if String.eqb ttype "expense" || String.eqb ttype "repay" then
     update (fun s => set_bank_balance (bank_balance s - amount) s) ;;;
     update (fun s => set_expense_history (expense_history s ++ [amount]) s)
   else
     ret tt) ;;;
  update (fun s => set_balance_history (balance_history s ++ [bank_balance s]) s) ;;;
  _persist_balance timestamp ;;;
  _log_transaction timestamp ttype amount desc category ;;;
  let* core := _construct_core_state in
  _recompute_sip_suggestion core ;;;
  ret tt.

Definition get_portfolio : M PortfolioView.t :=
  let* positions := investment_agent.get_positions in
  let* nav_holdings := investment_agent.get_portfolio_value in
  let* s := gets SIM_STATE in
  let cash := bank_balance s in
  let total_value := cash + nav_holdings in
  let invested_amount := invested_amount s in
  let abs_pl := total_value - invested_amount in
  let pct_pl :=
    if bool_decide (invested_amount > 0) then abs_pl / invested_amount * 100 else 0 in
  let nav_hist := nav_history s in
  let daily_pl :=
    if bool_decide (2 <= length nav_hist)%nat
    then nth (length nav_hist - 1) nav_hist 0 - nth (length nav_hist - 2) nav_hist 0
    else 0 in
  ret (PortfolioView.mk cash positions total_value invested_amount abs_pl pct_pl daily_pl
         (last_sip_suggested s) (py.sum (income_history s)) (py.sum (expense_history s))).

Definition get_market : M MarketView.t :=
  let* metrics := market_generator.get_index_metrics in
  let '(price_history, current_price, vol, ret_) := metrics in
  let* s := gets SIM_STATE in
  ret (MarketView.mk price_history current_price vol ret_
         (nav_history s) (sip_history s) (lumpsum_history s)
         (income_history s) (expense_history s) (balance_history s)).

End utils.

(** ** agents_core/observer.py *)

Module observer.

Definition observe : M State.t := utils.get_state.

End observer.

(** ** agents_core/planner.py *)

Module planner.

(** The dictionary [plan] builds once the opportunity has been evaluated. *)
Definition plan_from (inv : Opportunity.t) (state : State.t) : Plan.t :=
  let decision : string * R * string * string :=
    if Opportunity.should_invest inv then
      ("invest", Opportunity.amount inv, Opportunity.mode inv, Opportunity.ticker inv)
    else if negb (default true (State.emergency_buffer_ok state)) then
      ("save", 0, "sip", "INDEX")
    else if bool_decide (default 0 (State.expense_rate state)
                         > default 0 (State.income_rate state)) then
      ("repay", 0, "sip", "INDEX")
    else
      ("hold", 0, "sip", "INDEX") in
  let '(action, invest_amount, invest_mode, ticker) := decision in
  Plan.mk
    (Some action)
    (Some invest_amount)
    (Some invest_mode)
    (Some ticker)
    (Some (Opportunity.signal inv))
    (Some (Opportunity.confidence inv))
    (Some (Opportunity.sip_suggested_amount inv))
    None.

Definition plan (state : State.t) : M Plan.t :=
  let* inv := investment_agent.evaluate_investment_opportunity state in
  ret (plan_from inv state).

End planner.

(** ** agents_core/executor.py *)

Module executor.

Definition execute (plan : Plan.t) (state : State.t) : M Result.t :=
  let action := default "hold" (Plan.action plan) in
  let amount := default 0 (Plan.invest_amount plan) in
  let ticker := default "INDEX" (Plan.ticker plan) in
  let mode := default "sip" (Plan.invest_mode plan) in
  let timestamp := default "" (Plan.timestamp plan) in
  if String.eqb action "invest" && bool_decide (amount > 0) then
    utils.apply_investment timestamp mode ticker amount
  else if String.eqb action "repay" then
    (* model as an extra expense transaction *)
    let repay_amt := Rmax 0 amount in
    utils.update (fun s => utils.set_bank_balance (bank_balance s - repay_amt) s) ;;;
    utils._log_transaction timestamp "repay" repay_amt "debt repayment" "expense" ;;;
    utils.update (fun s => utils.set_balance_history (balance_history s ++ [bank_balance s]) s) ;;;
    ret (Result.mk (Some "repaid") None (Some repay_amt) None None)
  else if String.eqb action "save" then
    ret (Result.mk (Some "saved") None None None None)
  else
    ret (Result.mk (Some "hold") None None None None).

End executor.

(** ** agents_core/reward.py *)

Module reward.

(** Step 1 of [compute_reward], the profit-based component: what the NAV
    history and the amount invested this cycle add to the reward. *)
Definition nav_component (nav_hist : list R) (invest_amt : R) : R :=
  if bool_decide (2 <= length nav_hist)%nat then
    let nav_prev := nth (length nav_hist - 2) nav_hist 0 in
    let nav_curr := nth (length nav_hist - 1) nav_hist 0 in
    let nav_change := nav_curr - nav_prev in
    if bool_decide (invest_amt > 0) then
      (* Full credit when we actually invested this cycle *)
      nav_change
    else
      (* Smaller weight if we were just holding *)
      nav_change * 0.2
  else 0.

(** Steps 2 to 4: liquidity penalty, volatility penalties, execution bonus,
    applied in this order to the reward accumulated so far. *)
Definition penalties_and_bonus (state : State.t) (result : Result.t) (reward : R) : R :=
  let reward :=
    if negb (default true (State.emergency_buffer_ok state)) then reward - 0.5 else reward in
  let vol := default 0 (State.volatility state) in
  let reward := if bool_decide (vol > 0.04) then reward - 0.2 else reward in
  let reward := if bool_decide (vol > 0.07) then reward - 0.5 else reward in
  let reward :=
    match Result.status result with
    | Some st => if String.eqb st "filled" || String.eqb st "saved" then reward + 0.05 else reward
    | None => reward
    end in
  reward.

(** [heap] resolves the list the state refers to. *)
Definition compute_reward (heap : SimState) (state : State.t) (result : Result.t) : R :=
  let nav_hist := match State.nav_history state with
                  | Some o => deref heap o
                  | None => []
                  end in
  let invest_amt := default 0 (State.last_invest_amount state) in
  let reward := 0 in
  let reward := reward + nav_component nav_hist invest_amt in
  penalties_and_bonus state result reward.

End reward.

(** ** agents_core/cycle.py *)

Module CycleOutput.
Record t := mk {
  state : State.t;
  plan : Plan.t;
  result : Result.t;
  reward : R;
  timestamp : string;
}.
End CycleOutput.

Module cycle.

(** [state.update(cash_flows)]. *)
Definition state_update (state : State.t) (cash_flows : R * R) : State.t :=
  State.mk
    (State.balance state) (State.income_rate state) (State.expense_rate state)
    (State.volatility state) (State.portfolio_value state)
    (State.emergency_buffer_ok state) (State.risk_profile state)
    (State.bank_balance state)
    (Some (fst cash_flows))                  (* monthly_income *)
    (Some (snd cash_flows))                  (* monthly_expense *)
    (State.emergency_buffer state)
    (State.price_history state) (State.nav_history state)
    (State.sip_suggested_amount state) (State.cashflow_inflow state)
    (State.cashflow_outflow state) (State.nav state) (State.last_invest_amount state).

(** [state["nav"] = nav]. *)
Definition state_set_nav (state : State.t) (nav : R) : State.t :=
  State.mk
    (State.balance state) (State.income_rate state) (State.expense_rate state)
    (State.volatility state) (State.portfolio_value state)
    (State.emergency_buffer_ok state) (State.risk_profile state)
    (State.bank_balance state) (State.monthly_income state)
    (State.monthly_expense state) (State.emergency_buffer state)
    (State.price_history state) (State.nav_history state)
    (State.sip_suggested_amount state) (State.cashflow_inflow state)
    (State.cashflow_outflow state)
    (Some nav)                               (* nav *)
    (State.last_invest_amount state).

(** [plan_out["timestamp"] = timestamp]. *)
Definition plan_set_timestamp (plan : Plan.t) (timestamp : string) : Plan.t :=
  Plan.mk (Plan.action plan) (Plan.invest_amount plan) (Plan.invest_mode plan)
    (Plan.ticker plan) (Plan.signal plan) (Plan.signal_confidence plan)
    (Plan.suggested_sip plan) (Some timestamp).

(** One full agent cycle; [timestamp] is the reading of the clock.  The
    dictionaries [plan] and [execute] return always have keys, so the
    [or {}] of the source leaves them as they are. *)
Definition run_cycle (timestamp : string) : M CycleOutput.t :=
  (* 1) Market price moves *)
  market_generator.step_market ;;;
  (* 2) Income & expenses *)
  let* cash_flows := utils.simulate_income_and_expense timestamp in
  (* 3) Observe current financial state *)
  let* state := observer.observe in
  let state := state_update state cash_flows in
  (* 4) Planner chooses action *)
  let* plan_out := planner.plan state in
  let plan_out := plan_set_timestamp plan_out timestamp in
  (* 5) Executor applies action *)
  let* result := executor.execute plan_out state in
  (* 6) Update NAV history and compute reward *)
  let* nav := utils.update_nav_history in
  let state := state_set_nav state nav in
  let* heap := gets SIM_STATE in
  let reward := reward.compute_reward heap state result in
  ret (CycleOutput.mk state plan_out result reward timestamp).

End cycle.

(** ** backend/main.py *)

Module main.

(** [db.reset_db()]: the tables are dropped and created again. *)
Definition reset_db : M unit := utils.db_execute ResetDb.

(** POST /reset. *)
Definition reset_endpoint : M string :=
  reset_db ;;;
  utils.reset_sim_state ;;;
  ret "ok".

End main.

(** ** frontend/pages/investments.py *)

Module investments.

(** The loop of [_simple_drawdown]: the running peak and the deepest
    relative fall below it. *)
Fixpoint drawdown_loop (nav_hist : list R) (peak max_dd : R) : R :=
  match nav_hist with
  | [] => max_dd
  | v :: rest =>
      let peak := Rmax peak v in
      let dd := if bool_decide (peak > 0) then (v - peak) / peak else 0 in
      drawdown_loop rest peak (Rmin max_dd dd)
  end.

Definition _simple_drawdown (nav_hist : list R) : R :=
  match nav_hist with
  | [] => 0
  | v0 :: _ => drawdown_loop nav_hist v0 0
  end.

End investments.

(** ** The ledger and the investment in the program's own arithmetic

    Python's [float] is IEEE 754 binary64, the kernel's [PrimFloat.float]:
    [+], [-], [*] and [/] round to nearest, ties to even, and [<=], [<] and
    [==] are the comparisons of the standard.  The functions below are
    [Portfolio.buy], [Portfolio.sell], [Portfolio.portfolio_value] and the
    part of [apply_investment] that moves money, translated a second time
    with these operations.  [positions] is the insertion-ordered dictionary
    that Python iterates, and [_state] gives the price of each ticker, the
    one field of an instrument that the ledger reads. *)

Module binary64.

Local Open Scope float_scope.

(** [max(a, b)]: the first argument unless the second is greater. *)
Definition max (a b : float) : float := if a <? b then b else a.

(** [min(a, b)]: the first argument unless the second is smaller. *)
Definition min (a b : float) : float := if b <? a then b else a.

(** The dictionaries returned by [buy], [sell] and [apply_investment]. *)
Module Result.
Record t := mk {
  status : option string;
  ticker : option string;
  amount : option float;
  units : option float;
  price : option float;
}.
End Result.

(** [market_generator.get_price]; [None] is the KeyError of a market
    without INDEX. *)
Definition get_price (_state : py.dict float) (ticker : string) : option float :=
  let ticker := if py.contains _state ticker then ticker else "INDEX" in
  py.getitem _state ticker.

Record Portfolio := mkPortfolio {
  cash : float;
  positions : py.dict float;
}.

(** [Portfolio(cash=0.0)]. *)
Definition Portfolio__init__ (cash : float) : Portfolio := mkPortfolio cash [].

(** [Portfolio.buy]. *)
Definition Portfolio_buy (_state : py.dict float) (self : Portfolio) (ticker : string)
    (amount : float) : option (Result.t * Portfolio) :=
  let amount := max 0 amount in
  if amount <=? 0 then
    Some (Result.mk (Some "noop") (Some ticker) (Some 0) (Some 0) None, self)
  else
    match get_price _state ticker with
    | None => None
    | Some price =>
        if price <=? 0 then
          Some (Result.mk (Some "failed") (Some ticker) (Some 0) (Some 0) None, self)
        else
          let units := amount / price in
          let self := mkPortfolio (cash self)
                        (py.setitem (positions self) ticker
                           (default 0 (py.getitem (positions self) ticker) + units)) in
          Some (Result.mk (Some "filled") (Some ticker) (Some amount) (Some units)
                  (Some price), self)
    end.

(** [Portfolio.sell]. *)
Definition Portfolio_sell (_state : py.dict float) (self : Portfolio) (ticker : string)
    (amount : float) : option (Result.t * Portfolio) :=
  let amount := max 0 amount in
  if amount <=? 0 then
    Some (Result.mk (Some "noop") (Some ticker) (Some 0) (Some 0) None, self)
  else
    match get_price _state ticker with
    | None => None
    | Some price =>
        let units_owned := default 0 (py.getitem (positions self) ticker) in
        if (units_owned <=? 0) || (price <=? 0) then
          Some (Result.mk (Some "failed") (Some ticker) (Some 0) (Some 0) None, self)
        else
          let max_cash := units_owned * price in
          let sell_cash := min amount max_cash in
          let units := sell_cash / price in
          let positions1 := py.setitem (positions self) ticker (max 0 (units_owned - units)) in
          let positions2 :=
            if default 0 (py.getitem positions1 ticker) =? 0
            then py.pop positions1 ticker
            else positions1 in
          let self := mkPortfolio (cash self + sell_cash) positions2 in
          Some (Result.mk (Some "filled") (Some ticker) (Some sell_cash) (Some units)
                  (Some price), self)
    end.

(** The loop of [Portfolio.portfolio_value] over [positions.items()]. *)
Fixpoint value_of_items (_state : py.dict float) (items : list (string * float))
    (total : float) : option float :=
  match items with
  | [] => Some total
  | (t, units) :: items' =>
      match get_price _state t with
      | None => None
      | Some p => value_of_items _state items' (total + units * p)
      end
  end.

(** [Portfolio.portfolio_value]. *)
Definition Portfolio_portfolio_value (_state : py.dict float) (self : Portfolio)
  : option float :=
  value_of_items _state (positions self) (cash self).

(** The entries of [SIM_STATE] that [apply_investment] assigns from the
    amount. *)
Record Account := mkAccount {
  bank_balance : float;
  balance_history : list float;
  sip_history : list float;
  lumpsum_history : list float;
  invested_amount : float;
}.

(** [apply_investment] on the account and on the ledger.  Its rows for
    the database and the suggestion it recomputes at the end are those of
    [utils.apply_investment]; they assign neither the account entries
    above nor the ledger. *)
Definition apply_investment (_state : py.dict float) (s : Account)
    (_global_portfolio : Portfolio) (mode ticker : string) (amount : float)
  : option (Result.t * Account * Portfolio) :=
  let amount := max 0 amount in
  if amount <=? 0 then
    Some (Result.mk (Some "noop") None (Some 0) None None,
          mkAccount (bank_balance s) (balance_history s)
            (sip_history s ++ [0]) (lumpsum_history s ++ [0]) (invested_amount s),
          _global_portfolio)
  else
    let invest_amt := min amount (bank_balance s) in
    let bank := bank_balance s - invest_amt in
    let sip := if String.eqb mode "lumpsum" then 0 else invest_amt in
    let lump := if String.eqb mode "lumpsum" then invest_amt else 0 in
    match Portfolio_buy _state _global_portfolio ticker invest_amt with
    | None => None
    | Some (trade_result, ledger) =>
        Some (trade_result,
              mkAccount bank (balance_history s ++ [bank])
                (sip_history s ++ [sip]) (lumpsum_history s ++ [lump])
                (invested_amount s + invest_amt),
              ledger)
    end.

(** [total_value] of [utils.get_portfolio]: the bank balance plus
    [get_portfolio_value()]. *)
Definition total_value (_state : py.dict float) (s : Account)
    (_global_portfolio : Portfolio) : option float :=
  match Portfolio_portfolio_value _state _global_portfolio with
  | None => None
  | Some nav_holdings => Some (bank_balance s + nav_holdings)
  end.

End binary64.

(** ** The world at start-up *)

(** The module literals, before the bootstrap that the import of
    [market_generator] runs. *)
Definition world_literal (samples : nat -> R) : World :=
  mkWorld market_generator._state_literal utils.SIM_STATE_literal
          (investment_agent.Portfolio__init__ 0) [] (mkRandom samples 0).

(** A history of [n] prices that change by the factor [q] at every step
    and end at [p].  The worlds of the examples have such histories, of the
    200 prices of the bootstrap or more. *)
Fixpoint trend_to (q p : R) (n : nat) : list R :=
  match n with
  | O => []
  | S n' => trend_to q (p / q) n' ++ [p]
  end.

(** Prices that fall by 0.3% per step: a market after [n] nudges down. *)
Definition falling_to : R -> nat -> list R := trend_to 0.997.

(** Prices that rise by 1% per step. *)
Definition rising_to : R -> nat -> list R := trend_to 1.01.

(** INDEX at 50, with the 200 prices of the bootstrap behind it. *)
Definition index_at_50 : Instrument := mkInstrument 50 (falling_to 50 200) 0.0008 0.02.

(** A world whose INDEX trades at 50, with the account and the ledger as
    at start-up. *)
Definition world_at_50 : World :=
  mkWorld [ ("INDEX",   index_at_50);
            ("STOCK_A", mkInstrument 60 (falling_to 60 200) 0.0010 0.03);
            ("STOCK_B", mkInstrument 140 (falling_to 140 200) 0.0004 0.025) ]
          utils.SIM_STATE_literal
          (investment_agent.Portfolio__init__ 0) [] (mkRandom (fun _ => 0) 0).

(* ===================================================================== *)
(** * Part II: the properties                                             *)
(* ===================================================================== *)

(** ** Reasoning about [M] *)

(** [runs c w Q]: from [w] the computation [c] returns (no exception), and
    its result and final world satisfy [Q]. *)
Definition runs {A} (c : M A) (w : World) (Q : A -> World -> Prop) : Prop :=
  exists a w', c w = Some (a, w') /\ Q a w'.

Section MonadRules.
Context {A B : Type}.

Lemma runs_ret (a : A) w (Q : A -> World -> Prop) : Q a w -> runs (ret a) w Q.
Proof. intros H. exists a, w. split; [reflexivity | exact H]. Qed.

Lemma runs_bind (c : M A) (k : A -> M B) w (Q : B -> World -> Prop) :
  runs c w (fun a w' => runs (k a) w' Q) -> runs (bind c k) w Q.
Proof.
  intros (a & w' & Hc & b & w'' & Hk & HQ).
  exists b, w''. unfold bind. rewrite Hc. auto.
Qed.

Lemma runs_mono (c : M A) w (Q Q' : A -> World -> Prop) :
  runs c w Q -> (forall a w', Q a w' -> Q' a w') -> runs c w Q'.
Proof. intros (a & w' & Hc & HQ) H. exists a, w'. auto. Qed.

Lemma runs_gets (f : World -> A) w (Q : A -> World -> Prop) :
  Q (f w) w -> runs (gets f) w Q.
Proof. intros H. exists (f w), w. auto. Qed.

Lemma runs_eq (c : M A) w a w' (Q : A -> World -> Prop) :
  c w = Some (a, w') -> Q a w' -> runs c w Q.
Proof. intros H HQ. exists a, w'. auto. Qed.

Lemma runs_inv (c : M A) w a w' (Q : A -> World -> Prop) :
  runs c w Q -> c w = Some (a, w') -> Q a w'.
Proof. intros (a0 & w0 & Hc & HQ) H. rewrite H in Hc. congruence. Qed.

End MonadRules.

Lemma runs_modify f w (Q : unit -> World -> Prop) :
  Q tt (f w) -> runs (modify f) w Q.
Proof. intros H. exists tt, (f w). auto. Qed.

(** A loop keeps an invariant that each of its rounds keeps. *)
Lemma runs_for_each {A} (I : World -> Prop) (body : A -> M unit) xs w :
  (forall x w0, x ∈ xs -> I w0 -> runs (body x) w0 (fun _ w1 => I w1)) ->
  I w -> runs (for_each xs body) w (fun _ w' => I w').
Proof.
  revert w. induction xs as [|x xs IH]; intros w Hbody HI; cbn [for_each].
  - by apply runs_ret.
  - apply runs_bind.
    eapply runs_mono; [apply Hbody; [left | exact HI] |].
    intros [] w1 HI1. cbv beta in *. apply IH; [|exact HI1].
    intros y w0 Hy. apply Hbody. by right.
Qed.

Lemma runs_repeat_n (I : World -> Prop) (body : M unit) n w :
  (forall w0, I w0 -> runs body w0 (fun _ w1 => I w1)) ->
  I w -> runs (repeat_n n body) w (fun _ w' => I w').
Proof.
  intros Hbody. revert w. induction n as [|n IH]; intros w HI; cbn [repeat_n].
  - by apply runs_ret.
  - apply runs_bind. eapply runs_mono; [by apply Hbody |].
    intros [] w1 HI1. by apply IH.
Qed.

(** ** Trending histories *)

Lemma trend_to_S q p n : trend_to q p (S n) = trend_to q (p / q) n ++ [p].
Proof. reflexivity. Qed.

Lemma trend_to_nonempty q p n : trend_to q p (S n) <> [].
Proof. rewrite trend_to_S. by destruct (trend_to q (p / q) n). Qed.

Lemma length_trend_to q p n : length (trend_to q p n) = n.
Proof.
  revert p. induction n as [|n IH]; intros p; cbn [trend_to]; [done|].
  rewrite length_app, IH. cbn. lia.
Qed.

Lemma last_or_trend_to q p n : py.last_or 0 (trend_to q p (S n)) = p.
Proof. rewrite trend_to_S. unfold py.last_or. apply List.last_last. Qed.

Lemma last_n_snoc {A} (k : nat) (l : list A) (x : A) :
  (k <= length l)%nat -> py.last_n (S k) (l ++ [x]) = py.last_n k l ++ [x].
Proof.
  intros Hk. unfold py.last_n. rewrite length_app. cbn [length].
  replace (length l + 1 - S k)%nat with (length l - k)%nat by lia.
  by rewrite drop_app_le by lia.
Qed.

(** The last [k] prices of a trend are the trend of length [k]. *)
Lemma last_n_trend_to q p k n :
  (k <= n)%nat -> py.last_n k (trend_to q p n) = trend_to q p k.
Proof.
  revert p n. induction k as [|k IH]; intros p n Hk.
  - unfold py.last_n. rewrite Nat.sub_0_r. by rewrite drop_all.
  - destruct n as [|n]; [lia|].
    rewrite !trend_to_S, last_n_snoc by (rewrite length_trend_to; lia).
    by rewrite IH by lia.
Qed.

Lemma falling_to_S p n : falling_to p (S n) = falling_to (p / 0.997) n ++ [p].
Proof. reflexivity. Qed.

Lemma falling_to_nonempty p n : falling_to p (S n) <> [].
Proof. apply trend_to_nonempty. Qed.

Lemma length_falling_to p n : length (falling_to p n) = n.
Proof. apply length_trend_to. Qed.

(** ** Dictionaries *)

Section Dict.
Context {V : Type}.
Implicit Types (d : py.dict V) (k : string) (v : V).

Lemma getitem_setitem_eq d k v : py.getitem (py.setitem d k v) k = Some v.
Proof.
  induction d as [|[k' v'] d IH]; cbn.
  - by rewrite String.eqb_refl.
  - destruct (String.eqb k k') eqn:E; cbn; rewrite E; [done | exact IH].
Qed.

Lemma getitem_setitem_ne d k k' v :
  k <> k' -> py.getitem (py.setitem d k v) k' = py.getitem d k'.
Proof.
  intros Hne. induction d as [|[k0 v0] d IH]; cbn.
  - destruct (String.eqb k' k) eqn:E; [|done].
    apply String.eqb_eq in E. congruence.
  - destruct (String.eqb k k0) eqn:E; cbn.
    + apply String.eqb_eq in E. subst k0.
      destruct (String.eqb k' k) eqn:E'; [|done].
      apply String.eqb_eq in E'. congruence.
    + by rewrite IH.
Qed.

Lemma keys_setitem d k v v0 :
  py.getitem d k = Some v0 -> py.keys (py.setitem d k v) = py.keys d.
Proof.
  unfold py.keys. induction d as [|[k' v'] d IH]; cbn; [done|].
  destruct (String.eqb k k') eqn:E; cbn; [done|].
  intros H. by rewrite IH.
Qed.

Lemma getitem_of_key d k : k ∈ py.keys d -> exists v, py.getitem d k = Some v.
Proof.
  unfold py.keys. induction d as [|[k' v'] d IH]; cbn.
  - intros H. by apply elem_of_nil in H.
  - intros H. destruct (String.eqb k k') eqn:E; [by eexists|].
    apply elem_of_cons in H as [->|H]; [|by apply IH].
    by rewrite String.eqb_refl in E.
Qed.

Lemma key_of_getitem d k v : py.getitem d k = Some v -> k ∈ py.keys d.
Proof.
  unfold py.keys. induction d as [|[k' v'] d IH]; cbn [py.getitem map fst]; [done|].
  destruct (String.eqb k k') eqn:E.
  - apply String.eqb_eq in E as ->. intros _. by left.
  - intros H. right. by apply IH.
Qed.

Lemma contains_true d k : py.contains d k = true <-> exists v, py.getitem d k = Some v.
Proof.
  unfold py.contains. destruct (py.getitem d k); split; try done; eauto.
  by intros [? ?].
Qed.

End Dict.

(** ** The market process *)

Module market_facts.
Import market_generator.

(** The instrument after one step driven by the draw [z]. *)
Definition stepped (d : Instrument) (z : R) : Instrument :=
  mkInstrument (next_price (price d) (mu d) (sigma d) z)
               (push_history (history d) (next_price (price d) (mu d) (sigma d) z))
               (mu d) (sigma d).

(** Everything but the market and the generator. *)
Definition same_account (w w' : World) : Prop :=
  SIM_STATE w' = SIM_STATE w /\ _global_portfolio w' = _global_portfolio w /\ db w' = db w.

Lemma same_account_refl w : same_account w w.
Proof. by repeat split. Qed.

Lemma same_account_trans w1 w2 w3 :
  same_account w1 w2 -> same_account w2 w3 -> same_account w1 w3.
Proof. intros (?&?&?) (?&?&?). repeat split; congruence. Qed.

Lemma gauss_runs m s w :
  gauss m s w =
    Some (m + normal_samples (random w) (consumed (random w)) * s,
          set_random (mkRandom (normal_samples (random w)) (S (consumed (random w)))) w).
Proof. reflexivity. Qed.

Lemma _step_gbm_runs ticker d w :
  py.getitem (_state w) ticker = Some d ->
  exists z w',
    _step_gbm ticker w = Some (tt, w')
    /\ _state w' = py.setitem (_state w) ticker (stepped d z)
    /\ same_account w w'.
Proof.
  intros Hd.
  exists (0 + normal_samples (random w) (consumed (random w)) * 1). eexists.
  unfold _step_gbm, _state_getitem, bind, gets, modify, ret.
  rewrite Hd. cbn. split; [reflexivity|]. split; [reflexivity|]. by repeat split.
Qed.

(** A property of the single instruments that a step keeps is kept by the
    market as a whole, together with the set of tracked instruments. *)
Section Invariant.
Variable P : Instrument -> Prop.
Hypothesis P_stepped : forall d z, P d -> P (stepped d z).

Definition every_instrument (m : py.dict Instrument) : Prop :=
  forall t d, py.getitem m t = Some d -> P d.

Definition market_inv (w0 w : World) : Prop :=
  py.keys (_state w) = py.keys (_state w0)
  /\ every_instrument (_state w)
  /\ same_account w0 w.

Lemma _step_gbm_inv w0 ticker w :
  ticker ∈ py.keys (_state w) -> market_inv w0 w ->
  runs (_step_gbm ticker) w (fun _ w' => market_inv w0 w').
Proof.
  intros Hin (Hk & Hall & Hacc).
  destruct (getitem_of_key _ _ Hin) as [d Hd].
  destruct (_step_gbm_runs ticker d w Hd) as (z & w' & Hrun & Hst & Hacc').
  eapply runs_eq; [exact Hrun|].
  split; [|split].
  - rewrite Hst. erewrite keys_setitem; eauto.
  - intros t d' Ht. rewrite Hst in Ht.
    destruct (decide (ticker = t)) as [->|Hne].
    + rewrite getitem_setitem_eq in Ht. inversion Ht; subst. eauto.
    + rewrite getitem_setitem_ne in Ht by done. eauto.
  - eapply same_account_trans; eauto.
Qed.

Lemma step_market_inv w0 w :
  market_inv w0 w -> runs step_market w (fun _ w' => market_inv w0 w').
Proof.
  intros HI. unfold step_market. apply runs_bind, runs_gets.
  apply (runs_for_each (market_inv w0)); [|done].
  intros t w1 Ht HI1. apply _step_gbm_inv; [|done].
  destruct HI as (Hk & _), HI1 as (Hk1 & _). by rewrite Hk1, <- Hk.
Qed.

Lemma steps_market_inv n w0 w :
  market_inv w0 w -> runs (repeat_n n step_market) w (fun _ w' => market_inv w0 w').
Proof. intros HI. apply (runs_repeat_n (market_inv w0)); [apply step_market_inv | done]. Qed.

End Invariant.

(** The instrument [get_price] and [get_history] read for a symbol, in a
    market whose INDEX entry is [index]. *)
Definition instrument_at (m : py.dict Instrument) (index : Instrument) (t : string)
  : Instrument :=
  default index (py.getitem m t).

Definition price_at (m : py.dict Instrument) (index : Instrument) (t : string) : R :=
  price (instrument_at m index t).

Lemma get_price_eq w index t :
  py.getitem (_state w) "INDEX" = Some index ->
  get_price t w = Some (price_at (_state w) index t, w).
Proof.
  intros Hidx.
  unfold get_price, _state_getitem, bind, gets, ret, py.contains, price_at, instrument_at.
  destruct (py.getitem (_state w) t) as [d|] eqn:E; cbn.
  - by rewrite E.
  - by rewrite Hidx.
Qed.

Lemma get_history_eq w index t :
  py.getitem (_state w) "INDEX" = Some index ->
  get_history t w = Some (history (instrument_at (_state w) index t), w).
Proof.
  intros Hidx.
  unfold get_history, _state_getitem, bind, gets, ret, py.contains, instrument_at.
  destruct (py.getitem (_state w) t) as [d|] eqn:E; cbn.
  - by rewrite E.
  - by rewrite Hidx.
Qed.

End market_facts.

(** ** Prices stay positive and keep moving *)

Module price_facts.
Import market_generator market_facts.

Lemma next_price_cases p m s z :
  (next_price p m s z = p * exp ((m - 0.5 * s ^ 2) + s * z)
   /\ 1e-6 <= Rabs (next_price p m s z - p))
  \/ next_price p m s z = p * (1 + 0.003)
  \/ next_price p m s z = p * (1 - 0.003).
Proof.
  unfold next_price. cbv zeta.
  destruct (bool_decide (p * exp (m - 0.5 * s ^ 2 + s * z) <= 0)) eqn:E1; cbn [orb].
  - destruct (bool_decide (z >= 0)); right; [left | right]; f_equal; lra.
  - destruct (bool_decide (Rabs (p * exp (m - 0.5 * s ^ 2 + s * z) - p) < 1e-6)) eqn:E2.
    + destruct (bool_decide (z >= 0)); right; [left | right]; f_equal; lra.
    + left. split; [done|]. apply bool_decide_eq_false in E2. lra.
Qed.

Lemma next_price_pos p m s z : 0 < p -> 0 < next_price p m s z.
Proof.
  intros Hp. destruct (next_price_cases p m s z) as [[-> _]|[->| ->]].
  - apply Rmult_lt_0_compat; [done | apply exp_pos].
  - nra.
  - nra.
Qed.

Lemma Forall_push_history (Q : R -> Prop) h p :
  Forall Q h -> Q p -> Forall Q (push_history h p).
Proof.
  intros Hh Hp. unfold push_history. cbv zeta.
  assert (Forall Q (h ++ [p])) by (apply Forall_app; split; [done | by constructor]).
  destruct (bool_decide _); [by apply Forall_drop | done].
Qed.

(** C7, for the single instrument. *)
Definition positive (d : Instrument) : Prop :=
  0 < price d /\ Forall (fun p => 0 < p) (history d).

Lemma positive_stepped d z : positive d -> positive (stepped d z).
Proof.
  intros [Hp Hh]. split; cbn.
  - by apply next_price_pos.
  - apply Forall_push_history; [done | by apply next_price_pos].
Qed.

Lemma positive_literal : every_instrument positive _state_literal.
Proof.
  intros t d. unfold _state_literal. cbn.
  repeat (destruct (String.eqb t _); [intros [= <-]; split; cbn; [lra | constructor] |]).
  done.
Qed.

(** The move from a price [p] to the next price [q] that the nudge policy
    guarantees: at least [1e-6] in absolute value, or the fixed 0.3% nudge. *)
Definition visible_move (p q : R) : Prop :=
  1e-6 <= Rabs (q - p) \/ q = p * (1 + 0.003) \/ q = p * (1 - 0.003).

Definition consecutive (rel : R -> R -> Prop) (h : list R) : Prop :=
  forall (i : nat) p q, h !! i = Some p -> h !! S i = Some q -> rel p q.


Lemma next_price_visible p m s z : visible_move p (next_price p m s z).
Proof.
  destruct (next_price_cases p m s z) as [[_ H]|[H|H]]; [by left | |].
  - right. by left.
  - right. by right.
Qed.

Lemma consecutive_drop rel h n : consecutive rel h -> consecutive rel (drop n h).
Proof.
  intros H i p q. rewrite !lookup_drop. replace (n + S i)%nat with (S (n + i)) by lia.
  apply H.
Qed.

Lemma consecutive_snoc rel h p :
  consecutive rel h -> (forall l, last h = Some l -> rel l p) ->
  consecutive rel (h ++ [p]).
Proof.
  intros Hh Hl i a b Ha Hb.
  destruct (decide (S i < length h)%nat) as [Hlt|Hge].
  - rewrite lookup_app_l in Ha by lia. rewrite lookup_app_l in Hb by lia. eauto.
  - assert (S i = length h) as Hi.
    { apply lookup_lt_Some in Hb. rewrite length_app in Hb. cbn in Hb. lia. }
    rewrite lookup_app_l in Ha by lia.
    rewrite Hi, lookup_app_r, Nat.sub_diag in Hb by lia. cbn in Hb.
    injection Hb as <-. apply Hl.
    rewrite last_lookup. rewrite <- Ha. f_equal. lia.
Qed.

Lemma push_history_short h p :
  (length h < 2000)%nat -> push_history h p = h ++ [p].
Proof.
  intros H. unfold push_history. cbv zeta.
  rewrite bool_decide_eq_false_2; [done|]. rewrite length_app. cbn. lia.
Qed.

Lemma last_push_history h p : last (push_history h p) = Some p.
Proof.
  unfold push_history. cbv zeta.
  destruct (bool_decide _) eqn:E; [|by rewrite last_snoc].
  apply bool_decide_eq_true in E. rewrite length_app in E. cbn in E.
  rewrite last_lookup, length_drop, lookup_drop, length_app. cbn.
  replace (S (Init.Nat.pred (length h + 1 - 1))) with (length h) by lia.
  rewrite lookup_app_r by lia. by rewrite Nat.sub_diag.
Qed.

(** C8 as the code has it, for the single instrument: the history ends at
    the current price, which is positive, and its consecutive entries are
    visible moves. *)
Definition moving (d : Instrument) : Prop :=
  0 < price d
  /\ Forall (fun p => 0 < p) (history d)
  /\ (forall l, last (history d) = Some l -> l = price d)
  /\ consecutive visible_move (history d).

Lemma moving_stepped d z : moving d -> moving (stepped d z).
Proof.
  intros (Hp & Hpos & Hlast & Hcons). split; [|split; [|split]]; cbn.
  - by apply next_price_pos.
  - apply Forall_push_history; [done | by apply next_price_pos].
  - intros l Hl. rewrite last_push_history in Hl. congruence.
  - unfold push_history. cbv zeta.
    assert (consecutive visible_move (history d ++ [next_price (price d) (mu d) (sigma d) z])).
    { apply consecutive_snoc; [done|].
      intros l Hl. rewrite (Hlast l Hl). apply next_price_visible. }
    destruct (bool_decide _); [by apply consecutive_drop | done].
Qed.

Lemma moving_literal : every_instrument moving _state_literal.
Proof.
  intros t d. unfold _state_literal. cbn.
  repeat (destruct (String.eqb t _);
          [intros [= <-]; repeat split; cbn; [lra | constructor | done | by intros [|?] ? ?] |]).
  done.
Qed.

Lemma market_inv_literal P samples :
  every_instrument P _state_literal ->
  market_inv P (world_literal samples) (world_literal samples).
Proof. intros H. split; [done|]. split; [exact H | apply same_account_refl]. Qed.

End price_facts.

(** ** The market: the claims *)

(** C7 (price positivity).  Whatever the draws and the number [N] of
    [step_market] calls made from the module's initial [_state], the calls
    return, and afterwards every tracked instrument has a strictly positive
    current price and a history of strictly positive prices. *)
Theorem price_positivity (samples : nat -> R) (N : nat) :
  exists w',
    repeat_n N market_generator.step_market (world_literal samples) = Some (tt, w')
    /\ forall t d, py.getitem (_state w') t = Some d ->
         0 < price d /\ Forall (fun p => 0 < p) (history d).
Proof.
  destruct (market_facts.steps_market_inv price_facts.positive
              price_facts.positive_stepped N
              (world_literal samples) (world_literal samples))
    as ([] & w' & Hrun & _ & Hall & _).
  { apply price_facts.market_inv_literal, price_facts.positive_literal. }
  exists w'. split; [exact Hrun|]. intros t d Hd. exact (Hall t d Hd).
Qed.






(** One step of a market that tracks the three instruments of the source. *)
Lemma step_market_three i a b sim pf dbt smp c :
  market_generator.step_market
    (mkWorld [("INDEX", i); ("STOCK_A", a); ("STOCK_B", b)] sim pf dbt (mkRandom smp c))
  = Some (tt,
      mkWorld [("INDEX", market_facts.stepped i (0 + smp c * 1));
               ("STOCK_A", market_facts.stepped a (0 + smp (S c) * 1));
               ("STOCK_B", market_facts.stepped b (0 + smp (S (S c)) * 1))]
              sim pf dbt (mkRandom smp (S (S (S c))))).
Proof. reflexivity. Qed.





(** ** Reading the market *)

(** C9.  In a world whose [_state] tracks INDEX (as every world the program
    reaches does, see [index_stays_tracked]), [get_price] and [get_history]
    return for every symbol, leave the world as it is, and answer with the
    instrument of the symbol when it is tracked and with INDEX otherwise. *)
Theorem get_price_get_history_fallback (w : World) (ticker : string) (index : Instrument) :
  py.getitem (_state w) "INDEX" = Some index ->
  let d := default index (py.getitem (_state w) ticker) in
  market_generator.get_price ticker w = Some (price d, w)
  /\ market_generator.get_history ticker w = Some (history d, w).
Proof.
  intros Hidx d. split.
  - by apply market_facts.get_price_eq.
  - by apply market_facts.get_history_eq.
Qed.

(** "GOLD" is not tracked and reads as INDEX; "STOCK_A" is tracked. *)
Lemma get_price_get_history_fallback_witness :
  market_generator.get_price "GOLD" world_at_50 = Some (50, world_at_50)
  /\ market_generator.get_history "STOCK_A" world_at_50
     = Some (falling_to 60 200, world_at_50).
Proof.
  split.
  - apply (get_price_get_history_fallback world_at_50 "GOLD" index_at_50). reflexivity.
  - apply (get_price_get_history_fallback world_at_50 "STOCK_A" index_at_50). reflexivity.
Defined.

(** The steps of the market never drop INDEX. *)
Lemma index_stays_tracked (samples : nat -> R) (N : nat) :
  exists w',
    repeat_n N market_generator.step_market (world_literal samples) = Some (tt, w')
    /\ py.contains (_state w') "INDEX" = true.
Proof.
  destruct (market_facts.steps_market_inv (fun _ => True) (fun _ _ _ => I) N
              (world_literal samples) (world_literal samples))
    as ([] & w' & Hrun & Hk & _).
  { by apply price_facts.market_inv_literal. }
  exists w'. split; [exact Hrun|].
  apply contains_true, getitem_of_key. rewrite Hk. cbn. set_solver.
Qed.

(** ** The ledger *)

Module ledger_facts.
Import market_generator market_facts investment_agent.

(** The loop of [portfolio_value] as a function of the prices. *)
Fixpoint items_value (pr : string -> R) (items : list (string * R)) (total : R) : R :=
  match items with
  | [] => total
  | (t, units) :: items' => items_value pr items' (total + units * pr t)
  end.

(** The value of the holdings, position cash left out. *)
Definition holdings_value (pr : string -> R) (pos : gmap string R) : R :=
  items_value pr (map_to_list pos) 0.

Lemma items_value_total pr items total :
  items_value pr items total = total + items_value pr items 0.
Proof.
  revert total. induction items as [|[t u] items IH]; intros total; cbn.
  - lra.
  - rewrite IH, (IH (0 + u * pr t)). lra.
Qed.

Lemma items_value_perm pr items items' total :
  items ≡ₚ items' -> items_value pr items total = items_value pr items' total.
Proof.
  intros Hperm. revert total.
  induction Hperm as [|[t u] l l' _ IH|[t u] [t' u'] l|l l' l'' _ IH1 _ IH2];
    intros total; cbn.
  - done.
  - apply IH.
  - f_equal. lra.
  - by rewrite IH1.
Qed.

Lemma holdings_value_insert_fresh pr pos t u :
  pos !! t = None ->
  holdings_value pr (<[t := u]> pos) = holdings_value pr pos + u * pr t.
Proof.
  intros Hnone. unfold holdings_value.
  rewrite (items_value_perm _ _ _ _ (map_to_list_insert pos t u Hnone)). cbn.
  rewrite items_value_total. lra.
Qed.

Lemma holdings_value_delete pr pos t :
  holdings_value pr (delete t pos)
  = holdings_value pr pos - default 0 (pos !! t) * pr t.
Proof.
  destruct (pos !! t) as [u|] eqn:E; cbn.
  - rewrite <- (insert_delete_id pos t u E) at 2.
    rewrite holdings_value_insert_fresh by apply lookup_delete_eq. lra.
  - rewrite delete_id by done. lra.
Qed.

Lemma holdings_value_insert pr pos t u :
  holdings_value pr (<[t := u]> pos)
  = holdings_value pr pos - default 0 (pos !! t) * pr t + u * pr t.
Proof.
  rewrite <- insert_delete_eq.
  rewrite holdings_value_insert_fresh by apply lookup_delete_eq.
  rewrite holdings_value_delete. lra.
Qed.

(** [Portfolio.buy] as a function of the price it reads. *)
Definition bought (self : Portfolio) (t : string) (amount p : R) : Result.t * Portfolio :=
  if bool_decide (Rmax 0 amount <= 0) then
    (Result.mk (Some "noop") (Some t) (Some 0) (Some 0) None, self)
  else if bool_decide (p <= 0) then
    (Result.mk (Some "failed") (Some t) (Some 0) (Some 0) None, self)
  else
    (Result.mk (Some "filled") (Some t) (Some (Rmax 0 amount)) (Some (Rmax 0 amount / p)) (Some p),
     mkPortfolio (cash self)
       (<[t := default 0 (positions self !! t) + Rmax 0 amount / p]> (positions self))).

Section Reads.
Variables (w : World) (index : Instrument).
Hypothesis Hidx : py.getitem (_state w) "INDEX" = Some index.

Lemma Portfolio_buy_eq self t amount :
  Portfolio_buy self t amount w
  = Some (bought self t amount (price_at (_state w) index t), w).
Proof.
  unfold Portfolio_buy, bought. cbv zeta.
  destruct (bool_decide (Rmax 0 amount <= 0)); [reflexivity|].
  unfold bind. rewrite (get_price_eq w index t Hidx).
  destruct (bool_decide (price_at (_state w) index t <= 0)); reflexivity.
Qed.

Lemma buy_eq t amount :
  buy t amount w
  = Some (fst (bought (_global_portfolio w) t amount (price_at (_state w) index t)),
          set__global_portfolio
            (snd (bought (_global_portfolio w) t amount (price_at (_state w) index t))) w).
Proof.
  unfold buy, bind, gets. rewrite Portfolio_buy_eq. reflexivity.
Qed.


Lemma value_of_items_eq items total :
  value_of_items items total w
  = Some (items_value (price_at (_state w) index) items total, w).
Proof.
  revert total. induction items as [|[t u] items IH]; intros total; cbn.
  - reflexivity.
  - unfold bind. rewrite (get_price_eq w index t Hidx). apply IH.
Qed.

Lemma Portfolio_portfolio_value_eq self :
  Portfolio_portfolio_value self w
  = Some (cash self + holdings_value (price_at (_state w) index) (positions self), w).
Proof.
  unfold Portfolio_portfolio_value. rewrite value_of_items_eq.
  by rewrite items_value_total.
Qed.

Lemma get_portfolio_value_eq :
  get_portfolio_value w
  = Some (cash (_global_portfolio w)
          + holdings_value (price_at (_state w) index) (positions (_global_portfolio w)), w).
Proof. unfold get_portfolio_value, bind, gets. apply Portfolio_portfolio_value_eq. Qed.

Lemma Portfolio_buy_filled self t amount :
  0 < amount -> 0 < price_at (_state w) index t ->
  Portfolio_buy self t amount w
  = Some ((Result.mk (Some "filled") (Some t) (Some amount)
             (Some (amount / price_at (_state w) index t))
             (Some (price_at (_state w) index t)),
           mkPortfolio (cash self)
             (<[t := default 0 (positions self !! t)
                     + amount / price_at (_state w) index t]> (positions self))), w).
Proof.
  intros Ha Hp. unfold Portfolio_buy. cbv zeta.
  rewrite Rmax_right by lra.
  rewrite bool_decide_eq_false_2 by lra.
  unfold bind. rewrite (get_price_eq w index t Hidx).
  rewrite bool_decide_eq_false_2 by lra. reflexivity.
Qed.

Lemma Portfolio_buy_noop self t amount :
  amount <= 0 ->
  Portfolio_buy self t amount w
  = Some ((Result.mk (Some "noop") (Some t) (Some 0) (Some 0) None, self), w).
Proof.
  intros Ha. unfold Portfolio_buy. cbv zeta.
  rewrite bool_decide_eq_true_2; [done|].
  unfold Rmax. destruct (Rle_dec 0 amount); lra.
Qed.

End Reads.

End ledger_facts.

(** C6, at a failing input, in binary64.  An empty ledger buys for 100 while
    INDEX trades at 102 and is credited [100 / 102] units.  It then sells,
    asking for 1000, while INDEX trades at 103: the sale is filled and
    clamped to [units_owned * 103], which is credited to position cash (and
    is not [100 * 103 / 102]); the units sold, [units_owned * 103 / 103],
    fall short of the units held, so the remainder is positive, the test
    [== 0.0] fails and the entry of INDEX stays.  At the prices of the
    claim's own example, 50 and 50, the same two calls give 2 units, then
    100 of cash and no entry. *)
Theorem over_request_leaves_dust :
  exists r1 self1 r2 self2 dust r1' self1' r2' self2',
    binary64.Portfolio_buy [("INDEX", 102%float)] (binary64.Portfolio__init__ 0) "INDEX" 100
    = Some (r1, self1)
    /\ binary64.positions self1 = [("INDEX", (100 / 102)%float)]
    /\ binary64.Portfolio_sell [("INDEX", 103%float)] self1 "INDEX" 1000 = Some (r2, self2)
    /\ binary64.Result.status r2 = Some "filled"
    /\ binary64.Result.amount r2 = Some (100 / 102 * 103)%float
    /\ binary64.cash self2 = (100 / 102 * 103)%float
    /\ (binary64.cash self2 =? 100 * 103 / 102)%float = false
    /\ binary64.positions self2 = [("INDEX", dust)]
    /\ dust = (100 / 102 - 100 / 102 * 103 / 103)%float
    /\ (0 <? dust)%float = true
    /\ binary64.Portfolio_buy [("INDEX", 50%float)] (binary64.Portfolio__init__ 0) "INDEX" 100
       = Some (r1', self1')
    /\ binary64.positions self1' = [("INDEX", 2%float)]
    /\ binary64.Portfolio_sell [("INDEX", 50%float)] self1' "INDEX" 1000 = Some (r2', self2')
    /\ binary64.Result.amount r2' = Some 100%float
    /\ self2' = binary64.mkPortfolio 100 [].
Proof.
  do 9 eexists.
  split; [vm_compute; reflexivity|]. split; [reflexivity|].
  split; [vm_compute; reflexivity|]. split; [reflexivity|].
  split; [vm_compute; reflexivity|]. split; [vm_compute; reflexivity|].
  split; [vm_compute; reflexivity|].
  split; [reflexivity|]. split; [vm_compute; reflexivity|].
  split; [vm_compute; reflexivity|].
  split; [vm_compute; reflexivity|]. split; [reflexivity|].
  split; [vm_compute; reflexivity|]. split; reflexivity.
Qed.

(** ** The signal generator *)

(** C5 (volatility veto).  For a non-empty history whose realized
    volatility exceeds 0.06, [analyze_market] answers "hold" with
    confidence 20, whatever the moving averages and the last price are. *)
Theorem volatility_veto (history : list R) :
  history <> [] ->
  trading_bot._volatility history > 0.06 ->
  trading_bot.analyze_market history
  = SignalInfo.mk "hold" 20 (trading_bot._volatility history).
Proof.
  intros Hne Hvol. destruct history as [|p history]; [done|].
  unfold trading_bot.analyze_market. cbv zeta.
  by rewrite bool_decide_eq_true_2.
Qed.

(** Fifteen prices that swing between 100 and 125, then a breakout to 330:
    the moving averages cross upwards while the returns are noisy. *)
Definition breakout_history : list R :=
  [100; 125; 100; 125; 100; 125; 100; 125; 100; 125;
   100; 125; 100; 125; 100; 250; 275; 220; 275; 330].

Lemma breakout_volatility : trading_bot._volatility breakout_history > 0.06.
Proof.
  unfold trading_bot._volatility, breakout_history.
  rewrite bool_decide_eq_false_2 by (cbn [length]; lia).
  cbn [returns]. rewrite !bool_decide_eq_true_2 by lra. cbn [app].
  unfold std_of_returns, py.sum, py.len. cbn [foldl map length INR].
  rewrite <- (sqrt_square 0.06) by lra.
  apply Rlt_gt, sqrt_lt_1_alt. lra.
Qed.

(** On this history the crossover rule alone says "buy". *)
Lemma breakout_crossover :
  trading_bot.crossover
    (py.or_else (trading_bot._sma breakout_history 5) (py.last_or 0 breakout_history))
    (py.or_else (trading_bot._sma breakout_history 20)
       (py.or_else (trading_bot._sma breakout_history 5) (py.last_or 0 breakout_history)))
    (py.last_or 0 breakout_history)
    (trading_bot._volatility breakout_history)
  = ("buy", 70%Z).
Proof.
  pose proof breakout_volatility as Hvol.
  set (vol := trading_bot._volatility breakout_history) in *.
  assert (py.or_else (trading_bot._sma breakout_history 5) (py.last_or 0 breakout_history) = 270)
    as ->.
  { unfold trading_bot._sma, breakout_history.
    rewrite bool_decide_eq_false_2 by (cbn [length]; lia).
    cbn [py.last_n length drop Nat.sub]. unfold py.sum, py.or_else. cbn [foldl INR].
    rewrite bool_decide_eq_false_2 by lra. lra. }
  assert (py.or_else (trading_bot._sma breakout_history 20) 270 = 151.25) as ->.
  { unfold trading_bot._sma, breakout_history.
    rewrite bool_decide_eq_false_2 by (cbn [length]; lia).
    cbn [py.last_n length drop Nat.sub]. unfold py.sum, py.or_else. cbn [foldl INR].
    rewrite bool_decide_eq_false_2 by lra. lra. }
  assert (py.last_or 0 breakout_history = 330) as -> by reflexivity.
  unfold trading_bot.crossover.
  rewrite (bool_decide_eq_true_2 (270 > _)) by lra.
  rewrite (bool_decide_eq_true_2 (330 > _)) by lra.
  rewrite (bool_decide_eq_false_2 (vol < 0.02)) by lra.
  reflexivity.
Qed.

Lemma volatility_veto_witness :
  trading_bot.analyze_market breakout_history
  = SignalInfo.mk "hold" 20 (trading_bot._volatility breakout_history).
Proof.
  apply (volatility_veto breakout_history); [done | apply breakout_volatility].
Defined.

(** ** Sums, means and deviations *)

Module stats_facts.

Lemma foldl_Rplus a xs : foldl Rplus a xs = a + foldl Rplus 0 xs.
Proof.
  revert a. induction xs as [|y xs IH]; intros a; cbn [foldl]; [lra|].
  rewrite IH, (IH (0 + y)). lra.
Qed.

Lemma sum_cons x xs : py.sum (x :: xs) = x + py.sum xs.
Proof. unfold py.sum. cbn [foldl]. rewrite foldl_Rplus. lra. Qed.

Lemma len_cons {A} (x : A) xs : py.len (x :: xs) = py.len xs + 1.
Proof. unfold py.len. cbn [length]. by rewrite S_INR. Qed.

Lemma len_nonneg {A} (xs : list A) : 0 <= py.len xs.
Proof. apply pos_INR. Qed.

Lemma sum_bounds lo hi xs :
  Forall (fun x => lo <= x <= hi) xs ->
  py.len xs * lo <= py.sum xs <= py.len xs * hi.
Proof.
  induction 1 as [|x xs Hx _ IH].
  - unfold py.sum, py.len. cbn. lra.
  - rewrite sum_cons, len_cons. lra.
Qed.

Lemma mean_bounds lo hi xs :
  0 < py.len xs -> Forall (fun x => lo <= x <= hi) xs ->
  lo <= py.sum xs / py.len xs <= hi.
Proof.
  intros Hn Hall. pose proof (sum_bounds lo hi xs Hall) as [H1 H2]. split.
  - apply Rmult_le_reg_r with (py.len xs); [done|].
    unfold Rdiv. rewrite Rmult_assoc, Rinv_l by lra. lra.
  - apply Rmult_le_reg_r with (py.len xs); [done|].
    unfold Rdiv. rewrite Rmult_assoc, Rinv_l by lra. lra.
Qed.

(** Returns that all lie in [[lo, hi]] deviate by at most [hi - lo]. *)
Lemma std_of_returns_le lo hi rets :
  lo <= hi -> Forall (fun r => lo <= r <= hi) rets -> std_of_returns rets <= hi - lo.
Proof.
  intros Hlh Hall. unfold std_of_returns.
  destruct rets as [|r0 rets0] eqn:E; [lra|]. rewrite <- E in *. cbv zeta.
  assert (0 < py.len rets) as Hn.
  { rewrite E, len_cons. pose proof (len_nonneg rets0). lra. }
  clear E r0 rets0.
  set (mu := py.sum rets / py.len rets).
  assert (lo <= mu <= hi) as Hmu by (by apply mean_bounds).
  assert (Forall (fun s => 0 <= s <= (hi - lo) ^ 2) (map (fun r => (r - mu) ^ 2) rets)) as Hsq.
  { apply Forall_map. eapply Forall_impl; [exact Hall|].
    intros r Hr. cbn beta. split; [apply pow2_ge_0|].
    assert (0 <= (hi - lo - (r - mu)) * (hi - lo + (r - mu))) by (apply Rmult_le_pos; lra).
    lra. }
  assert (py.len (map (fun r => (r - mu) ^ 2) rets) = py.len rets) as Hlen.
  { unfold py.len. by rewrite length_map. }
  pose proof (mean_bounds _ _ _ ltac:(by rewrite Hlen) Hsq) as [Hv0 Hv1].
  rewrite Hlen in Hv0, Hv1.
  rewrite <- (sqrt_pow2 (hi - lo)) by lra.
  by apply sqrt_le_1_alt.
Qed.

Lemma std_of_returns_nonneg rets : 0 <= std_of_returns rets.
Proof. unfold std_of_returns. destruct rets; [lra | apply sqrt_pos]. Qed.

End stats_facts.

(** ** Trends: returns, dispersion and averages *)

Lemma falling_to_above p n : 0 < p -> Forall (fun x => p <= x) (falling_to p n).
Proof.
  unfold falling_to.
  revert p. induction n as [|n IH]; intros p Hp; cbn [trend_to]; [constructor|].
  assert (p <= p / 0.997) as Hle.
  { apply Rmult_le_reg_r with 0.997; [lra|]. unfold Rdiv.
    rewrite Rmult_assoc, Rinv_l by lra. lra. }
  apply Forall_app. split; [|apply Forall_cons; split; [lra | constructor]].
  eapply Forall_impl; [apply IH; lra|]. intros x Hx. cbn beta in Hx. lra.
Qed.

Lemma returns_snoc l a b :
  returns (l ++ [a; b])
  = returns (l ++ [a]) ++ (if bool_decide (a > 0) then [(b - a) / a] else []).
Proof.
  induction l as [|x l IH].
  - cbn [app returns]. by rewrite app_nil_r.
  - destruct l as [|y l].
    + cbn [app returns]. by rewrite !app_nil_r.
    + cbn [app returns] in *. rewrite IH. by rewrite app_assoc.
Qed.

(** Every return of a trend is [q - 1]. *)
Lemma trend_to_returns q p n :
  0 < q -> 0 < p -> Forall (fun r => q - 1 <= r <= q - 1) (returns (trend_to q p n)).
Proof.
  intros Hq. revert p. induction n as [|n IH]; intros p Hp; [constructor|].
  destruct n as [|n]; [constructor|].
  assert (0 < p / q) as Hpq by (by apply Rdiv_lt_0_compat).
  change (trend_to q p (S (S n)))
    with ((trend_to q (p / q / q) n ++ [p / q]) ++ [p]).
  rewrite <- app_assoc. cbn [app]. rewrite returns_snoc.
  apply Forall_app. split; [exact (IH (p / q) Hpq)|].
  rewrite bool_decide_eq_true_2 by lra.
  replace ((p - p / q) / (p / q)) with (q - 1) by (field; lra).
  apply Forall_cons. split; [lra | constructor].
Qed.

(** A trend has no dispersion. *)
Lemma trend_to_volatility q p n :
  0 < q -> 0 < p -> std_of_returns (returns (trend_to q p n)) = 0.
Proof.
  intros Hq Hp. apply Rle_antisym; [|apply stats_facts.std_of_returns_nonneg].
  replace 0 with ((q - 1) - (q - 1)) by lra.
  apply stats_facts.std_of_returns_le; [lra | by apply trend_to_returns].
Qed.

Lemma falling_volatility p n : 0 < p -> std_of_returns (returns (falling_to p n)) = 0.
Proof. intros Hp. apply trend_to_volatility; lra. Qed.

Lemma _sma_trend_to q p n k :
  (k <= n)%nat ->
  trading_bot._sma (trend_to q p n) k = Some (py.sum (trend_to q p k) / INR k).
Proof.
  intros Hk. unfold trading_bot._sma.
  rewrite bool_decide_eq_false_2 by (rewrite length_trend_to; lia).
  by rewrite last_n_trend_to.
Qed.

Lemma sum_lower lo xs :
  Forall (fun x => lo <= x) xs -> py.len xs * lo <= py.sum xs.
Proof.
  induction 1 as [|x xs Hx _ IH].
  - unfold py.sum, py.len. cbn. lra.
  - rewrite stats_facts.sum_cons, stats_facts.len_cons. lra.
Qed.

(** A moving average of prices that are all at least [p] is at least [p]. *)
Lemma _sma_lower p h k v :
  (0 < k)%nat -> Forall (fun x => p <= x) h -> trading_bot._sma h k = Some v -> p <= v.
Proof.
  intros Hk Hall. unfold trading_bot._sma.
  destruct (bool_decide (length h < k)%nat) eqn:E; [done|].
  apply bool_decide_eq_false in E. intros [= <-].
  assert (py.len (py.last_n k h) = INR k) as Hlen.
  { unfold py.len, py.last_n. rewrite length_drop. f_equal. lia. }
  pose proof (sum_lower p (py.last_n k h) (Forall_drop _ _ _ Hall)) as Hsum.
  rewrite Hlen in Hsum.
  assert (0 < INR k) by (apply lt_0_INR; lia).
  apply Rmult_le_reg_r with (INR k); [done|].
  unfold Rdiv. rewrite Rmult_assoc, Rinv_l by lra. lra.
Qed.

Lemma or_else_lower p x y :
  (forall v, x = Some v -> p <= v) -> p <= y -> p <= py.or_else x y.
Proof.
  intros Hx Hy. unfold py.or_else. destruct x as [v|]; [|done].
  destruct (bool_decide (v = 0)); [done | by apply Hx].
Qed.

(** On a falling history the last price is not above the long average:
    the crossover rule does not say "buy", and the volatility is 0. *)
Lemma falling_signal p n :
  0 < p ->
  SignalInfo.signal (trading_bot.analyze_market (falling_to p (S n))) <> "buy"
  /\ SignalInfo.volatility (trading_bot.analyze_market (falling_to p (S n))) = 0.
Proof.
  intros Hp.
  assert (trading_bot._volatility (falling_to p (S n)) = 0) as Hvol.
  { unfold trading_bot._volatility.
    destruct (bool_decide _); [done | by apply falling_volatility]. }
  pose proof (falling_to_above p (S n) Hp) as Hall.
  assert (py.last_or 0 (falling_to p (S n)) = p) as Hlast.
  { rewrite falling_to_S. unfold py.last_or. apply List.last_last. }
  unfold trading_bot.analyze_market.
  destruct (falling_to p (S n)) as [|x h] eqn:E.
  { rewrite falling_to_S in E. by destruct (falling_to (p / 0.997) n). }
  cbv zeta. rewrite Hvol, Hlast.
  rewrite (bool_decide_eq_false_2 (0 > 0.06)) by lra.
  cbn [SignalInfo.signal SignalInfo.volatility]. split; [|done].
  set (short := py.or_else (trading_bot._sma (x :: h) 5) p).
  set (long := py.or_else (trading_bot._sma (x :: h) 20) short).
  assert (p <= short) as Hshort.
  { apply or_else_lower; [|lra]. intros v. apply _sma_lower; [lia | done]. }
  assert (p <= long) as Hlong.
  { apply or_else_lower; [|done]. intros v. apply _sma_lower; [lia | done]. }
  unfold trading_bot.crossover.
  rewrite (bool_decide_eq_false_2 (p > long)) by lra.
  rewrite andb_false_r.
  by destruct (_ && _).
Qed.

(** ** The sizing policy *)

Module sizing_facts.
Import investment_agent.

(** The price [evaluate_with] compares the forecast with. *)
Definition last_price (history : list R) (pred_price : R) : R :=
  match history with [] => pred_price | _ :: _ => py.last_or 0 history end.

Definition profile_of (state : State.t) : string :=
  default "balanced" (State.risk_profile state).

(** The five conditions of the lump-sum upgrade. *)
Definition lumpsum_conditions (state : State.t) (history : list R)
    (signal_info : SignalInfo.t) (pred_price : R) : Prop :=
  SignalInfo.signal signal_info = "buy"
  /\ (SignalInfo.confidence signal_info >= 75)%Z
  /\ pred_price > last_price history pred_price
  /\ SignalInfo.volatility signal_info < RiskConfig.max_vol (risk_config_get (profile_of state))
  /\ RiskConfig.lumpsum_factor (risk_config_get (profile_of state)) > 0.

(** Recurring contribution times the profile's lump-sum factor. *)
Definition lumpsum_amount (state : State.t) (history : list R) : R :=
  _compute_sip state history (profile_of state)
  * RiskConfig.lumpsum_factor (risk_config_get (profile_of state)).

Lemma lump_test_iff state history signal_info pred_price :
  String.eqb (SignalInfo.signal signal_info) "buy"
  && bool_decide (SignalInfo.confidence signal_info >= 75)%Z
  && bool_decide (pred_price > last_price history pred_price)
  && bool_decide (SignalInfo.volatility signal_info
                  < RiskConfig.max_vol (risk_config_get (profile_of state)))
  && bool_decide (RiskConfig.lumpsum_factor (risk_config_get (profile_of state)) > 0)
  = true
  <-> lumpsum_conditions state history signal_info pred_price.
Proof.
  unfold lumpsum_conditions.
  rewrite !andb_true_iff, !bool_decide_eq_true, String.eqb_eq. tauto.
Qed.

Lemma evaluate_with_mode state history signal_info pred_price :
  let opp := evaluate_with state history signal_info pred_price in
  (Opportunity.mode opp = "lumpsum"
   <-> lumpsum_conditions state history signal_info pred_price
       /\ lumpsum_amount state history > 0)
  /\ (Opportunity.mode opp = "lumpsum" ->
      Opportunity.should_invest opp = true
      /\ Opportunity.amount opp = lumpsum_amount state history)
  /\ (Opportunity.mode opp <> "lumpsum" -> Opportunity.mode opp = "sip").
Proof.
  pose proof (lump_test_iff state history signal_info pred_price) as Hlump.
  unfold evaluate_with. cbv zeta. fold (profile_of state).
  fold (last_price history pred_price). fold (lumpsum_amount state history).
  destruct (_ && _ && _ && _ && _) eqn:E; cbn [Opportunity.mode Opportunity.amount
    Opportunity.should_invest].
  - destruct (bool_decide (lumpsum_amount state history > 0)) eqn:Ea.
    + apply bool_decide_eq_true in Ea. split; [|split]; try done.
      * split; [|done]. intros _. split; [by apply Hlump | done].
      * intros _. split; [done|]. apply Rmax_left. lra.
    + apply bool_decide_eq_false in Ea. split; [|split]; try done.
      split; [done|]. intros [_ ?]. done.
  - assert (~ lumpsum_conditions state history signal_info pred_price) as Hn.
    { intros H. apply Hlump in H. done. }
    set (b := bool_decide (_compute_sip state history (profile_of state) > 0) && _).
    assert ((if b then "sip" else "sip") = "sip") as -> by (by destruct b).
    split; [|split]; [split; [done | intros [? _]; done] | done | done].
Qed.

Lemma evaluate_investment_opportunity_eq w index state :
  py.getitem (_state w) "INDEX" = Some index ->
  evaluate_investment_opportunity state w
  = Some (evaluate_with state (history index)
            (trading_bot.analyze_market (history index))
            (trading_bot.predict_price (history index)), w).
Proof.
  intros Hidx. unfold evaluate_investment_opportunity, bind.
  rewrite (market_facts.get_history_eq w index "INDEX" Hidx).
  unfold market_facts.instrument_at. rewrite Hidx. reflexivity.
Qed.

End sizing_facts.

(** *** The emergency buffer *)

(** An account with cash 1000 and an emergency buffer of 900, the only
    other key being the income. *)
Definition buffered_state (income : R) : State.t :=
  State.mk None None None None None None None
           (Some 1000)      (* bank_balance *)
           (Some income)    (* monthly_income *)
           None
           (Some 900)       (* emergency_buffer *)
           None None None None None None None.

(** C3, at the failing input.  With cash 1000, emergency buffer 900, income
    5000, no volatility and the aggressive profile, the cap at
    [available = 100] is applied before the profile's [sip_factor] of 1.5,
    and [_compute_sip] returns 150. *)
Theorem sip_exceeds_available_cash :
  investment_agent._compute_sip (buffered_state 5000) [] "aggressive" = 150.
Proof.
  unfold investment_agent._compute_sip, buffered_state. cbv zeta.
  cbn [State.bank_balance State.balance State.monthly_income State.income_rate
       State.monthly_expense State.expense_rate State.emergency_buffer State.volatility
       from_option]. unfold Datatypes.id.
  change (investment_agent.risk_config_get "aggressive")
    with (RiskConfig.mk 0.05 0.12 2.0 1.5).
  cbn [RiskConfig.sip_factor RiskConfig.max_vol].
  rewrite (Rmax_left (0.03 * 5000)) by lra.
  rewrite (Rmax_right 0 (1000 - 900)) by lra.
  rewrite Rmin_right by lra.
  rewrite bool_decide_eq_false_2 by lra.
  rewrite Rmax_right by lra. lra.
Qed.

(** With any profile whose [sip_factor] is at most 1, that is any profile
    name but "aggressive", the same account is asked for at most 100. *)
Lemma sip_within_available_cash (state : State.t) (history : list R) (profile : string) :
  State.bank_balance state = Some 1000 ->
  State.emergency_buffer state = Some 900 ->
  profile <> "aggressive" ->
  investment_agent._compute_sip state history profile <= 100.
Proof.
  intros Hc Hb Hp. unfold investment_agent._compute_sip. cbv zeta.
  rewrite Hc, Hb. cbn [from_option]. unfold Datatypes.id.
  set (base := Rmax (0.03 * _) (0.02 * _)).
  rewrite (Rmax_right 0 (1000 - 900)) by lra.
  assert (0 <= Rmin base (1000 - 900) <= 100) as Hmin.
  { split.
    - apply Rmin_glb; [|lra]. unfold base. eapply Rle_trans; [|apply Rmax_r]. lra.
    - eapply Rle_trans; [apply Rmin_r | lra]. }
  assert (0 < RiskConfig.sip_factor (investment_agent.risk_config_get profile) <= 1) as Hf.
  { unfold investment_agent.risk_config_get, investment_agent.risk_config.
    cbn [py.getitem].
    destruct (String.eqb profile "conservative"); [cbn; lra|].
    destruct (String.eqb profile "balanced"); [cbn; lra|].
    destruct (String.eqb profile "aggressive") eqn:E; [|cbn; lra].
    by apply String.eqb_eq in E. }
  set (f := RiskConfig.sip_factor _) in *.
  set (m := Rmin base (1000 - 900)) in *.
  apply Rmax_lub; [lra|].
  destruct (bool_decide _); nra.
Qed.

(** *** Lump-sum gating *)

(** Two hundred prices that rise by 1% each and end at 200. *)
Definition rising_history : list R := rising_to 200 200.

Lemma rising_volatility : trading_bot._volatility rising_history = 0.
Proof.
  unfold trading_bot._volatility, rising_history, rising_to.
  rewrite bool_decide_eq_false_2 by (rewrite length_trend_to; lia).
  apply trend_to_volatility; lra.
Qed.

Lemma rising_last : py.last_or 0 rising_history = 200.
Proof. apply last_or_trend_to. Qed.

(** The regression line through the last ten prices continues the rise. *)
Lemma rising_forecast : trading_bot.predict_price rising_history > 200.
Proof.
  unfold trading_bot.predict_price.
  destruct rising_history as [|x h] eqn:E; [by apply trend_to_nonempty in E|].
  rewrite <- E. clear E x h. unfold rising_history, rising_to.
  rewrite length_trend_to.
  rewrite bool_decide_eq_false_2 by lia.
  cbv zeta. change (Nat.min 10 200) with 10%nat.
  rewrite last_n_trend_to by lia.
  cbn [trend_to app seq map zip_with].
  unfold py.sum, py.or_else. cbn [foldl INR].
  rewrite bool_decide_eq_false_2 by lra.
  eapply Rlt_le_trans; [|apply Rmax_r]. lra.
Qed.

(** The short average, 196.1, is more than 1% above the long average,
    182.3, and the last price is above both: "buy", at confidence 90. *)
Lemma rising_signal :
  trading_bot.analyze_market rising_history = SignalInfo.mk "buy" 90 0.
Proof.
  unfold trading_bot.analyze_market.
  destruct rising_history as [|x h] eqn:E; [by apply trend_to_nonempty in E|].
  rewrite <- E. clear E x h. cbv zeta.
  rewrite rising_volatility, rising_last.
  unfold rising_history, rising_to. rewrite !_sma_trend_to by lia.
  cbn [trend_to app]. unfold py.sum, py.or_else. cbn [foldl INR].
  rewrite !bool_decide_eq_false_2 by lra.
  unfold trading_bot.crossover.
  rewrite (bool_decide_eq_true_2 (_ > _ * 1.01)) by lra.
  rewrite (bool_decide_eq_true_2 (200 > _)) by lra.
  rewrite (bool_decide_eq_true_2 (0 < 0.02)) by lra.
  reflexivity.
Qed.

(** The snapshot of an account whose cash, 2000, is below its emergency
    buffer, 9000, while the market is calm. *)
Definition short_of_cash : State.t :=
  State.mk
    (Some 2000)                                       (* balance *)
    (Some 5000)                                       (* income_rate *)
    (Some 3000)                                       (* expense_rate *)
    (Some 0)                                          (* volatility *)
    (Some 2000)                                       (* portfolio_value *)
    (Some false)                                      (* emergency_buffer_ok *)
    (Some "aggressive")                               (* risk_profile *)
    (Some 2000)                                       (* bank_balance *)
    (Some 5000)                                       (* monthly_income *)
    (Some 3000)                                       (* monthly_expense *)
    (Some 9000)                                       (* emergency_buffer *)
    (Some (Fresh rising_history))                     (* price_history *)
    (Some SIM_STATE_nav_history)                      (* nav_history *)
    None None None None None.

(** A world whose INDEX has the history [rising_history]. *)
Definition rising_world : World :=
  mkWorld [ ("INDEX",   mkInstrument 200 rising_history 0.0008 0.02);
            ("STOCK_A", mkInstrument 60 (falling_to 60 200) 0.0010 0.03);
            ("STOCK_B", mkInstrument 140 (falling_to 140 200) 0.0004 0.025) ]
          (utils.set_bank_balance 2000 utils.SIM_STATE_literal)
          (investment_agent.Portfolio__init__ 0) [] (mkRandom (fun _ => 0) 0).

Lemma short_of_cash_sip :
  investment_agent._compute_sip short_of_cash rising_history "aggressive" = 0.
Proof.
  unfold investment_agent._compute_sip, short_of_cash. cbv zeta.
  cbn [State.bank_balance State.monthly_income State.monthly_expense
       State.emergency_buffer State.volatility from_option].
  unfold Datatypes.id.
  rewrite (Rmax_left 0 (2000 - 9000)) by lra.
  rewrite Rmin_right by (eapply Rle_trans; [|apply Rmax_r]; lra).
  rewrite Rmult_0_l.
  destruct (bool_decide _); [rewrite Rmult_0_l|]; apply Rmax_left; lra.
Qed.

(** C4, refuted as stated.  In [rising_world] the signal is "buy" with
    confidence 90, the forecast exceeds the last price 200, the volatility
    is below the aggressive ceiling 0.05 and the lump-sum factor is 2: all
    five conditions hold.  The account is short of cash, so the recurring
    contribution and the lump-sum amount are 0, and the mode returned is
    "sip". *)
Lemma lumpsum_gating_as_stated_fails :
  exists opp,
    investment_agent.evaluate_investment_opportunity short_of_cash rising_world
      = Some (opp, rising_world)
    /\ sizing_facts.lumpsum_conditions short_of_cash rising_history
         (trading_bot.analyze_market rising_history)
         (trading_bot.predict_price rising_history)
    /\ Opportunity.mode opp = "sip".
Proof.
  eexists. split; [|split].
  - apply (sizing_facts.evaluate_investment_opportunity_eq rising_world
             (mkInstrument 200 rising_history 0.0008 0.02)). reflexivity.
  - rewrite rising_signal. pose proof rising_forecast.
    unfold sizing_facts.lumpsum_conditions.
    change (investment_agent.risk_config_get (sizing_facts.profile_of short_of_cash))
      with (RiskConfig.mk 0.05 0.12 2.0 1.5).
    assert (sizing_facts.last_price rising_history
              (trading_bot.predict_price rising_history) = 200) as ->.
    { unfold sizing_facts.last_price.
      destruct rising_history eqn:E; [by apply trend_to_nonempty in E|].
      rewrite <- E. apply rising_last. }
    cbn [SignalInfo.signal SignalInfo.confidence SignalInfo.volatility
         RiskConfig.max_vol RiskConfig.lumpsum_factor history].
    repeat split; [lia | lra | lra | lra].
  - cbn [history].
    destruct (sizing_facts.evaluate_with_mode short_of_cash rising_history
                (trading_bot.analyze_market rising_history)
                (trading_bot.predict_price rising_history)) as (Hiff & _ & Hsip).
    apply Hsip. intros Hl. apply Hiff in Hl as [_ Hpos].
    unfold sizing_facts.lumpsum_amount in Hpos.
    change (sizing_facts.profile_of short_of_cash) with "aggressive" in Hpos.
    rewrite short_of_cash_sip in Hpos. lra.
Qed.

(** C4 (lump-sum gating), amended.  [evaluate_investment_opportunity] is
    [evaluate_with] applied to the history of INDEX, its signal and its
    forecast ([sizing_facts.evaluate_investment_opportunity_eq]).  The mode
    returned is "lumpsum" exactly when the five conditions hold and the
    lump-sum amount, recurring contribution times [lumpsum_factor], is
    positive; the amount returned is then that amount; in every other case
    the mode is "sip".  In particular, for the balanced profile, a positive
    trend and a positive recurring contribution, signal "buy" with
    volatility 0.01 gives "lumpsum" at confidence 80 and "sip" at
    confidence 60. *)
Theorem lumpsum_gating (state : State.t) (history : list R) (pred_price : R) :
  (forall signal_info,
     let opp := investment_agent.evaluate_with state history signal_info pred_price in
     (Opportunity.mode opp = "lumpsum"
      <-> sizing_facts.lumpsum_conditions state history signal_info pred_price
          /\ sizing_facts.lumpsum_amount state history > 0)
     /\ (Opportunity.mode opp = "lumpsum" ->
         Opportunity.amount opp = sizing_facts.lumpsum_amount state history)
     /\ (Opportunity.mode opp <> "lumpsum" -> Opportunity.mode opp = "sip"))
  /\ (State.risk_profile state = Some "balanced" ->
      pred_price > sizing_facts.last_price history pred_price ->
      investment_agent._compute_sip state history "balanced" > 0 ->
      Opportunity.mode
        (investment_agent.evaluate_with state history (SignalInfo.mk "buy" 80 0.01) pred_price)
      = "lumpsum"
      /\ Opportunity.mode
           (investment_agent.evaluate_with state history (SignalInfo.mk "buy" 60 0.01) pred_price)
         = "sip").
Proof.
  split.
  - intros signal_info opp.
    destruct (sizing_facts.evaluate_with_mode state history signal_info pred_price)
      as (Hiff & Hamt & Hsip).
    split; [exact Hiff|]. split; [|exact Hsip].
    intros Hl. by apply Hamt.
  - intros Hprof Htrend Hsip. split.
    + apply (sizing_facts.evaluate_with_mode state history (SignalInfo.mk "buy" 80 0.01)
               pred_price).
      unfold sizing_facts.lumpsum_conditions, sizing_facts.lumpsum_amount,
        sizing_facts.profile_of.
      rewrite Hprof. cbn [from_option]. unfold Datatypes.id.
      change (investment_agent.risk_config_get "balanced")
        with (RiskConfig.mk 0.03 0.06 1.0 1.0).
      cbn [SignalInfo.signal SignalInfo.confidence SignalInfo.volatility
           RiskConfig.max_vol RiskConfig.lumpsum_factor].
      repeat split; [lia | lra | lra | lra | lra].
    + apply (sizing_facts.evaluate_with_mode state history (SignalInfo.mk "buy" 60 0.01)
               pred_price).
      intros Hl.
      apply (sizing_facts.evaluate_with_mode state history (SignalInfo.mk "buy" 60 0.01)
               pred_price) in Hl as [(_ & Hc & _) _].
      cbn [SignalInfo.confidence] in Hc. lia.
Qed.

(** ** The account and the pipeline *)

Module pipeline_facts.
Import market_generator market_facts investment_agent ledger_facts sizing_facts utils.

(** The market has been bootstrapped: INDEX is tracked and has a history.
    Every world after the first [step_market] is. *)
Definition booted (w : World) (index : Instrument) : Prop :=
  py.getitem (_state w) "INDEX" = Some index /\ history index <> [].

Lemma booted_frame w w' index :
  booted w index -> _state w' = _state w -> booted w' index.
Proof. intros [H1 H2] E. split; [by rewrite E | done]. Qed.

(** The value of the ledger at the prices of the world. *)
Definition nav_of (w : World) (index : Instrument) : R :=
  cash (_global_portfolio w)
  + holdings_value (price_at (_state w) index) (positions (_global_portfolio w)).

(** The snapshot [_construct_core_state] takes of a world. *)
Definition core_of (w : World) (index : Instrument) : State.t :=
  core_state (index_metrics (history index)) (nav_of w index) (SIM_STATE w).

(** The recurring contribution suggested for a state. *)
Definition sip_of (index : Instrument) (state : State.t) : R :=
  Opportunity.sip_suggested_amount
    (evaluate_with state (history index)
       (trading_bot.analyze_market (history index))
       (trading_bot.predict_price (history index))).

Definition with_sim (f : SimState -> SimState) (w : World) : World :=
  set_SIM_STATE (f (SIM_STATE w)) w.

Lemma runs_update f w (Q : unit -> World -> Prop) :
  Q tt (with_sim f w) -> runs (update f) w Q.
Proof. intros H. by apply runs_modify. Qed.

Lemma runs_db_execute wr w (Q : unit -> World -> Prop) :
  Q tt (set_db (db w ++ [wr]) w) -> runs (db_execute wr) w Q.
Proof. intros H. by apply runs_modify. Qed.

Lemma runs__log_transaction ts ty amount desc cat w (Q : unit -> World -> Prop) :
  Q tt (set_db (db w ++ [InsertTransaction ts ty cat amount desc (bank_balance (SIM_STATE w))]) w) ->
  runs (_log_transaction ts ty amount desc cat) w Q.
Proof. intros H. unfold _log_transaction. apply runs_bind, runs_gets. by apply runs_db_execute. Qed.

Lemma runs__persist_balance ts w (Q : unit -> World -> Prop) :
  Q tt (set_db (db w ++ [ReplaceBalance (balance_date ts) (bank_balance (SIM_STATE w))]) w) ->
  runs (_persist_balance ts) w Q.
Proof. intros H. unfold _persist_balance. apply runs_bind, runs_gets. by apply runs_db_execute. Qed.

Lemma runs_gauss m s w (Q : R -> World -> Prop) :
  Q (m + normal_samples (random w) (consumed (random w)) * s)
    (set_random (mkRandom (normal_samples (random w)) (S (consumed (random w)))) w) ->
  runs (gauss m s) w Q.
Proof. intros H. eapply runs_eq; [apply gauss_runs | exact H]. Qed.

Section Booted.
Variables (w : World) (index : Instrument).
Hypothesis Hb : booted w index.

Lemma _ensure_bootstrap_eq : _ensure_bootstrap w = Some (tt, w).
Proof.
  destruct Hb as [Hidx Hne].
  unfold _ensure_bootstrap, _state_getitem, bind, gets. rewrite Hidx. unfold ret.
  by destruct (history index).
Qed.

Lemma get_index_metrics_eq :
  get_index_metrics w = Some (index_metrics (history index), w).
Proof.
  destruct Hb as [Hidx Hne].
  unfold get_index_metrics, bind. rewrite _ensure_bootstrap_eq.
  rewrite (get_history_eq w index "INDEX" Hidx).
  unfold instrument_at. by rewrite Hidx.
Qed.

Lemma _construct_core_state_eq : _construct_core_state w = Some (core_of w index, w).
Proof.
  destruct Hb as [Hidx Hne].
  unfold _construct_core_state, bind. rewrite get_index_metrics_eq.
  by rewrite (get_portfolio_value_eq w index Hidx).
Qed.

Lemma _recompute_sip_suggestion_eq state :
  _recompute_sip_suggestion state w
  = Some (sip_of index state, with_sim (set_last_sip_suggested (sip_of index state)) w).
Proof.
  destruct Hb as [Hidx Hne].
  unfold _recompute_sip_suggestion, bind.
  by rewrite (evaluate_investment_opportunity_eq w index state Hidx).
Qed.

Lemma runs__construct_core_state (Q : State.t -> World -> Prop) :
  Q (core_of w index) w -> runs _construct_core_state w Q.
Proof. intros H. eapply runs_eq; [apply _construct_core_state_eq | exact H]. Qed.

Lemma runs__recompute_sip_suggestion state (Q : R -> World -> Prop) :
  Q (sip_of index state) (with_sim (set_last_sip_suggested (sip_of index state)) w) ->
  runs (_recompute_sip_suggestion state) w Q.
Proof. intros H. eapply runs_eq; [apply _recompute_sip_suggestion_eq | exact H]. Qed.

Lemma runs_evaluate_investment_opportunity state (Q : Opportunity.t -> World -> Prop) :
  Q (evaluate_with state (history index)
       (trading_bot.analyze_market (history index))
       (trading_bot.predict_price (history index))) w ->
  runs (evaluate_investment_opportunity state) w Q.
Proof.
  intros H. destruct Hb as [Hidx _].
  eapply runs_eq; [by apply evaluate_investment_opportunity_eq | exact H].
Qed.

Lemma runs_get_portfolio_value (Q : R -> World -> Prop) :
  Q (nav_of w index) w -> runs get_portfolio_value w Q.
Proof.
  intros H. destruct Hb as [Hidx _].
  eapply runs_eq; [by apply get_portfolio_value_eq | exact H].
Qed.

Lemma runs_buy t amount (Q : Result.t -> World -> Prop) :
  Q (fst (bought (_global_portfolio w) t amount (price_at (_state w) index t)))
    (set__global_portfolio
       (snd (bought (_global_portfolio w) t amount (price_at (_state w) index t))) w) ->
  runs (buy t amount) w Q.
Proof.
  intros H. destruct Hb as [Hidx _].
  eapply runs_eq; [by apply buy_eq | exact H].
Qed.

End Booted.

(** Worlds are kept in the form [mkWorld _ (mkSimState ...) _ _ _]. *)
Ltac world_simpl :=
  cbv beta iota zeta delta
      [with_sim set_SIM_STATE set__state set__global_portfolio set_db set_random
       SIM_STATE _state _global_portfolio db random normal_samples consumed
       bank_balance base_income base_expense income_history expense_history
       balance_history sip_history lumpsum_history nav_history invested_amount
       last_sip_suggested
       set_bank_balance set_income_history set_expense_history set_balance_history
       set_sip_history set_lumpsum_history set_nav_history set_invested_amount
       set_last_sip_suggested fst snd].

Ltac booted_here := eapply booted_frame; [eassumption | reflexivity].

(** One step of symbolic execution. *)
Ltac run_step index :=
  lazymatch goal with
  | |- runs (bind _ _) _ _ => apply runs_bind
  | |- runs (ret _) _ _ => apply runs_ret
  | |- runs (gets _) _ _ => apply runs_gets
  | |- runs (update _) _ _ => apply runs_update
  | |- runs (_log_transaction _ _ _ _ _) _ _ => apply runs__log_transaction
  | |- runs (_persist_balance _) _ _ => apply runs__persist_balance
  | |- runs (gauss _ _) _ _ => apply runs_gauss
  | |- runs _construct_core_state _ _ =>
      apply (runs__construct_core_state _ index); [booted_here|]
  | |- runs (_recompute_sip_suggestion _) _ _ =>
      apply (runs__recompute_sip_suggestion _ index); [booted_here|]
  | |- runs (evaluate_investment_opportunity _) _ _ =>
      apply (runs_evaluate_investment_opportunity _ index); [booted_here|]
  | |- runs get_portfolio_value _ _ =>
      apply (runs_get_portfolio_value _ index); [booted_here|]
  | |- runs (buy _ _) _ _ =>
      apply (runs_buy _ index); [booted_here|]
  end; world_simpl.

Ltac open_world w :=
  destruct w as [?m [?bank ?binc ?bexp ?incs ?exps ?bals ?sips ?lumps ?navs ?inv ?sug]
                 ?pf ?dbt [?smp ?cur]].

(** [simulate_income_and_expense] draws the income and the expense, books
    them, and leaves the market and the ledger alone. *)
Lemma runs_simulate_income_and_expense w index ts (Q : R * R -> World -> Prop) :
  booted w index ->
  (forall w',
     let s := SIM_STATE w in
     let z1 := normal_samples (random w) (consumed (random w)) in
     let z2 := normal_samples (random w) (S (consumed (random w))) in
     let income := Rmax 0 (base_income s + z1 * (0.3 * base_income s)) in
     let expense := Rmax 0 (base_expense s + z2 * (0.2 * base_expense s)) in
     _state w' = _state w -> _global_portfolio w' = _global_portfolio w ->
     nav_history (SIM_STATE w') = nav_history s ->
     bank_balance (SIM_STATE w') = bank_balance s + income - expense ->
     income_history (SIM_STATE w') = income_history s ++ [income] ->
     expense_history (SIM_STATE w') = expense_history s ++ [expense] ->
     Q (income, expense) w') ->
  runs (simulate_income_and_expense ts) w Q.
Proof.
  intros Hb HQ. open_world w. unfold simulate_income_and_expense.
  repeat run_step index. apply HQ; reflexivity.
Qed.

(** The three keys [get_state] adds to the core snapshot. *)
Definition with_suggestion (core : State.t) (sug inflow outflow : R) : State.t :=
  State.mk
    (State.balance core) (State.income_rate core) (State.expense_rate core)
    (State.volatility core) (State.portfolio_value core)
    (State.emergency_buffer_ok core) (State.risk_profile core)
    (State.bank_balance core) (State.monthly_income core)
    (State.monthly_expense core) (State.emergency_buffer core)
    (State.price_history core) (State.nav_history core)
    (Some sug) (Some inflow) (Some outflow)
    (State.nav core) (State.last_invest_amount core).

(** [get_state]: the core snapshot of the world with three more keys; the
    account changes in the suggestion only. *)
Lemma runs_get_state w index (Q : State.t -> World -> Prop) :
  booted w index ->
  (forall sug inflow outflow w',
     _state w' = _state w -> _global_portfolio w' = _global_portfolio w ->
     nav_history (SIM_STATE w') = nav_history (SIM_STATE w) ->
     bank_balance (SIM_STATE w') = bank_balance (SIM_STATE w) ->
     Q (with_suggestion (core_of w index) sug inflow outflow) w') ->
  runs get_state w Q.
Proof.
  intros Hb HQ. open_world w. unfold get_state.
  repeat run_step index. apply HQ; reflexivity.
Qed.

(** [apply_investment]: the market is left alone; a positive request debits
    the bank by [min(amount, bank_balance)] and hands that amount to the
    ledger's [buy]. *)
Lemma runs_apply_investment w index ts mode ticker amount (Q : Result.t -> World -> Prop) :
  booted w index ->
  (forall r w',
     _state w' = _state w ->
     nav_history (SIM_STATE w') = nav_history (SIM_STATE w) ->
     (0 < amount ->
      let invest_amt := Rmin amount (bank_balance (SIM_STATE w)) in
      bank_balance (SIM_STATE w') = bank_balance (SIM_STATE w) - invest_amt
      /\ (r, _global_portfolio w')
         = bought (_global_portfolio w) ticker invest_amt (price_at (_state w) index ticker)) ->
     Q r w') ->
  runs (apply_investment ts mode ticker amount) w Q.
Proof.
  intros Hb HQ. open_world w. unfold apply_investment. cbv zeta.
  destruct (bool_decide (Rmax 0 amount <= 0)) eqn:E.
  - apply bool_decide_eq_true in E.
    assert (amount <= 0) by (eapply Rle_trans; [apply Rmax_r | exact E]).
    repeat run_step index. apply HQ; try reflexivity. intros. lra.
  - apply bool_decide_eq_false in E.
    assert (0 < amount) as Hpos.
    { destruct (Rle_dec amount 0) as [Hle|]; [|lra].
      exfalso. apply E. rewrite Rmax_left by done. lra. }
    rewrite (Rmax_right 0 amount) by lra.
    run_step index. run_step index. run_step index. run_step index.
    run_step index.
    destruct (String.eqb mode "lumpsum").
    + repeat run_step index. apply HQ; try reflexivity.
      intros _. world_simpl. split; [reflexivity|]. by destruct (bought _ _ _ _).
    + repeat run_step index. apply HQ; try reflexivity.
      intros _. world_simpl. split; [reflexivity|]. by destruct (bought _ _ _ _).
Qed.

Lemma runs_plan w index state (Q : Plan.t -> World -> Prop) :
  booted w index ->
  Q (planner.plan_from
       (evaluate_with state (history index)
          (trading_bot.analyze_market (history index))
          (trading_bot.predict_price (history index))) state) w ->
  runs (planner.plan state) w Q.
Proof.
  intros Hb HQ. open_world w. unfold planner.plan.
  run_step index. run_step index. by apply runs_ret.
Qed.

Lemma runs_execute w index plan state (Q : Result.t -> World -> Prop) :
  booted w index ->
  (forall r w', _state w' = _state w ->
                nav_history (SIM_STATE w') = nav_history (SIM_STATE w) -> Q r w') ->
  runs (executor.execute plan state) w Q.
Proof.
  intros Hb HQ. unfold executor.execute. cbv zeta.
  destruct (_ && _).
  - apply (runs_apply_investment w index); [done|]. intros r w' H1 H2 _. by apply HQ.
  - open_world w. destruct (String.eqb _ "repay").
    + repeat run_step index. apply HQ; reflexivity.
    + destruct (String.eqb _ "save"); apply runs_ret, HQ; reflexivity.
Qed.

(** The executor hands an "invest" plan with a positive amount to
    [apply_investment]. *)
Lemma execute_invest plan state amount :
  Plan.action plan = Some "invest" ->
  Plan.invest_amount plan = Some amount ->
  0 < amount ->
  executor.execute plan state
  = apply_investment (default "" (Plan.timestamp plan)) (default "sip" (Plan.invest_mode plan))
      (default "INDEX" (Plan.ticker plan)) amount.
Proof.
  intros Hact Hamt Hpos. unfold executor.execute. cbv zeta.
  rewrite Hact, Hamt. cbn [from_option]. unfold Datatypes.id.
  by rewrite bool_decide_eq_true_2 by lra.
Qed.

Lemma runs_update_nav_history w index (Q : R -> World -> Prop) :
  booted w index ->
  Q (nav_of w index)
    (with_sim (fun s => set_nav_history (nav_history s ++ [nav_of w index]) s) w) ->
  runs update_nav_history w Q.
Proof.
  intros Hb HQ. unfold update_nav_history.
  apply runs_bind. apply (runs_get_portfolio_value w index Hb).
  apply runs_bind, runs_update, runs_ret. exact HQ.
Qed.

(** A loop whose invariant mentions the elements already visited. *)
Lemma runs_for_each_visited {A} (I : list A -> World -> Prop) (body : A -> M unit) xs :
  forall pre w,
    (forall x pre' w0, x ∈ xs -> I pre' w0 ->
                       runs (body x) w0 (fun _ w1 => I (pre' ++ [x]) w1)) ->
    I pre w -> runs (for_each xs body) w (fun _ w' => I (pre ++ xs) w').
Proof.
  induction xs as [|x xs IH]; intros pre w Hbody HI; cbn [for_each].
  - apply runs_ret. by rewrite app_nil_r.
  - apply runs_bind. eapply runs_mono; [apply Hbody; [by left | done] |].
    intros [] w1 HI1. cbv beta in *.
    replace (pre ++ x :: xs) with ((pre ++ [x]) ++ xs) by (by rewrite <- app_assoc).
    apply IH; [|done]. intros y pre' w0 Hy. apply Hbody. by right.
Qed.

(** After one [step_market] the market is bootstrapped, and the account is
    as before. *)
Lemma step_market_boots w :
  py.contains (_state w) "INDEX" = true ->
  runs step_market w (fun _ w' => (exists index, booted w' index) /\ same_account w w').
Proof.
  intros Hc. unfold step_market. apply runs_bind, runs_gets.
  set (I := fun (pre : list string) (w1 : World) =>
              py.keys (_state w1) = py.keys (_state w)
              /\ (forall t, t ∈ pre -> exists d, py.getitem (_state w1) t = Some d
                                              /\ history d <> [])
              /\ same_account w w1).
  assert (runs (for_each (py.keys (_state w)) _step_gbm) w
            (fun _ w' => I ([] ++ py.keys (_state w)) w')) as Hrun.
  { apply runs_for_each_visited.
    - intros t pre w0 Ht (Hk & Hpre & Hacc).
      rewrite <- Hk in Ht. destruct (getitem_of_key _ _ Ht) as [d Hd].
      destruct (_step_gbm_runs t d w0 Hd) as (z & w1 & Hrun & Hst & Hacc1).
      eapply runs_eq; [exact Hrun|]. split; [|split].
      + rewrite Hst. erewrite keys_setitem; eauto.
      + intros t' Ht'. rewrite Hst.
        destruct (decide (t = t')) as [<-|Hne].
        * rewrite getitem_setitem_eq. eexists. split; [done|]. cbn.
          intros Hnil. pose proof (price_facts.last_push_history (history d)
            (next_price (price d) (mu d) (sigma d) z)) as Hl.
          by rewrite Hnil in Hl.
        * rewrite getitem_setitem_ne by done.
          apply elem_of_app in Ht' as [Ht'|Ht']; [by apply Hpre|].
          apply list_elem_of_singleton in Ht'. congruence.
      + eapply same_account_trans; eauto.
    - split; [done|]. split; [|apply same_account_refl].
      intros t Ht. by apply elem_of_nil in Ht. }
  eapply runs_mono; [exact Hrun|].
  intros [] w' (Hk & Hall & Hacc). split; [|done].
  apply contains_true in Hc as [d0 Hd0].
  destruct (Hall "INDEX") as (d & Hd & Hne).
  { cbn [app]. by eapply key_of_getitem. }
  by exists d.
Qed.

(** The bootstrap that the import of [market_generator] runs on the module
    literals leaves a bootstrapped market, and so does every later step. *)
Lemma steps_keep_booted n w :
  (exists index, booted w index) ->
  runs (repeat_n n step_market) w (fun _ w' => exists index, booted w' index).
Proof.
  intros Hb. apply (runs_repeat_n (fun w0 => exists index, booted w0 index)); [|done].
  intros w0 [index [Hidx _]].
  eapply runs_mono; [apply step_market_boots, contains_true; eauto|].
  by intros [] w1 [? _].
Qed.

Lemma import_boots samples :
  runs _ensure_bootstrap (world_literal samples) (fun _ w' => exists index, booted w' index).
Proof.
  unfold _ensure_bootstrap. apply runs_bind.
  eapply runs_eq; [reflexivity|]. cbn [history].
  change (repeat_n 200 step_market)
    with (bind step_market (fun _ => repeat_n 199 step_market)).
  apply runs_bind.
  eapply runs_mono; [by apply step_market_boots|].
  intros [] w1 [Hb _]. by apply steps_keep_booted.
Qed.

End pipeline_facts.

(** A balanced account with cash 10000 and income 5000: the recurring
    contribution is 200. *)
Definition balanced_state : State.t :=
  State.mk None None None
           (Some 0.01)          (* volatility *)
           None None
           (Some "balanced")    (* risk_profile *)
           (Some 10000)         (* bank_balance *)
           (Some 5000)          (* monthly_income *)
           None None None None None None None None None.

Lemma balanced_sip :
  investment_agent._compute_sip balanced_state [100] "balanced" = 200.
Proof.
  unfold investment_agent._compute_sip, balanced_state. cbv zeta.
  cbn [State.bank_balance State.balance State.monthly_income State.income_rate
       State.monthly_expense State.expense_rate State.emergency_buffer State.volatility
       from_option]. unfold Datatypes.id.
  change (investment_agent.risk_config_get "balanced")
    with (RiskConfig.mk 0.03 0.06 1.0 1.0).
  cbn [RiskConfig.sip_factor RiskConfig.max_vol].
  rewrite (bool_decide_eq_false_2 (0 > 0)) by lra.
  rewrite (Rmax_right (0.03 * 5000)) by lra.
  rewrite (Rmax_right 0 (10000 - 0)) by lra.
  rewrite Rmin_left by lra.
  rewrite bool_decide_eq_false_2 by lra.
  rewrite Rmax_right by lra. lra.
Qed.

(** The spec's example: last price 100, forecast 101. *)
Lemma lumpsum_gating_witness :
  Opportunity.mode
    (investment_agent.evaluate_with balanced_state [100] (SignalInfo.mk "buy" 80 0.01) 101)
  = "lumpsum"
  /\ Opportunity.mode
       (investment_agent.evaluate_with balanced_state [100] (SignalInfo.mk "buy" 60 0.01) 101)
     = "sip".
Proof.
  apply (lumpsum_gating balanced_state [100] 101).
  - reflexivity.
  - change (sizing_facts.last_price [100] 101) with 100. lra.
  - rewrite balanced_sip. lra.
Defined.

(** ** Investing *)

(** What a buy of a non-negative amount at a positive price does to the ledger. *)
Lemma bought_effect (pr : string -> R) self t amount p :
  0 <= amount -> 0 < p -> pr t = p ->
  let self' := snd (ledger_facts.bought self t amount p) in
  cash self' = cash self
  /\ default 0 (positions self' !! t) = default 0 (positions self !! t) + amount / p
  /\ (forall t', t' <> t -> positions self' !! t' = positions self !! t')
  /\ ledger_facts.holdings_value pr (positions self')
     = ledger_facts.holdings_value pr (positions self) + amount.
Proof.
  intros Ha Hp Hpr. unfold ledger_facts.bought.
  rewrite (Rmax_right 0 amount) by done.
  destruct (bool_decide (amount <= 0)) eqn:E.
  - apply bool_decide_eq_true in E. assert (amount = 0) as -> by lra.
    cbn [snd]. repeat split; try done; unfold Rdiv; lra.
  - rewrite bool_decide_eq_false_2 by lra. cbn [snd cash positions].
    split; [done|]. split; [by rewrite lookup_insert_eq|].
    split; [intros t' Hne; by rewrite lookup_insert_ne|].
    rewrite ledger_facts.holdings_value_insert, Hpr. field. lra.
Qed.

(** C10, refuted as stated, in binary64.  With the bank balance 10000 of the
    start, an empty ledger and STOCK_B trading at 139, investing 10000 in
    STOCK_B debits the bank by 10000 and credits [10000 / 139] units;
    [total_value], the bank balance plus the holdings at the current
    prices, was 10000 before and is [10000 / 139 * 139] after, which is
    less than 10000. *)
Lemma investing_changes_total_value :
  exists r s' ledger' before after,
    binary64.apply_investment
      [("INDEX", 100%float); ("STOCK_A", 60%float); ("STOCK_B", 139%float)]
      (binary64.mkAccount 10000 [10000%float] [] [] 0)
      (binary64.Portfolio__init__ 0) "sip" "STOCK_B" 10000
    = Some (r, s', ledger')
    /\ binary64.bank_balance s' = 0%float
    /\ binary64.positions ledger' = [("STOCK_B", (10000 / 139)%float)]
    /\ binary64.total_value
         [("INDEX", 100%float); ("STOCK_A", 60%float); ("STOCK_B", 139%float)]
         (binary64.mkAccount 10000 [10000%float] [] [] 0)
         (binary64.Portfolio__init__ 0) = Some before
    /\ binary64.total_value
         [("INDEX", 100%float); ("STOCK_A", 60%float); ("STOCK_B", 139%float)]
         s' ledger' = Some after
    /\ before = 10000%float
    /\ after = (10000 / 139 * 139)%float
    /\ (after =? before)%float = false
    /\ (after <? before)%float = true.
Proof.
  do 5 eexists.
  split; [vm_compute; reflexivity|]. split; [reflexivity|]. split; [reflexivity|].
  split; [vm_compute; reflexivity|]. split; [vm_compute; reflexivity|].
  split; [reflexivity|].
  split; [vm_compute; reflexivity|]. split; vm_compute; reflexivity.
Qed.

(** C10 (what investing does to the bank and to the ledger), amended.  In a
    bootstrapped world, a request to invest [a > 0] in a ticker whose price
    [p] is positive, with a non-negative bank balance, returns; it leaves
    the prices alone, debits the bank by [min(a, bank_balance)], credits the
    ledger with that amount divided by [p] in units of the ticker and with
    nothing else, and leaves the bank balance non-negative. *)
Theorem apply_investment_debits_and_credits (w : World) (index : Instrument)
    (timestamp mode ticker : string) (a : R) :
  pipeline_facts.booted w index ->
  let p := market_facts.price_at (_state w) index ticker in
  let bank := bank_balance (SIM_STATE w) in
  0 < a -> 0 < p -> 0 <= bank ->
  exists r w',
    utils.apply_investment timestamp mode ticker a w = Some (r, w')
    /\ _state w' = _state w
    /\ bank_balance (SIM_STATE w') = bank - Rmin a bank
    /\ default 0 (positions (_global_portfolio w') !! ticker)
       = default 0 (positions (_global_portfolio w) !! ticker) + Rmin a bank / p
    /\ (forall t, t <> ticker ->
          positions (_global_portfolio w') !! t = positions (_global_portfolio w) !! t)
    /\ cash (_global_portfolio w') = cash (_global_portfolio w)
    /\ 0 <= bank_balance (SIM_STATE w').
Proof.
  intros Hb p bank Ha Hp Hbank.
  apply (pipeline_facts.runs_apply_investment w index timestamp mode ticker a); [done|].
  intros r w' Hst Hnav Hinv. destruct (Hinv Ha) as [Hbal Hbuy]. clear Hinv.
  assert (0 <= Rmin a bank) as Hmin by (apply Rmin_glb; lra).
  assert (Rmin a bank <= bank) as Hmin' by apply Rmin_r.
  destruct (bought_effect (market_facts.price_at (_state w) index) (_global_portfolio w)
              ticker (Rmin a bank) p Hmin Hp eq_refl) as (Hcash & Hunits & Hother & _).
  fold bank p in Hbuy. rewrite <- Hbuy in Hcash, Hunits, Hother. cbn [snd] in *.
  split; [done|]. split; [done|]. split; [done|]. split; [done|].
  split; [done|]. fold bank in Hbal. lra.
Qed.

(** Investing 100 with 10000 in the bank while INDEX trades at 50. *)
Lemma apply_investment_debits_and_credits_witness :
  exists r w',
    utils.apply_investment "2025-01-01T00:00:00" "sip" "INDEX" 100 world_at_50 = Some (r, w')
    /\ bank_balance (SIM_STATE w') = 10000 - Rmin 100 10000
    /\ default 0 (positions (_global_portfolio w') !! "INDEX") = 0 + Rmin 100 10000 / 50
    /\ 0 <= bank_balance (SIM_STATE w').
Proof.
  assert (market_facts.price_at (_state world_at_50)
            index_at_50 "INDEX" = 50) as Hp by reflexivity.
  destruct (apply_investment_debits_and_credits world_at_50
              index_at_50
              "2025-01-01T00:00:00" "sip" "INDEX" 100)
    as (r & w' & Hrun & _ & Hbank & Hunits & _ & _ & Hpos).
  - split; [reflexivity | done].
  - lra.
  - rewrite Hp. lra.
  - cbn [world_at_50 SIM_STATE utils.SIM_STATE_literal bank_balance]. lra.
  - rewrite Hp in Hunits. exists r, w'. auto.
Defined.

(** ** The cycle and its reward *)

(** [nav[-1] - nav[-2]]. *)
Definition nav_change (navs : list R) : R :=
  nth (length navs - 1) navs 0 - nth (length navs - 2) navs 0.

(** What [compute_reward] does with the key "last_invest_amount": full
    credit when it is present and positive, a fifth otherwise. *)
Lemma nav_component_cases navs invest_amt :
  (2 <= length navs)%nat ->
  (0 < invest_amt -> reward.nav_component navs invest_amt = nav_change navs)
  /\ (invest_amt <= 0 -> reward.nav_component navs invest_amt = nav_change navs * 0.2).
Proof.
  intros Hlen. unfold reward.nav_component, nav_change.
  rewrite bool_decide_eq_true_2 by done. split; intros H.
  - by rewrite bool_decide_eq_true_2 by lra.
  - by rewrite bool_decide_eq_false_2 by lra.
Qed.

(** Every snapshot [run_cycle] scores lacks the key, whatever was invested. *)
Lemma run_cycle_runs (w : World) (timestamp : string) :
  py.contains (_state w) "INDEX" = true ->
  runs (cycle.run_cycle timestamp) w (fun out w' =>
    State.last_invest_amount (CycleOutput.state out) = None
    /\ State.nav_history (CycleOutput.state out) = Some SIM_STATE_nav_history
    /\ CycleOutput.reward out
       = reward.compute_reward (SIM_STATE w') (CycleOutput.state out) (CycleOutput.result out)).
Proof.
  intros Hc. unfold cycle.run_cycle.
  apply runs_bind. eapply runs_mono; [by apply pipeline_facts.step_market_boots|].
  intros [] w1 [[index Hb1] _]. cbv beta.
  apply runs_bind, (pipeline_facts.runs_simulate_income_and_expense w1 index); [done|].
  intros w2 s z1 z2 income expense Hst2 _ _ _ _ _.
  assert (pipeline_facts.booted w2 index) as Hb2 by (by eapply pipeline_facts.booted_frame).
  apply runs_bind. unfold observer.observe.
  apply (pipeline_facts.runs_get_state w2 index); [done|].
  intros sug inflow outflow w3 Hst3 _ _ _.
  assert (pipeline_facts.booted w3 index) as Hb3 by (by eapply pipeline_facts.booted_frame).
  apply runs_bind, (pipeline_facts.runs_plan w3 index); [done|].
  apply runs_bind, (pipeline_facts.runs_execute w3 index); [done|].
  intros result w4 Hst4 _.
  assert (pipeline_facts.booted w4 index) as Hb4 by (by eapply pipeline_facts.booted_frame).
  apply runs_bind, (pipeline_facts.runs_update_nav_history w4 index); [done|].
  apply runs_bind, runs_gets, runs_ret.
  cbn [CycleOutput.state CycleOutput.reward CycleOutput.result].
  repeat split.
Qed.

(** Whenever INDEX is tracked, [run_cycle] returns, and the NAV component
    of its reward, the first addend of [compute_reward], is computed from the
    NAV history of [SIM_STATE] with an invested amount of 0, because the
    snapshot has no "last_invest_amount" key: with at least two NAV points
    the component is [0.2 * (nav[-1] - nav[-2])] in every cycle, whatever
    the execution did. *)
Lemma run_cycle_scores_without_key (w : World) (timestamp : string) :
  py.contains (_state w) "INDEX" = true ->
  exists out w',
    cycle.run_cycle timestamp w = Some (out, w')
    /\ State.last_invest_amount (CycleOutput.state out) = None
    /\ CycleOutput.reward out
       = reward.penalties_and_bonus (CycleOutput.state out) (CycleOutput.result out)
           (0 + reward.nav_component (nav_history (SIM_STATE w')) 0)
    /\ ((2 <= length (nav_history (SIM_STATE w')))%nat ->
        reward.nav_component (nav_history (SIM_STATE w')) 0
        = nav_change (nav_history (SIM_STATE w')) * 0.2).
Proof.
  intros Hc. destruct (run_cycle_runs w timestamp Hc) as (out & w' & Hrun & Hkey & Halias & Hrew).
  exists out, w'. split; [exact Hrun|]. split; [exact Hkey|]. split.
  - rewrite Hrew. unfold reward.compute_reward. cbv zeta.
    by rewrite Hkey, Halias.
  - intros Hlen. apply nav_component_cases; [done | lra].
Qed.

(** The first cycle after the module literals, all draws being 0. *)
Lemma run_cycle_scores_without_key_example :
  exists out w',
    cycle.run_cycle "2025-01-01T00:00:00" (world_literal (fun _ => 0)) = Some (out, w')
    /\ State.last_invest_amount (CycleOutput.state out) = None.
Proof.
  destruct (run_cycle_scores_without_key (world_literal (fun _ => 0))
              "2025-01-01T00:00:00" eq_refl) as (out & w' & Hrun & Hkey & _).
  exists out, w'. split; [exact Hrun | exact Hkey].
Qed.

(** The reward of the spec's example: NAV history [[1000; 1050]].  With the
    key present and positive the component is 50; without the key, as in
    every snapshot of [run_cycle], it is 10. *)
Lemma nav_component_example :
  reward.nav_component [1000; 1050] 50 = 50
  /\ reward.nav_component [1000; 1050] 0 = 10.
Proof.
  destruct (nav_component_cases [1000; 1050] 50) as [H1 _]; [cbn; lia|].
  destruct (nav_component_cases [1000; 1050] 0) as [_ H2]; [cbn; lia|].
  rewrite H1, H2 by lra. unfold nav_change. cbn [length Nat.sub nth]. lra.
Qed.

(** *** An investing cycle, evaluated *)

(** The opportunity seen by an aggressive account with cash 13640, income
    5000 and emergency buffer 9000 when the signal is not "buy" and the
    market is calm: a SIP of 1.5 * max(150, 272.8) = 409.2. *)
Lemma sip_opportunity (state : State.t) (history : list R) (signal_info : SignalInfo.t)
    (pred_price : R) :
  State.bank_balance state = Some 13640 ->
  State.monthly_income state = Some 5000 ->
  State.emergency_buffer state = Some 9000 ->
  State.volatility state = Some 0 ->
  State.risk_profile state = Some "aggressive" ->
  SignalInfo.signal signal_info <> "buy" ->
  SignalInfo.volatility signal_info = 0 ->
  investment_agent.evaluate_with state history signal_info pred_price
  = Opportunity.mk true 409.2 "sip" (SignalInfo.signal signal_info)
      (SignalInfo.confidence signal_info) "INDEX" 409.2.
Proof.
  intros Hb Hi He Hv Hp Hsig Hvol.
  assert (investment_agent._compute_sip state history "aggressive" = 409.2) as Hsip.
  { unfold investment_agent._compute_sip. cbv zeta.
    rewrite Hb, Hi, He, Hv. cbn [from_option]. unfold Datatypes.id.
    change (investment_agent.risk_config_get "aggressive")
      with (RiskConfig.mk 0.05 0.12 2.0 1.5).
    cbn [RiskConfig.sip_factor RiskConfig.max_vol].
    rewrite (Rmax_right (0.03 * 5000)) by lra.
    rewrite (Rmax_right 0 (13640 - 9000)) by lra.
    rewrite Rmin_left by lra.
    rewrite bool_decide_eq_false_2 by lra.
    rewrite Rmax_right by lra. lra. }
  unfold investment_agent.evaluate_with. cbv zeta.
  rewrite Hp. cbn [from_option]. unfold Datatypes.id. rewrite Hsip, Hvol.
  change (investment_agent.risk_config_get "aggressive")
    with (RiskConfig.mk 0.05 0.12 2.0 1.5).
  cbn [RiskConfig.max_vol RiskConfig.lumpsum_factor].
  apply String.eqb_neq in Hsig. rewrite Hsig. cbn [andb].
  rewrite !(bool_decide_eq_true_2 (409.2 > 0)) by lra.
  rewrite (bool_decide_eq_true_2 (0 <= 0.05)) by lra. cbn [andb].
  f_equal. apply Rmax_left. lra.
Qed.

(** Draws of a cycle: the first, for INDEX, makes the log-return 0, so the
    price is nudged down by 0.3%; all the others are 0, so the income and
    the expense are their base means. *)
Definition nudge_samples (n : nat) : R :=
  match n with
  | O => -0.03
  | _ => 0
  end.

(** The world after a first cycle that invested 360 in INDEX at price 100:
    every instrument has 201 prices, the 200 of the bootstrap and the one
    of the first cycle; 3.6 units are held and there is one NAV point.
    (The writes already sent to the sink are left out.) *)
Definition second_cycle_world : World :=
  mkWorld [ ("INDEX",   mkInstrument 100 (falling_to 100 201) 0.0008 0.02);
            ("STOCK_A", mkInstrument 60 (falling_to 60 201) 0.0010 0.03);
            ("STOCK_B", mkInstrument 140 (falling_to 140 201) 0.0004 0.025) ]
          (mkSimState 11640 5000 3000 [5000] [3000] [10000; 12000; 11640]
                      [360] [0] [360] 360 349.2)
          (mkPortfolio 0 {[ "INDEX" := 3.6 ]}) []
          (mkRandom nudge_samples 0).

Lemma nudged_price :
  market_generator.next_price 100 0.0008 0.02 (0 + nudge_samples 0 * 1) = 99.7.
Proof.
  unfold market_generator.next_price. cbv zeta. cbn [nudge_samples].
  replace (0.0008 - 0.5 * 0.02 ^ 2 + 0.02 * (0 + -0.03 * 1)) with 0 by lra.
  rewrite exp_0.
  rewrite bool_decide_eq_false_2 by lra.
  rewrite bool_decide_eq_true_2.
  - cbn [orb]. rewrite bool_decide_eq_false_2 by lra. lra.
  - replace (100 * 1 - 100) with 0 by lra. rewrite Rabs_R0. lra.
Qed.

(** The history of INDEX after the step of the cycle. *)
Lemma nudged_history : falling_to 100 201 ++ [99.7] = falling_to 99.7 202.
Proof. rewrite (falling_to_S 99.7 201). do 2 f_equal. lra. Qed.

Lemma holdings_value_singleton pr t u :
  ledger_facts.holdings_value pr {[ t := u ]} = u * pr t.
Proof.
  rewrite <- insert_empty.
  rewrite ledger_facts.holdings_value_insert_fresh by apply lookup_empty.
  unfold ledger_facts.holdings_value. rewrite map_to_list_empty. cbn. lra.
Qed.

(** C2, at a failing input.  In [second_cycle_world] with the draws
    [nudge_samples], [run_cycle] plans a SIP of 409.2, the executor fills it
    (INDEX trades at 99.7), and the NAV goes from 360 to 768.12.  The cycle
    invested a positive amount, yet the NAV component of the reward is
    [0.2 * (768.12 - 360)], not [768.12 - 360]: the reward is that fifth
    plus the bonus 0.05 for the filled execution. *)
Theorem investing_cycle_gets_a_fifth :
  exists out w',
    cycle.run_cycle "2025-01-02T00:00:00" second_cycle_world = Some (out, w')
    /\ Result.status (CycleOutput.result out) = Some "filled"
    /\ Result.amount (CycleOutput.result out) = Some 409.2
    /\ nav_history (SIM_STATE w') = [360; 768.12]
    /\ CycleOutput.reward out = 0.2 * (768.12 - 360) + 0.05.
Proof.
  unfold cycle.run_cycle, second_cycle_world.
  apply runs_bind. eapply runs_eq; [apply step_market_three|]. cbv beta.
  unfold market_facts.stepped. cbn [price history mu sigma].
  rewrite nudged_price.
  rewrite (price_facts.push_history_short (falling_to 100 201))
    by (rewrite length_falling_to; lia).
  rewrite nudged_history.
  set (index := mkInstrument 99.7 (falling_to 99.7 202) 0.0008 0.02).
  set (a := mkInstrument _ _ 0.0010 0.03). set (b := mkInstrument _ _ 0.0004 0.025).
  set (pf := mkPortfolio 0 {[ "INDEX" := 3.6 ]}).
  match goal with |- runs _ ?w _ => set (w1 := w) end.
  assert (pipeline_facts.booted w1 index) as Hb1.
  { split; [reflexivity|]. cbn [index history]. rewrite falling_to_S.
    by destruct (falling_to _ 201). }
  assert (market_facts.price_at (_state w1) index "INDEX" = 99.7) as Hprice by reflexivity.
  assert (market_generator._realized_volatility (falling_to 99.7 202) = 0) as Hvol.
  { unfold market_generator._realized_volatility.
    destruct (bool_decide _); [done | apply falling_volatility; lra]. }
  (* 2) income and expenses *)
  apply runs_bind, (pipeline_facts.runs_simulate_income_and_expense w1 index); [done|].
  intros w2 s z1 z2 income expense Hst2 Hpf2 Hnav2 Hbank2 Hinc2 Hexp2.
  assert (income = 5000) as Hincome.
  { subst income s z1.
    cbn [w1 SIM_STATE base_income random normal_samples consumed nudge_samples].
    rewrite Rmax_right by lra. lra. }
  assert (expense = 3000) as Hexpense.
  { subst expense s z2.
    cbn [w1 SIM_STATE base_expense random normal_samples consumed nudge_samples].
    rewrite Rmax_right by lra. lra. }
  rewrite Hincome, Hexpense in *. clear Hincome Hexpense income expense z1 z2.
  subst s.
  cbn [w1 SIM_STATE bank_balance income_history expense_history nav_history app]
    in Hbank2, Hinc2, Hexp2, Hnav2.
  assert (pipeline_facts.booted w2 index) as Hb2 by (by eapply pipeline_facts.booted_frame).
  (* 3) observe *)
  apply runs_bind. unfold observer.observe.
  apply (pipeline_facts.runs_get_state w2 index); [done|].
  intros sug inflow outflow w3 Hst3 Hpf3 Hnav3 Hbank3.
  assert (pipeline_facts.booted w3 index) as Hb3 by (by eapply pipeline_facts.booted_frame).
  set (state := cycle.state_update _ _).
  destruct (falling_signal 99.7 201) as [Hsig Hsvol]; [lra|].
  set (signal_info := trading_bot.analyze_market (falling_to 99.7 202)) in *.
  assert (investment_agent.evaluate_with state (history index)
            (trading_bot.analyze_market (history index))
            (trading_bot.predict_price (history index))
          = Opportunity.mk true 409.2 "sip" (SignalInfo.signal signal_info)
              (SignalInfo.confidence signal_info) "INDEX" 409.2) as Hopp.
  { cbn [history index]. fold signal_info.
    apply sip_opportunity; [| | | | |done|done].
    - change (State.bank_balance state) with (Some (bank_balance (SIM_STATE w2))).
      rewrite Hbank2. f_equal. lra.
    - reflexivity.
    - change (State.emergency_buffer state)
        with (Some (let e := match expense_history (SIM_STATE w2) with
                             | [] => 0
                             | _ :: _ => py.last_or 0 (expense_history (SIM_STATE w2))
                             end in
                    if bool_decide (e > 0) then e * 3 else 0)).
      rewrite Hexp2. cbv zeta. change (py.last_or 0 [3000; 3000]) with 3000.
      rewrite bool_decide_eq_true_2 by lra. f_equal. lra.
    - change (State.volatility state)
        with (Some (market_generator._realized_volatility (falling_to 99.7 202))).
      by rewrite Hvol.
    - change (State.risk_profile state)
        with (Some (let vol := market_generator._realized_volatility (falling_to 99.7 202) in
                    if bool_decide (vol < 0.02) then "aggressive"
                    else if bool_decide (vol < 0.035) then "balanced" else "conservative")).
      cbv zeta. rewrite Hvol.
      by rewrite bool_decide_eq_true_2 by lra. }
  (* 4) plan *)
  apply runs_bind, (pipeline_facts.runs_plan w3 index); [done|]. rewrite Hopp.
  change (planner.plan_from _ state)
    with (Plan.mk (Some "invest") (Some 409.2) (Some "sip") (Some "INDEX")
            (Some (SignalInfo.signal signal_info))
            (Some (SignalInfo.confidence signal_info)) (Some 409.2) None).
  (* 5) execute *)
  apply runs_bind.
  rewrite (pipeline_facts.execute_invest _ _ 409.2) by (reflexivity || lra).
  cbn [cycle.plan_set_timestamp Plan.timestamp Plan.invest_mode Plan.ticker from_option].
  unfold Datatypes.id.
  apply (pipeline_facts.runs_apply_investment w3 index); [done|].
  intros r w4 Hst4 Hnav4 Hinv. destruct Hinv as [Hbank4 Hbuy]; [lra|].
  rewrite Hbank3, Hbank2, Hpf3, Hpf2, Hst3, Hst2, Hprice in Hbuy.
  rewrite Rmin_left in Hbuy by lra.
  cbn [w1 _global_portfolio] in Hbuy.
  assert (pipeline_facts.booted w4 index) as Hb4 by (by eapply pipeline_facts.booted_frame).
  (* 6) NAV and reward *)
  apply runs_bind, (pipeline_facts.runs_update_nav_history w4 index); [done|].
  apply runs_bind, runs_gets, runs_ret.
  cbn [CycleOutput.result CycleOutput.reward].
  (* the trade *)
  assert (r = Result.mk (Some "filled") (Some "INDEX") (Some 409.2)
                (Some (409.2 / 99.7)) (Some 99.7)) as Hr.
  { unfold ledger_facts.bought in Hbuy.
    rewrite (Rmax_right 0 409.2) in Hbuy by lra.
    rewrite !bool_decide_eq_false_2 in Hbuy by lra. congruence. }
  (* the NAV after the trade *)
  assert (pipeline_facts.nav_of w4 index = 768.12) as Hnav.
  { unfold pipeline_facts.nav_of. rewrite Hst4, Hst3, Hst2.
    destruct (bought_effect (market_facts.price_at (_state w1) index) pf "INDEX" 409.2 99.7)
      as (Hcash & _ & _ & Hval); [lra | lra | exact Hprice |].
    rewrite <- Hbuy in Hcash, Hval. cbn [snd] in Hcash, Hval.
    rewrite Hcash, Hval. unfold pf at 1 2. cbn [cash positions].
    rewrite holdings_value_singleton, Hprice. lra. }
  rewrite Hnav.
  assert (nav_history (SIM_STATE w4) ++ [768.12] = [360; 768.12]) as Hnavs
    by (by rewrite Hnav4, Hnav3, Hnav2).
  split; [by rewrite Hr|]. split; [by rewrite Hr|].
  split.
  { destruct w4 as [? [] ? ? ?]. exact Hnavs. }
  (* the reward *)
  unfold reward.compute_reward. cbv zeta.
  change (State.nav_history (cycle.state_set_nav state 768.12))
    with (Some SIM_STATE_nav_history).
  change (State.last_invest_amount (cycle.state_set_nav state 768.12)) with (@None R).
  cbn [deref from_option].
  replace (nav_history (SIM_STATE (pipeline_facts.with_sim _ w4))) with [360; 768.12]
    by (destruct w4 as [? [] ? ? ?]; symmetry; exact Hnavs).
  unfold Datatypes.id.
  pose proof (nav_component_cases [360; 768.12] 0 ltac:(cbn [length]; lia)) as [_ Hcomp].
  rewrite Hcomp by lra.
  unfold nav_change. cbn [length Nat.sub nth].
  unfold reward.penalties_and_bonus. cbv zeta.
  change (State.emergency_buffer_ok (cycle.state_set_nav state 768.12))
    with (Some (bool_decide
                  (bank_balance (SIM_STATE w2)
                   >= (let e := match expense_history (SIM_STATE w2) with
                                | [] => 0
                                | _ :: _ => py.last_or 0 (expense_history (SIM_STATE w2))
                                end in
                       if bool_decide (e > 0) then e * 3 else 0)))).
  change (State.volatility (cycle.state_set_nav state 768.12))
    with (Some (market_generator._realized_volatility (falling_to 99.7 202))).
  rewrite Hvol, Hbank2, Hexp2, Hr. cbv zeta.
  change (py.last_or 0 [3000; 3000]) with 3000.
  rewrite (bool_decide_eq_true_2 (3000 > 0)) by lra.
  rewrite (bool_decide_eq_true_2 (11640 + 5000 - 3000 >= 3000 * 3)) by lra.
  cbn [from_option negb Result.status]. unfold Datatypes.id.
  rewrite !bool_decide_eq_false_2 by lra.
  change (String.eqb "filled" "filled") with true. cbn [orb negb]. lra.
Qed.

(** ** Reset *)

(** The world POST /reset leaves: [SIM_STATE] as at start-up (the two base
    means are never written), one more write to the sink, and the market,
    the ledger and the generator as they were. *)
Lemma reset_endpoint_eq (w : World) :
  main.reset_endpoint w
  = Some ("ok",
          mkWorld (_state w)
            (mkSimState 10000 (base_income (SIM_STATE w)) (base_expense (SIM_STATE w))
               [] [] [10000] [] [] [] 0 0)
            (_global_portfolio w) (db w ++ [ResetDb]) (random w)).
Proof. reflexivity. Qed.

(** The parts of C1 the code keeps: the account state is back to its
    initial values, the market is untouched, and a second reset changes
    nothing in the account state.  The ledger is untouched as well. *)
Lemma reset_endpoint_account (w : World) :
  exists w' w'',
    main.reset_endpoint w = Some ("ok", w')
    /\ main.reset_endpoint w' = Some ("ok", w'')
    /\ bank_balance (SIM_STATE w') = 10000
    /\ income_history (SIM_STATE w') = []
    /\ expense_history (SIM_STATE w') = []
    /\ sip_history (SIM_STATE w') = []
    /\ lumpsum_history (SIM_STATE w') = []
    /\ nav_history (SIM_STATE w') = []
    /\ balance_history (SIM_STATE w') = [10000]
    /\ invested_amount (SIM_STATE w') = 0
    /\ _state w' = _state w
    /\ _global_portfolio w' = _global_portfolio w
    /\ SIM_STATE w'' = SIM_STATE w'.
Proof.
  do 2 eexists. split; [apply reset_endpoint_eq|]. split; [apply reset_endpoint_eq|].
  cbn. repeat split.
Qed.

(** C1, at the failing input.  In the world where 100 has been invested in
    INDEX at price 50, POST /reset puts the bank balance back to 10000 and
    the invested amount back to 0, and the ledger still holds the 2 units
    bought. *)
Theorem reset_keeps_the_ledger :
  exists r w1 w2,
    utils.apply_investment "2025-01-01T00:00:00" "sip" "INDEX" 100 world_at_50 = Some (r, w1)
    /\ main.reset_endpoint w1 = Some ("ok", w2)
    /\ bank_balance (SIM_STATE w2) = 10000
    /\ invested_amount (SIM_STATE w2) = 0
    /\ nav_history (SIM_STATE w2) = []
    /\ default 0 (positions (_global_portfolio w2) !! "INDEX") = 2.
Proof.
  assert (pipeline_facts.booted world_at_50 index_at_50) as Hb
    by (split; [reflexivity | discriminate]).
  destruct (pipeline_facts.runs_apply_investment world_at_50 _
              "2025-01-01T00:00:00" "sip" "INDEX" 100
              (fun r w1 =>
                 default 0 (positions (_global_portfolio w1) !! "INDEX") = 2) Hb)
    as (r & w1 & Hrun & Hunits).
  { intros r w1 _ _ Hinv. destruct Hinv as [_ Hbuy]; [lra|].
    assert (market_facts.price_at (_state world_at_50)
              index_at_50 "INDEX" = 50) as Hp by reflexivity.
    rewrite Hp in Hbuy.
    assert (Rmin 100 (bank_balance (SIM_STATE world_at_50)) = 100) as Hmin.
    { apply Rmin_left. cbn [world_at_50 SIM_STATE utils.SIM_STATE_literal bank_balance]. lra. }
    rewrite Hmin in Hbuy.
    destruct (bought_effect (fun _ => 50) (_global_portfolio world_at_50) "INDEX" 100 50)
      as (_ & Hu & _); [lra | lra | reflexivity |].
    rewrite <- Hbuy in Hu. cbn [snd] in Hu. rewrite Hu.
    replace (default 0 (positions (_global_portfolio world_at_50) !! "INDEX")) with 0
      by reflexivity.
    lra. }
  exists r, w1. eexists. split; [exact Hrun|]. split; [apply reset_endpoint_eq|].
  cbn [SIM_STATE bank_balance invested_amount nav_history _global_portfolio].
  repeat split. exact Hunits.
Qed.

(* ===================================================================== *)
(** * Part III: more of the code                                          *)
(* ===================================================================== *)

(** ** Dictionaries, continued *)

Section DictSplit.
Context {V : Type}.
Implicit Types (d : py.dict V) (k : string) (v : V).

Lemma getitem_app_notin d1 d2 k :
  k ∉ py.keys d1 -> py.getitem (d1 ++ d2) k = py.getitem d2 k.
Proof.
  unfold py.keys. induction d1 as [|[k' v'] d1 IH]; cbn; [done|].
  intros Hn. apply not_elem_of_cons in Hn as [Hne Hn].
  destruct (String.eqb k k') eqn:E; [by apply String.eqb_eq in E | by apply IH].
Qed.

Lemma setitem_app_notin d1 d2 k v v0 :
  k ∉ py.keys d1 -> py.getitem d2 k = Some v0 ->
  py.setitem (d1 ++ d2) k v = d1 ++ py.setitem d2 k v.
Proof.
  unfold py.keys. induction d1 as [|[k' v'] d1 IH]; cbn; [done|].
  intros Hn Hd. apply not_elem_of_cons in Hn as [Hne Hn].
  destruct (String.eqb k k') eqn:E; [by apply String.eqb_eq in E|].
  by rewrite IH.
Qed.

Lemma setitem_same d k v : py.getitem d k = Some v -> py.setitem d k v = d.
Proof.
  induction d as [|[k' v'] d IH]; cbn; [done|].
  destruct (String.eqb k k') eqn:E.
  - by intros [= ->].
  - intros H. by rewrite IH.
Qed.

End DictSplit.

(** ** One step of the whole market *)

Module step_facts.
Import market_generator market_facts.

(** The market after one [step_market] that starts with [c] draws consumed:
    the instruments are stepped in insertion order, one draw each. *)
Fixpoint step_all (smp : nat -> R) (c : nat) (m : py.dict Instrument) : py.dict Instrument :=
  match m with
  | [] => []
  | (t, d) :: m' => (t, stepped d (smp c)) :: step_all smp (S c) m'
  end.

Lemma stepped_gauss d x : stepped d (0 + x * 1) = stepped d x.
Proof. f_equal; f_equal; lra. Qed.

Lemma keys_step_all smp c m : py.keys (step_all smp c m) = py.keys m.
Proof.
  revert c. induction m as [|[t d] m IH]; intros c; cbn; [done|].
  f_equal. apply IH.
Qed.

Lemma lookup_step_all smp c m i t d :
  m !! i = Some (t, d) -> step_all smp c m !! i = Some (t, stepped d (smp (c + i)%nat)).
Proof.
  revert c i. induction m as [|[t' d'] m IH]; intros c i; [done|].
  destruct i as [|i]; cbn [step_all].
  - intros [= -> ->]. by rewrite Nat.add_0_r.
  - intros H. replace (c + S i)%nat with (S c + i)%nat by lia. by apply IH.
Qed.

Lemma getitem_step_all smp c m t d' :
  py.getitem (step_all smp c m) t = Some d' ->
  exists d z, py.getitem m t = Some d /\ d' = stepped d z.
Proof.
  revert c. induction m as [|[t0 d0] m IH]; intros c; cbn; [done|].
  destruct (String.eqb t t0).
  - intros [= <-]. eauto.
  - apply IH.
Qed.

Lemma _step_gbm_eq t d m sim pf dbt smp c :
  py.getitem m t = Some d ->
  _step_gbm t (mkWorld m sim pf dbt (mkRandom smp c))
  = Some (tt, mkWorld (py.setitem m t (stepped d (smp c))) sim pf dbt (mkRandom smp (S c))).
Proof.
  intros Hd. unfold _step_gbm, _state_getitem, bind, gets, modify, ret, gauss.
  cbn [_state random normal_samples consumed]. rewrite Hd.
  unfold set_random, set__state.
  cbn [_state random normal_samples consumed SIM_STATE _global_portfolio db].
  by rewrite <- (stepped_gauss d (smp c)).
Qed.

Lemma for_each__step_gbm rest : forall visited sim pf dbt smp c,
  NoDup (py.keys (visited ++ rest)) ->
  for_each (py.keys rest) _step_gbm (mkWorld (visited ++ rest) sim pf dbt (mkRandom smp c))
  = Some (tt, mkWorld (visited ++ step_all smp c rest) sim pf dbt
                (mkRandom smp (c + length rest))).
Proof.
  induction rest as [|[t d] rest IH]; intros visited sim pf dbt smp c Hnd.
  - cbn. by rewrite Nat.add_0_r.
  - assert (t ∉ py.keys visited) as Hnotin.
    { unfold py.keys in *. rewrite map_app in Hnd. apply NoDup_app in Hnd as (_ & Hd & _).
      intros Hin. apply (Hd t Hin). cbn. by left. }
    assert (py.getitem ((t, d) :: rest) t = Some d) as Hhere by (cbn; by rewrite String.eqb_refl).
    change (py.keys ((t, d) :: rest)) with (t :: py.keys rest). cbn [for_each].
    unfold bind at 1.
    rewrite (_step_gbm_eq t d) by (by rewrite getitem_app_notin).
    rewrite (setitem_app_notin _ _ _ _ d) by done.
    cbn [py.setitem]. rewrite String.eqb_refl.
    replace (visited ++ (t, stepped d (smp c)) :: rest)
      with ((visited ++ [(t, stepped d (smp c))]) ++ rest) by (by rewrite <- app_assoc).
    rewrite IH.
    + rewrite <- app_assoc. cbn [app step_all length]. do 4 f_equal. lia.
    + unfold py.keys in *. rewrite !map_app in *. cbn [map fst] in *. by rewrite <- app_assoc.
Qed.

(** [step_market], in closed form. *)
Lemma step_market_eq w :
  NoDup (py.keys (_state w)) ->
  step_market w
  = Some (tt, mkWorld (step_all (normal_samples (random w)) (consumed (random w)) (_state w))
                (SIM_STATE w) (_global_portfolio w) (db w)
                (mkRandom (normal_samples (random w))
                   (consumed (random w) + length (_state w)))).
Proof.
  intros Hnd. destruct w as [m sim pf dbt [smp c]].
  unfold step_market, bind, gets. cbn [_state random normal_samples consumed SIM_STATE
    _global_portfolio db].
  apply (for_each__step_gbm m [] sim pf dbt smp c Hnd).
Qed.

End step_facts.

(** ** The price window and the draws *)

Module window_facts.
Import market_generator market_facts step_facts.

(** A property of the entries of [_state]. *)
Definition every_entry (I : string -> Instrument -> Prop) (m : py.dict Instrument) : Prop :=
  forall t d, py.getitem m t = Some d -> I t d.

Lemma length_keys {V} (m : py.dict V) : length (py.keys m) = length m.
Proof. unfold py.keys. apply length_map. Qed.

(** One [step_market] takes every entry from [I] to [J] when one step of
    the instrument does. *)
Lemma step_market_entries (I J : string -> Instrument -> Prop) w :
  NoDup (py.keys (_state w)) ->
  (forall t d z, I t d -> J t (stepped d z)) ->
  every_entry I (_state w) ->
  exists w',
    step_market w = Some (tt, w')
    /\ py.keys (_state w') = py.keys (_state w)
    /\ every_entry J (_state w')
    /\ same_account w w'
    /\ normal_samples (random w') = normal_samples (random w)
    /\ consumed (random w') = (consumed (random w) + length (_state w))%nat.
Proof.
  intros Hnd Hstep Hall. eexists. split; [by apply step_market_eq|].
  cbn [_state random normal_samples consumed].
  split; [apply keys_step_all|]. split.
  - intros t d' Hd'. apply getitem_step_all in Hd' as (d & z & Hd & ->).
    apply Hstep. by apply Hall.
  - by repeat split.
Qed.

Lemma steps_market_entries (I : nat -> string -> Instrument -> Prop) :
  (forall n t d z, I n t d -> I (S n) t (stepped d z)) ->
  forall N n w,
    NoDup (py.keys (_state w)) ->
    every_entry (I n) (_state w) ->
    exists w',
      repeat_n N step_market w = Some (tt, w')
      /\ py.keys (_state w') = py.keys (_state w)
      /\ every_entry (I (n + N)%nat) (_state w')
      /\ same_account w w'
      /\ normal_samples (random w') = normal_samples (random w)
      /\ consumed (random w') = (consumed (random w) + N * length (_state w))%nat.
Proof.
  intros Hstep. induction N as [|N IH]; intros n w Hnd Hall.
  - exists w. cbn [repeat_n]. split; [reflexivity|]. split; [done|].
    rewrite Nat.add_0_r. split; [done|]. split; [apply same_account_refl|].
    split; [done | lia].
  - destruct (step_market_entries (I n) (I (S n)) w Hnd (Hstep n) Hall)
      as (w1 & Hrun1 & Hk1 & Hall1 & Hacc1 & Hs1 & Hc1).
    destruct (IH (S n) w1) as (w' & Hrun & Hk & Hall' & Hacc & Hs & Hc);
      [by rewrite Hk1 | done |].
    exists w'. cbn [repeat_n]. unfold bind. rewrite Hrun1.
    split; [exact Hrun|]. split; [by rewrite Hk, Hk1|].
    split; [by replace (n + S N)%nat with (S n + N)%nat by lia|].
    split; [by eapply same_account_trans|].
    split; [by rewrite Hs, Hs1|].
    assert (length (_state w1) = length (_state w)) as Hlen
      by (by rewrite <- !length_keys, Hk1).
    rewrite Hc, Hc1, Hlen. lia.
Qed.

Lemma length_push_history h p :
  (length h <= 2000)%nat ->
  length (push_history h p) = Nat.min (S (length h)) 2000.
Proof.
  intros Hle. unfold push_history. cbv zeta. rewrite length_app. cbn [length].
  destruct (bool_decide _) eqn:E.
  - apply bool_decide_eq_true in E.
    rewrite length_drop, length_app. cbn [length]. lia.
  - apply bool_decide_eq_false in E. rewrite length_app. cbn [length]. lia.
Qed.

(** What [n] steps make of the instrument [t] of the module literal: the
    parameters of the literal, a history of the last [min n 2000] prices
    that satisfies [price_facts.moving]. *)
Definition after_steps (n : nat) (t : string) (d : Instrument) : Prop :=
  (exists d0, py.getitem _state_literal t = Some d0 /\ mu d = mu d0 /\ sigma d = sigma d0)
  /\ length (history d) = Nat.min n 2000
  /\ price_facts.moving d.

Lemma after_steps_stepped n t d z : after_steps n t d -> after_steps (S n) t (stepped d z).
Proof.
  intros (Hlit & Hlen & Hmov). split; [exact Hlit|]. split.
  - cbn [stepped history]. rewrite length_push_history by lia. lia.
  - by apply price_facts.moving_stepped.
Qed.

Lemma after_steps_literal : every_entry (after_steps 0) _state_literal.
Proof.
  intros t d Hd. split; [by exists d|]. split.
  - revert Hd. unfold _state_literal. cbn.
    repeat (destruct (String.eqb t _); [by intros [= <-]|]). done.
  - by apply (price_facts.moving_literal t).
Qed.

Lemma INDEX_in_literal : "INDEX" ∈ py.keys _state_literal.
Proof. by apply (key_of_getitem _ _ (mkInstrument 100 [] 0.0008 0.02)). Qed.

Lemma NoDup_literal : NoDup (py.keys _state_literal).
Proof. apply (bool_decide_unpack _). by vm_compute. Qed.

(** The worlds [N] steps after the module literals. *)
Lemma steps_from_literal samples N :
  exists w',
    repeat_n N step_market (world_literal samples) = Some (tt, w')
    /\ py.keys (_state w') = py.keys _state_literal
    /\ every_entry (after_steps N) (_state w')
    /\ same_account (world_literal samples) w'
    /\ normal_samples (random w') = samples
    /\ consumed (random w') = (N * 3)%nat.
Proof.
  destruct (steps_market_entries after_steps after_steps_stepped N 0 (world_literal samples))
    as (w' & Hrun & Hk & Hall & Hacc & Hs & Hc).
  - apply NoDup_literal.
  - apply after_steps_literal.
  - exists w'. split; [exact Hrun|]. split; [exact Hk|].
    split; [exact Hall|]. split; [exact Hacc|]. split; [exact Hs|].
    rewrite Hc. cbn. lia.
Qed.

(** The prices an instrument takes in [n] steps, oldest first, from the
    price [p], when its step number [k] uses the draw [z k]. *)
Fixpoint trajectory (p mu sigma : R) (z : nat -> R) (n : nat) : list R :=
  match n with
  | O => []
  | S n' =>
      let t := trajectory p mu sigma z n' in
      t ++ [next_price (py.last_or p t) mu sigma (z n')]
  end.

(** An instrument of the module literal after [n] steps. *)
Definition evolved (d0 : Instrument) (z : nat -> R) (n : nat) : Instrument :=
  let t := trajectory (price d0) (mu d0) (sigma d0) z n in
  mkInstrument (py.last_or (price d0) t) (py.last_n 2000 t) (mu d0) (sigma d0).

Lemma length_trajectory p mu sigma z n : length (trajectory p mu sigma z n) = n.
Proof.
  induction n as [|n IH]; [done|]. cbn [trajectory]. cbv zeta.
  rewrite length_app, IH. cbn [length]. lia.
Qed.

(** Appending to the window and evicting its oldest entry is taking the
    window of the longer list. *)
Lemma push_history_last_n t p :
  push_history (py.last_n 2000 t) p = py.last_n 2000 (t ++ [p]).
Proof.
  unfold push_history, py.last_n. cbv zeta.
  rewrite !length_app, length_drop. cbn [length].
  destruct (bool_decide _) eqn:E.
  - apply bool_decide_eq_true in E.
    rewrite <- drop_app_le by lia. rewrite drop_drop. f_equal. lia.
  - apply bool_decide_eq_false in E.
    replace (length t - 2000)%nat with 0%nat by lia.
    replace (length t + 1 - 2000)%nat with 0%nat by lia. by rewrite !drop_0.
Qed.

(** One step on a window of at most 2000 prices: the new price goes to the
    end, and the oldest price leaves once 2000 are held. *)
Lemma push_history_window h p :
  (length h <= 2000)%nat -> push_history h p = py.last_n 2000 (h ++ [p]).
Proof.
  intros Hh. rewrite <- push_history_last_n. f_equal.
  unfold py.last_n. replace (length h - 2000)%nat with 0%nat by lia. by rewrite drop_0.
Qed.

Lemma stepped_evolved d0 z n : stepped (evolved d0 z n) (z n) = evolved d0 z (S n).
Proof.
  unfold stepped, evolved. cbv zeta. cbn [price history mu sigma trajectory].
  rewrite push_history_last_n. f_equal.
  unfold py.last_or. by rewrite List.last_last.
Qed.

Lemma getitem_of_lookup {V} (m : py.dict V) i t d :
  NoDup (py.keys m) -> m !! i = Some (t, d) -> py.getitem m t = Some d.
Proof.
  revert i. induction m as [|[t' d'] m IH]; intros i Hnd; [done|].
  unfold py.keys in Hnd. cbn [map fst] in Hnd. apply NoDup_cons in Hnd as [Hnotin Hnd].
  destruct i as [|i]; cbn [py.getitem].
  - intros [= -> ->]. by rewrite String.eqb_refl.
  - intros Hi. destruct (String.eqb t t') eqn:E; [|by apply (IH i)].
    apply String.eqb_eq in E as ->. exfalso. apply Hnotin.
    apply (list_elem_of_fmap_2 fst m (t', d)). by eapply list_elem_of_lookup_2.
Qed.

(** The market [n] steps after the module literals: the instrument at
    position [i] has used the draws [i], [3 + i], [6 + i], ... *)
Definition at_step (samples : nat -> R) (n : nat) (w : World) : Prop :=
  length (_state w) = 3%nat
  /\ random w = mkRandom samples (n * 3)
  /\ forall i t d0, _state_literal !! i = Some (t, d0) ->
       _state w !! i = Some (t, evolved d0 (fun k => samples (k * 3 + i)%nat) n).

Lemma keys_at_step samples n w : at_step samples n w -> py.keys (_state w) = py.keys _state_literal.
Proof.
  intros (Hlen & _ & Hall).
  destruct (_state w) as [|[t0 d0] [|[t1 d1] [|[t2 d2] [|? ?]]]]; try done.
  pose proof (Hall 0%nat _ _ eq_refl) as H0.
  pose proof (Hall 1%nat _ _ eq_refl) as H1.
  pose proof (Hall 2%nat _ _ eq_refl) as H2.
  cbn in H0, H1, H2. by injection H0 as -> _; injection H1 as -> _; injection H2 as -> _.
Qed.

Lemma at_step_literal samples : at_step samples 0 (world_literal samples).
Proof.
  split; [done|]. split; [done|].
  intros [|[|[|i]]] t d0; cbn; try done; by intros [= <- <-].
Qed.

Lemma at_step_step samples n w :
  at_step samples n w ->
  exists w',
    step_market w = Some (tt, w') /\ at_step samples (S n) w' /\ same_account w w'.
Proof.
  intros Hw. pose proof (keys_at_step _ _ _ Hw) as Hk. destruct Hw as (Hlen & Hrnd & Hall).
  eexists. split.
  { apply step_market_eq. rewrite Hk. apply NoDup_literal. }
  split; [|by repeat split].
  rewrite Hrnd. unfold at_step. cbn [_state random normal_samples consumed]. split.
  - rewrite <- (length_keys (step_all _ _ _)), keys_step_all, length_keys. exact Hlen.
  - split; [rewrite Hlen; f_equal; lia|].
    intros i t d0 Hi. rewrite (lookup_step_all _ _ _ i t _ (Hall i t d0 Hi)).
    by rewrite <- stepped_evolved.
Qed.

Lemma at_step_steps samples N : forall n w,
  at_step samples n w ->
  exists w',
    repeat_n N step_market w = Some (tt, w')
    /\ at_step samples (n + N) w' /\ same_account w w'.
Proof.
  induction N as [|N IH]; intros n w Hw.
  - exists w. rewrite Nat.add_0_r. split; [done|]. split; [done | apply same_account_refl].
  - destruct (at_step_step _ _ _ Hw) as (w1 & Hrun1 & Hw1 & Hacc1).
    destruct (IH (S n) w1 Hw1) as (w' & Hrun & Hw' & Hacc).
    exists w'. cbn [repeat_n]. unfold bind. rewrite Hrun1.
    split; [exact Hrun|]. split; [by replace (n + S N)%nat with (S n + N)%nat by lia|].
    by eapply same_account_trans.
Qed.

End window_facts.

(** X1.  The price window.  [N] calls of [step_market] from the module
    literals return; they keep the three instruments and their drift and
    volatility parameters, leave the account, the ledger and the database
    alone, and consume [3 * N] draws.  The instrument at position [i] takes
    the prices of [window_facts.trajectory]: each one is [next_price] of the
    one before, under the draws [i], [3 + i], [6 + i], ...  Its price is
    the last of them and its history holds the last 2000 of them, oldest
    first (all [N] of them up to 2000 steps): the oldest price is the one
    evicted, as in every single step on a history of at most 2000 prices.
    So every history has [min(N, 2000)] entries and, for [N > 0], ends at
    the current price. *)
Theorem history_window (samples : nat -> R) (N : nat) :
  exists w',
    repeat_n N market_generator.step_market (world_literal samples) = Some (tt, w')
    /\ py.keys (_state w') = ["INDEX"; "STOCK_A"; "STOCK_B"]
    /\ (forall t d, py.getitem (_state w') t = Some d ->
          length (history d) = Nat.min N 2000
          /\ ((0 < N)%nat -> last (history d) = Some (price d))
          /\ exists d0, py.getitem market_generator._state_literal t = Some d0
                        /\ mu d = mu d0 /\ sigma d = sigma d0)
    /\ (forall i t d0, market_generator._state_literal !! i = Some (t, d0) ->
          let prices := window_facts.trajectory (price d0) (mu d0) (sigma d0)
                          (fun k => samples (k * 3 + i)%nat) N in
          py.getitem (_state w') t
          = Some (mkInstrument (py.last_or (price d0) prices) (py.last_n 2000 prices)
                    (mu d0) (sigma d0)))
    /\ (forall h p, (length h <= 2000)%nat ->
          market_generator.push_history h p = py.last_n 2000 (h ++ [p]))
    /\ market_facts.same_account (world_literal samples) w'
    /\ consumed (random w') = (N * 3)%nat.
Proof.
  destruct (window_facts.steps_from_literal samples N) as (w' & Hrun & Hk & Hall & Hacc & _ & Hc).
  destruct (window_facts.at_step_steps samples N 0 _ (window_facts.at_step_literal samples))
    as (w'' & Hrun' & Hw' & _).
  rewrite Hrun in Hrun'. injection Hrun' as <-.
  exists w'. split; [exact Hrun|]. split; [exact Hk|].
  split; [|split; [|split; [apply window_facts.push_history_window | by split]]]; cycle 1.
  { intros i t d0 Hi prices. destruct Hw' as (_ & _ & Hat).
    apply (window_facts.getitem_of_lookup _ i).
    - rewrite Hk. apply window_facts.NoDup_literal.
    - apply (Hat i t d0 Hi). }
  intros t d Hd. destruct (Hall t d Hd) as (Hlit & Hlen & _ & _ & Hlast & _).
  split; [exact Hlen|]. split; [|exact Hlit].
  intros HN. destruct (last (history d)) as [l|] eqn:El; [by rewrite (Hlast l)|].
  apply last_None in El. rewrite El in Hlen. cbn in Hlen. lia.
Qed.

(** X2.  The order of the draws.  In a market whose keys are distinct (a
    dictionary), [step_market] returns; the instrument at position [i] of
    the insertion order is replaced by its step under draw number
    [consumed + i], one draw per instrument is consumed, and the account,
    the ledger and the database are left alone. *)
Theorem step_market_draws_in_order (w : World) :
  NoDup (py.keys (_state w)) ->
  exists w',
    market_generator.step_market w = Some (tt, w')
    /\ length (_state w') = length (_state w)
    /\ (forall i t d, _state w !! i = Some (t, d) ->
          _state w' !! i
          = Some (t, market_facts.stepped d
                       (normal_samples (random w) (consumed (random w) + i)%nat)))
    /\ market_facts.same_account w w'
    /\ random w'
       = mkRandom (normal_samples (random w)) (consumed (random w) + length (_state w)).
Proof.
  intros Hnd. eexists. split; [by apply step_facts.step_market_eq|].
  cbn [_state random].
  split; [by rewrite <- !window_facts.length_keys, step_facts.keys_step_all|].
  split; [intros i t d; apply step_facts.lookup_step_all|].
  split; [by repeat split | reflexivity].
Qed.

Lemma step_market_draws_in_order_witness :
  exists w',
    market_generator.step_market world_at_50 = Some (tt, w')
    /\ _state w' !! 0%nat
       = Some ("INDEX", market_facts.stepped index_at_50 0)
    /\ random w' = mkRandom (fun _ => 0) 3.
Proof.
  destruct (step_market_draws_in_order world_at_50) as (w' & Hrun & _ & Hat & _ & Hrnd).
  - apply (bool_decide_unpack _). by vm_compute.
  - exists w'. split; [exact Hrun|]. split; [|exact Hrnd].
    exact (Hat 0%nat "INDEX" index_at_50 eq_refl).
Defined.

Lemma _ensure_bootstrap_literal samples :
  market_generator._ensure_bootstrap (world_literal samples)
  = repeat_n 200 market_generator.step_market (world_literal samples).
Proof. reflexivity. Qed.

(** X3.  The bootstrap.  The [_ensure_bootstrap] that the import runs on
    the module literals gives every instrument exactly 200 prices, with 600
    draws, and leaves the account alone; a second call changes nothing. *)
Theorem bootstrap_fills_200 (samples : nat -> R) :
  exists w',
    market_generator._ensure_bootstrap (world_literal samples) = Some (tt, w')
    /\ py.keys (_state w') = ["INDEX"; "STOCK_A"; "STOCK_B"]
    /\ (forall t d, py.getitem (_state w') t = Some d -> length (history d) = 200%nat)
    /\ consumed (random w') = 600%nat
    /\ market_facts.same_account (world_literal samples) w'
    /\ market_generator._ensure_bootstrap w' = Some (tt, w').
Proof.
  destruct (window_facts.steps_from_literal samples 200)
    as (w' & Hrun & Hk & Hall & Hacc & _ & Hc).
  exists w'. split; [by rewrite _ensure_bootstrap_literal|].
  split; [exact Hk|].
  assert (forall t d, py.getitem (_state w') t = Some d -> length (history d) = 200%nat) as Hlen.
  { intros t d Hd. by destruct (Hall t d Hd) as (_ & Hlen & _). }
  split; [exact Hlen|]. split; [exact Hc|]. split; [exact Hacc|].
  destruct (getitem_of_key (_state w') "INDEX") as [index Hidx].
  { rewrite Hk. apply window_facts.INDEX_in_literal. }
  apply (pipeline_facts._ensure_bootstrap_eq w' index). split; [exact Hidx|].
  intros Hnil. specialize (Hlen _ _ Hidx). by rewrite Hnil in Hlen.
Qed.

Lemma last_or_of_last {A} (l : list A) (x d : A) : last l = Some x -> py.last_or d l = x.
Proof.
  intros H. unfold py.last_or.
  destruct (decide (l = [])) as [->|Hne]; [done|].
  destruct (exists_last Hne) as (l' & y & ->).
  rewrite last_snoc in H. injection H as ->. apply List.last_last.
Qed.

(** X4.  Reading the index.  After the import and any number [N] of further
    steps, INDEX has between 200 and 2000 prices, all positive;
    [get_index_metrics] changes nothing and returns the history, the current
    price (the last entry, equal to what [get_price] returns), the realized
    volatility and the total return [current / first - 1]. *)
Theorem index_metrics_after_import (samples : nat -> R) (N : nat) :
  exists w0 w index,
    market_generator._ensure_bootstrap (world_literal samples) = Some (tt, w0)
    /\ repeat_n N market_generator.step_market w0 = Some (tt, w)
    /\ py.getitem (_state w) "INDEX" = Some index
    /\ (200 <= length (history index) <= 2000)%nat
    /\ Forall (fun p => 0 < p) (history index)
    /\ last (history index) = Some (price index)
    /\ market_generator.get_price "INDEX" w = Some (price index, w)
    /\ market_generator.get_index_metrics w
       = Some ((history index, price index,
                market_generator._realized_volatility (history index),
                price index / hd 0 (history index) - 1), w).
Proof.
  destruct (window_facts.steps_from_literal samples 200)
    as (w0 & Hrun0 & Hk0 & Hall0 & _).
  destruct (window_facts.steps_market_entries window_facts.after_steps
              window_facts.after_steps_stepped N 200 w0)
    as (w & Hrun & Hk & Hall & _).
  { rewrite Hk0. apply window_facts.NoDup_literal. }
  { exact Hall0. }
  destruct (getitem_of_key (_state w) "INDEX") as [index Hidx].
  { rewrite Hk, Hk0. apply window_facts.INDEX_in_literal. }
  destruct (Hall _ _ Hidx) as (_ & Hlen & Hp & Hpos & Hlast & _).
  assert (last (history index) = Some (price index)) as Hl.
  { destruct (last (history index)) as [l|] eqn:El; [by rewrite (Hlast l)|].
    apply last_None in El. rewrite El in Hlen. cbn in Hlen. lia. }
  exists w0, w, index. split; [by rewrite _ensure_bootstrap_literal|].
  split; [exact Hrun|]. split; [exact Hidx|]. split; [lia|].
  split; [exact Hpos|]. split; [exact Hl|]. split.
  { rewrite (market_facts.get_price_eq w index "INDEX" Hidx).
    unfold market_facts.price_at, market_facts.instrument_at. by rewrite Hidx. }
  rewrite (pipeline_facts.get_index_metrics_eq w index).
  - assert (2 <= length (history index))%nat as H2 by lia.
    assert (0 < hd 0 (history index)) as Hhd.
    { destruct (history index); [cbn in H2; lia|].
      apply Forall_cons in Hpos as [H0 _]. exact H0. }
    do 2 f_equal. unfold market_generator.index_metrics. cbv zeta.
    rewrite (last_or_of_last _ _ 0 Hl).
    rewrite (bool_decide_eq_true_2 _ H2).
    rewrite bool_decide_eq_true_2 by lra. cbn [andb].
    destruct (history index); [cbn in H2; lia | reflexivity].
  - split; [exact Hidx|]. intros Hnil. rewrite Hnil in Hlen. cbn in Hlen. lia.
Qed.

(** X5.  The volatility knob.  In a market that tracks INDEX,
    [set_index_volatility] returns and sets the volatility parameter of
    INDEX to its argument clamped to [0.005, 0.05]; the price, the history
    and the drift of INDEX, the other instruments, the order of the keys,
    the account, the ledger, the database and the generator are unchanged,
    and a second call with the same argument changes nothing. *)
Theorem set_index_volatility_clamps (w : World) (index : Instrument) (s : R) :
  py.getitem (_state w) "INDEX" = Some index ->
  exists w' s',
    market_generator.set_index_volatility s w = Some (tt, w')
    /\ py.getitem (_state w') "INDEX"
       = Some (mkInstrument (price index) (history index) (mu index) s')
    /\ 0.005 <= s' <= 0.05
    /\ (s <= 0.005 -> s' = 0.005)
    /\ (0.005 <= s <= 0.05 -> s' = s)
    /\ (0.05 <= s -> s' = 0.05)
    /\ (forall t, t <> "INDEX" -> py.getitem (_state w') t = py.getitem (_state w) t)
    /\ py.keys (_state w') = py.keys (_state w)
    /\ market_facts.same_account w w'
    /\ random w' = random w
    /\ market_generator.set_index_volatility s w' = Some (tt, w').
Proof.
  intros Hidx.
  set (s' := Rmax 0.005 (Rmin 0.05 s)).
  set (d' := mkInstrument (price index) (history index) (mu index) s').
  exists (set__state (py.setitem (_state w) "INDEX" d') w), s'.
  assert (forall w0 d0, py.getitem (_state w0) "INDEX" = Some d0 ->
            market_generator.set_index_volatility s w0
            = Some (tt, set__state
                          (py.setitem (_state w0) "INDEX"
                             (mkInstrument (price d0) (history d0) (mu d0) s')) w0)) as Hrun.
  { intros w0 d0 H0.
    unfold market_generator.set_index_volatility, market_generator._state_getitem,
      bind, gets, modify. by rewrite H0. }
  assert (0.005 <= s' <= 0.05) as Hrange.
  { unfold s'. split; [apply Rmax_l|].
    apply Rmax_lub; [lra | apply Rmin_l]. }
  split; [by apply Hrun|].
  split; [cbn [_state set__state]; apply getitem_setitem_eq|].
  split; [exact Hrange|].
  split. { intros Hs. unfold s'. rewrite Rmin_right by lra. apply Rmax_left. lra. }
  split. { intros Hs. unfold s'. rewrite Rmin_right by lra. apply Rmax_right. lra. }
  split. { intros Hs. unfold s'. rewrite Rmin_left by lra. apply Rmax_right. lra. }
  split. { intros t Ht. cbn [_state set__state]. by apply getitem_setitem_ne. }
  split. { cbn [_state set__state]. by eapply keys_setitem. }
  split; [by repeat split|]. split; [reflexivity|].
  rewrite (Hrun _ d') by (cbn [_state set__state]; apply getitem_setitem_eq).
  cbn [_state set__state price history mu d'].
  do 2 f_equal. destruct w as [m sim pf dbt rnd]. unfold set__state.
  cbn [_state SIM_STATE _global_portfolio db random]. f_equal.
  apply setitem_same. apply getitem_setitem_eq.
Qed.

(** A request for a volatility of 0.5 leaves INDEX of [world_at_50] with 0.05. *)
Lemma set_index_volatility_clamps_witness :
  exists w',
    market_generator.set_index_volatility 0.5 world_at_50 = Some (tt, w')
    /\ py.getitem (_state w') "INDEX"
       = Some (mkInstrument 50 (falling_to 50 200) 0.0008 0.05).
Proof.
  destruct (set_index_volatility_clamps world_at_50 index_at_50 0.5 eq_refl)
    as (w' & s' & Hrun & Hidx & _ & _ & _ & Hhi & _).
  exists w'. split; [exact Hrun|]. rewrite Hidx, Hhi by lra. reflexivity.
Defined.

(** ** The volatility estimate *)

Module volatility_facts.

Lemma _volatility_eq prices :
  trading_bot._volatility prices = market_generator._realized_volatility prices.
Proof. reflexivity. Qed.

Lemma _realized_volatility_nonneg prices :
  0 <= market_generator._realized_volatility prices.
Proof.
  unfold market_generator._realized_volatility.
  destruct (bool_decide _); [lra | apply stats_facts.std_of_returns_nonneg].
Qed.

(** No price is positive: no return is computed. *)
Lemma returns_nonpos prices : Forall (fun p => p <= 0) prices -> returns prices = [].
Proof.
  induction 1 as [|a tl Ha _ IH]; [done|].
  destruct tl as [|b tl]; [done|].
  change (returns (a :: b :: tl))
    with ((if bool_decide (a > 0) then [(b - a) / a] else []) ++ returns (b :: tl)).
  rewrite IH. by rewrite bool_decide_eq_false_2 by lra.
Qed.

(** A flat history: every return that is computed is [0]. *)
Lemma returns_flat c prices : Forall (eq c) prices -> Forall (eq 0) (returns prices).
Proof.
  induction 1 as [|a tl Ha Htl IH]; [constructor|].
  destruct tl as [|b tl]; [constructor|].
  change (returns (a :: b :: tl))
    with ((if bool_decide (a > 0) then [(b - a) / a] else []) ++ returns (b :: tl)).
  apply Forall_app. split; [|exact IH].
  destruct (bool_decide (a > 0)) eqn:E; [|constructor].
  apply bool_decide_eq_true in E. apply Forall_cons_1 in Htl as [<- _]. subst a.
  constructor; [|constructor]. unfold Rdiv. lra.
Qed.

Lemma sum_zeros xs : Forall (eq 0) xs -> py.sum xs = 0.
Proof.
  induction 1 as [|x xs <- _ IH]; [done|]. rewrite stats_facts.sum_cons, IH. lra.
Qed.

Lemma std_of_zeros rets : Forall (eq 0) rets -> std_of_returns rets = 0.
Proof.
  intros Hz. unfold std_of_returns. destruct rets as [|r rets]; [done|]. cbv zeta.
  rewrite (sum_zeros _ Hz).
  replace (0 / py.len (r :: rets)) with 0 by (unfold Rdiv; lra).
  rewrite sum_zeros.
  - replace (0 / py.len (r :: rets)) with 0 by (unfold Rdiv; lra). apply sqrt_0.
  - apply Forall_fmap. eapply Forall_impl; [exact Hz|]. cbn. intros x <-. lra.
Qed.

End volatility_facts.

(** X6.  The volatility estimate.  [_realized_volatility] and
    [_volatility] return the same number for every list of prices, and it
    is not negative.  It is [0] for fewer than two prices, for a list
    without a positive price (no return is computed), and for a flat
    history, whatever its level. *)
Theorem volatility_edge_cases (prices : list R) :
  trading_bot._volatility prices = market_generator._realized_volatility prices
  /\ 0 <= market_generator._realized_volatility prices
  /\ ((length prices < 2)%nat -> market_generator._realized_volatility prices = 0)
  /\ (Forall (fun p => p <= 0) prices -> market_generator._realized_volatility prices = 0)
  /\ (forall c, Forall (eq c) prices -> market_generator._realized_volatility prices = 0).
Proof.
  split; [reflexivity|].
  split; [apply volatility_facts._realized_volatility_nonneg|].
  unfold market_generator._realized_volatility.
  split; [by intros H; rewrite bool_decide_eq_true_2|].
  split.
  - intros H. destruct (bool_decide _); [done|].
    by rewrite (volatility_facts.returns_nonpos _ H).
  - intros c H. destruct (bool_decide _); [done|].
    apply volatility_facts.std_of_zeros. by apply (volatility_facts.returns_flat c).
Qed.


(** ** The signal generator, continued *)

Module signal_facts.
Import trading_bot.

Lemma crossover_cases short long price vol :
  let sc := crossover short long price vol in
  (fst sc = "buy" /\ short > long * 1.01 /\ price > long
   /\ (snd sc = 90%Z /\ vol < 0.02 \/ snd sc = 70%Z /\ 0.02 <= vol))
  \/ (fst sc = "sell" /\ short < long * 0.99 /\ price < long
      /\ (snd sc = 90%Z /\ vol > 0.03 \/ snd sc = 70%Z /\ vol <= 0.03))
  \/ (fst sc = "hold" /\ snd sc = 10%Z).
Proof.
  unfold crossover.
  destruct (bool_decide (short > long * 1.01)) eqn:E1;
    destruct (bool_decide (price > long)) eqn:E2; cbn [andb].
  1: { apply bool_decide_eq_true in E1, E2. left.
       destruct (bool_decide (vol < 0.02)) eqn:E3; cbn [fst snd].
       - apply bool_decide_eq_true in E3. repeat split; try done. by left.
       - apply bool_decide_eq_false in E3. repeat split; try done. right. split; [done | lra]. }
  all: destruct (bool_decide (short < long * 0.99)) eqn:E4;
       destruct (bool_decide (price < long)) eqn:E5; cbn [andb];
       try (right; right; by split).
  all: apply bool_decide_eq_true in E4, E5; right; left;
       destruct (bool_decide (vol > 0.03)) eqn:E6; cbn [fst snd];
       [ apply bool_decide_eq_true in E6; repeat split; try done; by left
       | apply bool_decide_eq_false in E6; repeat split; try done; right; split; [done | lra] ].
Qed.

Lemma _volatility_nonneg values : 0 <= _volatility values.
Proof.
  unfold _volatility.
  destruct (bool_decide _); [lra | apply stats_facts.std_of_returns_nonneg].
Qed.

Lemma sum_pos xs : xs <> [] -> Forall (fun x => 0 < x) xs -> 0 < py.sum xs.
Proof.
  intros Hne Hall. induction Hall as [|x xs Hx Hall IH]; [done|].
  rewrite stats_facts.sum_cons. destruct xs as [|y xs].
  - unfold py.sum. cbn. lra.
  - assert (0 < py.sum (y :: xs)) by (by apply IH). lra.
Qed.

(** A moving average of positive prices is positive. *)
Lemma _sma_pos h k v :
  (0 < k)%nat -> Forall (fun x => 0 < x) h -> _sma h k = Some v -> 0 < v.
Proof.
  intros Hk Hall. unfold _sma.
  destruct (bool_decide (length h < k)%nat) eqn:E; [done|].
  apply bool_decide_eq_false in E. intros [= <-].
  apply Rdiv_lt_0_compat; [|apply lt_0_INR; lia].
  apply sum_pos.
  - unfold py.last_n. intros Hnil. apply (f_equal length) in Hnil.
    rewrite length_drop in Hnil. cbn in Hnil. lia.
  - by apply Forall_drop.
Qed.

End signal_facts.

(** X7.  The range of the signal.  For every history, [analyze_market]
    returns signal "buy", "sell" or "hold", a confidence among 0, 10, 20, 70
    and 90, and a volatility that is not negative.  "buy" and "sell" come
    with confidence 70 or 90 and a volatility of at most 0.06; "buy" has 90
    exactly when the volatility is below 0.02, "sell" exactly when it is
    above 0.03; "hold" has at most 20.  The empty history gives "hold" with
    confidence 0. *)
Theorem analyze_market_range (history : list R) :
  let info := trading_bot.analyze_market history in
  let s := SignalInfo.signal info in
  let c := SignalInfo.confidence info in
  let vol := SignalInfo.volatility info in
  (s = "buy" \/ s = "sell" \/ s = "hold")
  /\ (0 <= c <= 100)%Z
  /\ 0 <= vol
  /\ (s = "buy" -> vol <= 0.06 /\ (c = 90%Z /\ vol < 0.02 \/ c = 70%Z /\ 0.02 <= vol))
  /\ (s = "sell" -> vol <= 0.06 /\ (c = 90%Z /\ vol > 0.03 \/ c = 70%Z /\ vol <= 0.03))
  /\ (s = "hold" -> c = 0%Z \/ c = 10%Z \/ c = 20%Z)
  /\ (history = [] -> info = SignalInfo.mk "hold" 0 0).
Proof.
  unfold trading_bot.analyze_market.
  destruct history as [|p0 h]; cbv zeta.
  { cbn [SignalInfo.signal SignalInfo.confidence SignalInfo.volatility].
    split; [by right; right|]. split; [lia|]. split; [lra|].
    split; [done|]. split; [done|]. split; [by left | done]. }
  set (hist := p0 :: h).
  set (short := py.or_else _ _). set (long := py.or_else _ _).
  set (price := py.last_or 0 hist). set (vol := trading_bot._volatility hist).
  pose proof (signal_facts._volatility_nonneg hist) as Hvol. fold vol in Hvol.
  cbn [SignalInfo.signal SignalInfo.confidence SignalInfo.volatility].
  destruct (bool_decide (vol > 0.06)) eqn:Ev; cbn [fst snd].
  { split; [by right; right|]. split; [lia|]. split; [done|].
    split; [done|]. split; [done|]. split; [by right; right | done]. }
  apply bool_decide_eq_false in Ev.
  destruct (signal_facts.crossover_cases short long price vol)
    as [(Hs & _ & _ & Hc)|[(Hs & _ & _ & Hc)|(Hs & Hc)]];
    rewrite Hs.
  - split; [by left|]. split; [destruct Hc as [[-> _]|[-> _]]; lia|]. split; [done|].
    split; [intros _; split; [lra|]; destruct Hc as [[-> ?]|[-> ?]]; [by left | by right]|].
    split; [done|]. split; [done | done].
  - split; [by right; left|]. split; [destruct Hc as [[-> _]|[-> _]]; lia|]. split; [done|].
    split; [done|].
    split; [intros _; split; [lra|]; destruct Hc as [[-> ?]|[-> ?]]; [by left | by right]|].
    split; [done | done].
  - rewrite Hc. split; [by right; right|]. split; [lia|]. split; [done|].
    split; [done|]. split; [done|]. split; [by right; left | done].
Qed.

(** X8.  No "buy" before twenty prices.  With fewer than 20 prices, all
    positive, [analyze_market] never says "buy": the long average is then
    the short one, which is positive and not above 1.01 times itself. *)
Theorem no_buy_before_twenty_prices (history : list R) :
  (length history < 20)%nat ->
  Forall (fun p => 0 < p) history ->
  SignalInfo.signal (trading_bot.analyze_market history) <> "buy".
Proof.
  intros Hlen Hpos. unfold trading_bot.analyze_market.
  destruct history as [|p0 h] eqn:Eh; [done|]. rewrite <- Eh in *. cbv zeta.
  assert (trading_bot._sma history 20 = None) as ->.
  { unfold trading_bot._sma. by rewrite bool_decide_eq_true_2. }
  assert (0 < py.last_or 0 history) as Hlast.
  { unfold py.last_or. rewrite Eh.
    destruct (exists_last (l := p0 :: h)) as (l' & y & Hl); [done|].
    rewrite Hl, List.last_last. rewrite Eh, Hl in Hpos.
    apply Forall_app in Hpos as [_ Hy]. by apply Forall_cons in Hy as [Hy _]. }
  set (short := py.or_else (trading_bot._sma history 5) _).
  assert (0 < short) as Hshort.
  { unfold short, py.or_else.
    destruct (trading_bot._sma history 5) as [v|] eqn:E; [|done].
    destruct (bool_decide (v = 0)); [done|].
    apply (signal_facts._sma_pos history 5 v); [lia | done | done]. }
  cbn [py.or_else].
  cbn [SignalInfo.signal].
  destruct (bool_decide (_ > 0.06)); [done|].
  unfold trading_bot.crossover.
  rewrite (bool_decide_eq_false_2 (short > short * 1.01)) by lra. cbn [andb].
  by destruct (_ && _).
Qed.

(** Nineteen prices that double at every step still give no "buy". *)
Lemma no_buy_before_twenty_prices_witness :
  SignalInfo.signal (trading_bot.analyze_market (trend_to 2 1000 19)) <> "buy".
Proof.
  apply no_buy_before_twenty_prices.
  - rewrite length_trend_to. lia.
  - cbn [trend_to app]. repeat (apply Forall_cons; split; [lra|]). constructor.
Defined.

(** ** The forecast *)

(** X9.  The window of the forecast.  [predict_price] reads the last ten
    prices only: whatever precedes ten prices does not change the forecast.
    With three prices or more the forecast is never negative. *)
Theorem predict_price_window (earlier window history : list R) :
  (length window = 10%nat ->
   trading_bot.predict_price (earlier ++ window) = trading_bot.predict_price window)
  /\ ((3 <= length history)%nat -> 0 <= trading_bot.predict_price history).
Proof.
  split.
  - intros Hw. unfold trading_bot.predict_price.
    destruct (earlier ++ window) as [|p0 h] eqn:Eh.
    { apply (f_equal length) in Eh. rewrite length_app, Hw in Eh. cbn in Eh. lia. }
    rewrite <- Eh. clear Eh p0 h.
    destruct window as [|q0 w'] eqn:Ew; [done|]. rewrite <- Ew in *. clear Ew q0 w'.
    rewrite !bool_decide_eq_false_2 by (rewrite ?length_app, Hw; lia).
    cbv zeta.
    replace (Nat.min 10 (length (earlier ++ window))) with 10%nat
      by (rewrite length_app, Hw; lia).
    replace (Nat.min 10 (length window)) with 10%nat by (rewrite Hw; lia).
    assert (py.last_n 10 (earlier ++ window) = window) as ->.
    { unfold py.last_n. rewrite length_app, Hw.
      replace (length earlier + 10 - 10)%nat with (length earlier) by lia.
      by rewrite drop_app_length. }
    assert (py.last_n 10 window = window) as ->.
    { unfold py.last_n. rewrite Hw. by rewrite Nat.sub_diag, drop_0. }
    reflexivity.
  - intros Hh. unfold trading_bot.predict_price.
    destruct history as [|p0 h] eqn:Eh; [cbn in Hh; lia|].
    rewrite bool_decide_eq_false_2 by lia. apply Rmax_l.
Qed.

(** X10.  Too few prices for a lump sum.  With fewer than three prices
    [predict_price] returns the last price (0 for no price at all); the
    trend is then never positive, and [evaluate_investment_opportunity]
    returns mode "sip" whatever the signal. *)
Theorem short_history_never_lumpsum (state : State.t) (history : list R)
    (signal_info : SignalInfo.t) :
  (length history < 3)%nat ->
  trading_bot.predict_price history = py.last_or 0 history
  /\ Opportunity.mode
       (investment_agent.evaluate_with state history signal_info
          (trading_bot.predict_price history)) = "sip".
Proof.
  intros Hlen.
  assert (trading_bot.predict_price history = py.last_or 0 history) as Hp.
  { unfold trading_bot.predict_price. destruct history as [|p0 h]; [done|].
    by rewrite bool_decide_eq_true_2. }
  split; [exact Hp|].
  destruct (sizing_facts.evaluate_with_mode state history signal_info
              (trading_bot.predict_price history)) as (Hiff & _ & Hsip).
  apply Hsip. intros Hl. apply Hiff in Hl as [(_ & _ & Htrend & _) _].
  unfold sizing_facts.last_price in Htrend. rewrite Hp in Htrend.
  destruct history; lra.
Qed.

Lemma short_history_never_lumpsum_witness :
  Opportunity.mode
    (investment_agent.evaluate_with balanced_state [100; 140]
       (SignalInfo.mk "buy" 90 0.01) (trading_bot.predict_price [100; 140])) = "sip".
Proof.
  apply (short_history_never_lumpsum balanced_state [100; 140] (SignalInfo.mk "buy" 90 0.01)).
  cbn. lia.
Defined.

(** ** The ledger, continued *)

Module sale_facts.
Import market_generator market_facts investment_agent ledger_facts.

(** [Portfolio.sell] as a function of the price it reads. *)
Definition sold (self : Portfolio) (t : string) (amount p : R) : Result.t * Portfolio :=
  let units_owned := default 0 (positions self !! t) in
  if bool_decide (Rmax 0 amount <= 0) then
    (Result.mk (Some "noop") (Some t) (Some 0) (Some 0) None, self)
  else if bool_decide (units_owned <= 0) || bool_decide (p <= 0) then
    (Result.mk (Some "failed") (Some t) (Some 0) (Some 0) None, self)
  else
    let sell_cash := Rmin (Rmax 0 amount) (units_owned * p) in
    let units := sell_cash / p in
    let positions1 := <[t := Rmax 0 (units_owned - units)]> (positions self) in
    (Result.mk (Some "filled") (Some t) (Some sell_cash) (Some units) (Some p),
     mkPortfolio (cash self + sell_cash)
       (if bool_decide (default 0 (positions1 !! t) = 0)
        then delete t positions1 else positions1)).

Lemma Portfolio_sell_eq w index self t amount :
  py.getitem (_state w) "INDEX" = Some index ->
  Portfolio_sell self t amount w = Some (sold self t amount (price_at (_state w) index t), w).
Proof.
  intros Hidx. unfold Portfolio_sell, sold. cbv zeta.
  destruct (bool_decide (Rmax 0 amount <= 0)); [reflexivity|].
  unfold bind. rewrite (get_price_eq w index t Hidx).
  destruct (_ || _); reflexivity.
Qed.

Lemma sell_eq w index t amount :
  py.getitem (_state w) "INDEX" = Some index ->
  sell t amount w
  = Some (fst (sold (_global_portfolio w) t amount (price_at (_state w) index t)),
          set__global_portfolio
            (snd (sold (_global_portfolio w) t amount (price_at (_state w) index t))) w).
Proof.
  intros Hidx. unfold sell, bind, gets. by rewrite (Portfolio_sell_eq w index).
Qed.

(** A sale that goes through. *)
Lemma sold_filled self t amount p units_owned :
  positions self !! t = Some units_owned ->
  0 < units_owned -> 0 < p -> 0 < amount ->
  let cash_out := Rmin amount (units_owned * p) in
  let left := Rmax 0 (units_owned - cash_out / p) in
  sold self t amount p
  = (Result.mk (Some "filled") (Some t) (Some cash_out) (Some (cash_out / p)) (Some p),
     mkPortfolio (cash self + cash_out)
       (if bool_decide (left = 0) then delete t (positions self)
        else <[t := left]> (positions self))).
Proof.
  intros Hu Hpos Hp Ha cash_out left.
  unfold sold. cbv zeta. rewrite Hu. cbn [from_option]. unfold Datatypes.id.
  rewrite (Rmax_right 0 amount) by lra.
  rewrite bool_decide_eq_false_2 by lra.
  rewrite bool_decide_eq_false_2 by lra.
  rewrite bool_decide_eq_false_2 by lra. cbn [orb].
  fold cash_out. rewrite lookup_insert_eq. cbn [from_option]. unfold Datatypes.id.
  fold left.
  destruct (bool_decide (left = 0)); [by rewrite delete_insert_eq | done].
Qed.

(** A sale that is refused. *)
Lemma sold_refused self t amount p :
  amount <= 0 \/ default 0 (positions self !! t) <= 0 \/ p <= 0 ->
  snd (sold self t amount p) = self
  /\ Result.amount (fst (sold self t amount p)) = Some 0
  /\ Result.units (fst (sold self t amount p)) = Some 0
  /\ (amount <= 0 -> Result.status (fst (sold self t amount p)) = Some "noop")
  /\ (0 < amount -> Result.status (fst (sold self t amount p)) = Some "failed").
Proof.
  intros H. unfold sold. cbv zeta.
  destruct (bool_decide (Rmax 0 amount <= 0)) eqn:E.
  - apply bool_decide_eq_true in E.
    assert (amount <= 0) by (eapply Rle_trans; [apply Rmax_r | exact E]).
    cbn. repeat split; try done. intros. lra.
  - apply bool_decide_eq_false in E.
    assert (0 < amount) as Ha.
    { destruct (Rle_dec amount 0); [|lra]. exfalso. apply E. rewrite Rmax_left by done. lra. }
    destruct H as [H|H]; [lra|].
    assert (bool_decide (default 0 (positions self !! t) <= 0) || bool_decide (p <= 0) = true)
      as ->.
    { destruct H; [rewrite bool_decide_eq_true_2 by done; done|].
      rewrite (bool_decide_eq_true_2 (p <= 0)) by done. apply orb_true_r. }
    cbn. repeat split; try done. intros. lra.
Qed.

(** No position held is a negative number of units. *)
Definition nonneg_units (self : Portfolio) : Prop :=
  map_Forall (fun _ units => 0 <= units) (positions self).

Lemma nonneg_units_bought self t amount p :
  nonneg_units self -> nonneg_units (snd (bought self t amount p)).
Proof.
  intros Hok. unfold bought.
  destruct (bool_decide (Rmax 0 amount <= 0)) eqn:E; [done|].
  destruct (bool_decide (p <= 0)) eqn:Ep; [done|].
  apply bool_decide_eq_false in E, Ep. cbn [snd]. unfold nonneg_units. cbn [positions].
  apply map_Forall_insert_2; [|done].
  assert (0 < Rmax 0 amount / p) by (apply Rdiv_lt_0_compat; lra).
  destruct (positions self !! t) as [u|] eqn:Eu; cbn.
  - specialize (Hok t u Eu). cbv beta in Hok. lra.
  - lra.
Qed.

Lemma nonneg_units_sold self t amount p :
  nonneg_units self ->
  nonneg_units (snd (sold self t amount p))
  /\ cash self <= cash (snd (sold self t amount p)).
Proof.
  intros Hok. unfold sold. cbv zeta.
  destruct (bool_decide (Rmax 0 amount <= 0)) eqn:E; [split; [done | cbn; lra]|].
  destruct (_ || _) eqn:Ef; [split; [done | cbn; lra]|].
  apply bool_decide_eq_false in E.
  apply orb_false_iff in Ef as [Eu Ep]. apply bool_decide_eq_false in Eu, Ep.
  cbn [snd cash]. split.
  - unfold nonneg_units. cbn [positions].
    rewrite lookup_insert_eq. cbn [from_option]. unfold Datatypes.id.
    set (left := Rmax 0 _).
    destruct (bool_decide (left = 0)) eqn:El.
    + rewrite delete_insert_eq. by apply map_Forall_delete.
    + apply map_Forall_insert_2; [apply Rmax_l | done].
  - assert (0 <= Rmin (Rmax 0 amount) (default 0 (positions self !! t) * p)); [|lra].
    apply Rmin_glb; [apply Rmax_l|]. apply Rmult_le_pos; lra.
Qed.

End sale_facts.

(** X11.  What a buy does.  In a market that tracks INDEX, [Portfolio.buy]
    returns and leaves the world and the position cash as they are.  A
    non-positive amount is a "noop" and a non-positive price a "failed",
    both without effect; otherwise the order is "filled" for the amount at
    the price read, the position of the ticker grows by [amount / price]
    units, and no other position changes. *)
Theorem buy_credits_units (w : World) (index : Instrument) (self : Portfolio)
    (t : string) (amount : R) :
  py.getitem (_state w) "INDEX" = Some index ->
  let p := market_facts.price_at (_state w) index t in
  exists r self',
    investment_agent.Portfolio_buy self t amount w = Some ((r, self'), w)
    /\ cash self' = cash self
    /\ (forall t', t' <> t -> positions self' !! t' = positions self !! t')
    /\ (amount <= 0 -> Result.status r = Some "noop" /\ self' = self)
    /\ (0 < amount -> p <= 0 -> Result.status r = Some "failed" /\ self' = self)
    /\ (0 < amount -> 0 < p ->
        Result.status r = Some "filled"
        /\ Result.amount r = Some amount
        /\ Result.units r = Some (amount / p)
        /\ Result.price r = Some p
        /\ positions self' !! t = Some (default 0 (positions self !! t) + amount / p)).
Proof.
  intros Hidx p.
  exists (fst (ledger_facts.bought self t amount p)), (snd (ledger_facts.bought self t amount p)).
  split; [rewrite (ledger_facts.Portfolio_buy_eq w index Hidx); by destruct (ledger_facts.bought _ _ _ _)|].
  fold p. unfold ledger_facts.bought.
  destruct (bool_decide (Rmax 0 amount <= 0)) eqn:E.
  { apply bool_decide_eq_true in E.
    assert (amount <= 0) by (eapply Rle_trans; [apply Rmax_r | exact E]).
    cbn [fst snd Result.status]. split; [done|]. split; [done|]. split; [done|].
    split; intros; lra. }
  apply bool_decide_eq_false in E.
  assert (0 < amount) as Ha.
  { destruct (Rle_dec amount 0); [|lra]. exfalso. apply E. rewrite Rmax_left by done. lra. }
  rewrite (Rmax_right 0 amount) by lra.
  destruct (bool_decide (p <= 0)) eqn:Ep.
  { apply bool_decide_eq_true in Ep. cbn [fst snd Result.status].
    split; [done|]. split; [done|]. split; [intros; lra|]. split; [done|]. intros; lra. }
  apply bool_decide_eq_false in Ep.
  cbn [fst snd Result.status Result.amount Result.units Result.price cash positions].
  split; [done|]. split; [intros t' Hne; by rewrite lookup_insert_ne|].
  split; [intros; lra|]. split; [intros; lra|].
  intros _ _. split; [done|]. split; [done|]. split; [done|]. split; [done|].
  apply lookup_insert_eq.
Qed.

(** 100 at price 50 into an empty portfolio: 2 units. *)
Lemma buy_credits_units_witness :
  exists r self',
    investment_agent.Portfolio_buy (investment_agent.Portfolio__init__ 0) "INDEX" 100 world_at_50
    = Some ((r, self'), world_at_50)
    /\ Result.status r = Some "filled"
    /\ Result.units r = Some (100 / 50)
    /\ positions self' !! "INDEX" = Some (0 + 100 / 50).
Proof.
  destruct (buy_credits_units world_at_50 index_at_50 (investment_agent.Portfolio__init__ 0)
              "INDEX" 100 eq_refl)
    as (r & self' & Hbuy & _ & _ & _ & _ & Hfilled).
  assert (market_facts.price_at (_state world_at_50) index_at_50 "INDEX" = 50) as Hp
    by reflexivity.
  rewrite Hp in Hfilled.
  destruct Hfilled as (Hs & _ & Hu & _ & Hpos); [lra | lra |].
  exists r, self'. auto.
Defined.

(** X12.  What a sale pays.  In a market that tracks INDEX, a sale of a
    positive amount of a position of [units_owned > 0] units at a price
    [p > 0] is "filled" for [min(amount, units_owned * p)], never more than
    was asked nor more than [units_owned * p]; that much is added to the
    position cash.  The position is left with
    [max(0, units_owned - units sold)] units and is removed when that is 0,
    so a position that stays is positive; the other positions and the world
    are untouched. *)
Theorem sell_pays_the_clamped_amount (w : World) (index : Instrument) (self : Portfolio)
    (t : string) (amount units_owned : R) :
  py.getitem (_state w) "INDEX" = Some index ->
  let p := market_facts.price_at (_state w) index t in
  positions self !! t = Some units_owned ->
  0 < units_owned -> 0 < p -> 0 < amount ->
  let cash_out := Rmin amount (units_owned * p) in
  let left := Rmax 0 (units_owned - cash_out / p) in
  exists r self',
    investment_agent.Portfolio_sell self t amount w = Some ((r, self'), w)
    /\ Result.status r = Some "filled"
    /\ Result.amount r = Some cash_out
    /\ Result.units r = Some (cash_out / p)
    /\ 0 <= cash_out /\ cash_out <= amount /\ cash_out <= units_owned * p
    /\ cash self' = cash self + cash_out
    /\ positions self' !! t = (if bool_decide (left = 0) then None else Some left)
    /\ (forall u, positions self' !! t = Some u -> 0 < u)
    /\ (forall t', t' <> t -> positions self' !! t' = positions self !! t').
Proof.
  intros Hidx p Hu Hpos Hp Ha cash_out left.
  pose proof (sale_facts.sold_filled self t amount p units_owned Hu Hpos Hp Ha) as Hsold.
  cbv zeta in Hsold. fold cash_out in Hsold. fold left in Hsold.
  eexists _, _.
  split; [rewrite (sale_facts.Portfolio_sell_eq w index self t amount Hidx); fold p;
          rewrite Hsold; reflexivity|].
  cbn [Result.status Result.amount Result.units cash positions].
  split; [done|]. split; [done|]. split; [done|].
  assert (0 <= units_owned * p) by (apply Rmult_le_pos; lra).
  split; [unfold cash_out; apply Rmin_glb; lra|].
  split; [apply Rmin_l|]. split; [apply Rmin_r|]. split; [done|].
  assert (0 <= left) as Hleft by apply Rmax_l.
  destruct (bool_decide (left = 0)) eqn:El.
  - split; [apply lookup_delete_eq|].
    split; [intros u; by rewrite lookup_delete_eq|].
    intros t' Hne; by rewrite lookup_delete_ne.
  - apply bool_decide_eq_false in El.
    split; [apply lookup_insert_eq|].
    split; [intros u; rewrite lookup_insert_eq; intros [= <-]; lra|].
    intros t' Hne; by rewrite lookup_insert_ne.
Qed.

(** Four units of INDEX at 50; selling 50 leaves three units and 50 of cash. *)
Lemma sell_pays_the_clamped_amount_witness :
  exists r self',
    investment_agent.Portfolio_sell (mkPortfolio 0 {[ "INDEX" := 4 ]}) "INDEX" 50 world_at_50
    = Some ((r, self'), world_at_50)
    /\ Result.amount r = Some (Rmin 50 (4 * 50))
    /\ cash self' = 0 + Rmin 50 (4 * 50)
    /\ (forall u, positions self' !! "INDEX" = Some u -> 0 < u).
Proof.
  destruct (sell_pays_the_clamped_amount world_at_50 index_at_50
              (mkPortfolio 0 {[ "INDEX" := 4 ]}) "INDEX" 50 4 eq_refl)
    as (r & self' & Hsell & _ & Hamount & _ & _ & _ & _ & Hcash & _ & Hleft & _).
  - apply lookup_singleton_eq.
  - lra.
  - change (market_facts.price_at (_state world_at_50) index_at_50 "INDEX") with 50. lra.
  - lra.
  - exists r, self'. split; [exact Hsell|]. split; [exact Hamount|].
    split; [exact Hcash | exact Hleft].
Defined.

(** X13.  The sales that are refused.  In a market that tracks INDEX, a sale
    of a non-positive amount is a "noop", and a sale of a ticker of which no
    positive number of units is held, or whose price is not positive, is
    "failed"; in both cases the portfolio and the world are unchanged and
    the amount and the units reported are 0. *)
Theorem sell_refusals (w : World) (index : Instrument) (self : Portfolio)
    (t : string) (amount : R) :
  py.getitem (_state w) "INDEX" = Some index ->
  amount <= 0 \/ default 0 (positions self !! t) <= 0
  \/ market_facts.price_at (_state w) index t <= 0 ->
  exists r,
    investment_agent.Portfolio_sell self t amount w = Some ((r, self), w)
    /\ Result.amount r = Some 0
    /\ Result.units r = Some 0
    /\ (amount <= 0 -> Result.status r = Some "noop")
    /\ (0 < amount -> Result.status r = Some "failed").
Proof.
  intros Hidx H.
  destruct (sale_facts.sold_refused self t amount _ H) as (Hself & Ha & Hu & Hn & Hf).
  exists (fst (sale_facts.sold self t amount (market_facts.price_at (_state w) index t))).
  split; [|by repeat split].
  rewrite (sale_facts.Portfolio_sell_eq w index self t amount Hidx).
  destruct (sale_facts.sold self t amount _) as [r self']. cbn [fst snd] in *.
  by rewrite Hself.
Qed.

(** Selling a stock that is not held. *)
Lemma sell_refusals_witness :
  exists r,
    investment_agent.Portfolio_sell (investment_agent.Portfolio__init__ 0) "STOCK_A" 100
      world_at_50
    = Some ((r, investment_agent.Portfolio__init__ 0), world_at_50)
    /\ Result.status r = Some "failed".
Proof.
  destruct (sell_refusals world_at_50 index_at_50 (investment_agent.Portfolio__init__ 0)
              "STOCK_A" 100 eq_refl) as (r & Hsell & _ & _ & _ & Hf).
  - right. left. unfold investment_agent.Portfolio__init__. cbn [positions].
    rewrite lookup_empty. cbn [from_option]. lra.
  - exists r. split; [exact Hsell | apply Hf; lra].
Defined.

(** X14.  The ledger of the module.  In a market that tracks INDEX, the
    module-level [buy] and [sell] return for every ticker and amount; they
    change [_global_portfolio] only; if no position held was a negative
    number of units, none is afterwards; [buy] leaves the position cash as
    it is and [sell] never lowers it. *)
Theorem ledger_stays_non_negative (w : World) (index : Instrument) (t : string) (amount : R) :
  py.getitem (_state w) "INDEX" = Some index ->
  sale_facts.nonneg_units (_global_portfolio w) ->
  exists r1 w1 r2 w2,
    investment_agent.buy t amount w = Some (r1, w1)
    /\ investment_agent.sell t amount w = Some (r2, w2)
    /\ sale_facts.nonneg_units (_global_portfolio w1)
    /\ sale_facts.nonneg_units (_global_portfolio w2)
    /\ cash (_global_portfolio w1) = cash (_global_portfolio w)
    /\ cash (_global_portfolio w) <= cash (_global_portfolio w2)
    /\ w1 = set__global_portfolio (_global_portfolio w1) w
    /\ w2 = set__global_portfolio (_global_portfolio w2) w.
Proof.
  intros Hidx Hok.
  do 4 eexists.
  split; [by apply ledger_facts.buy_eq|].
  split; [by apply sale_facts.sell_eq|].
  cbn [_global_portfolio set__global_portfolio].
  split; [by apply sale_facts.nonneg_units_bought|].
  split; [by apply sale_facts.nonneg_units_sold|].
  split.
  { unfold ledger_facts.bought. by repeat destruct (bool_decide _). }
  split; [by apply sale_facts.nonneg_units_sold|].
  by split.
Qed.

Lemma ledger_stays_non_negative_witness :
  exists r1 w1 r2 w2,
    investment_agent.buy "INDEX" 100 world_at_50 = Some (r1, w1)
    /\ investment_agent.sell "INDEX" 100 world_at_50 = Some (r2, w2)
    /\ sale_facts.nonneg_units (_global_portfolio w1)
    /\ sale_facts.nonneg_units (_global_portfolio w2).
Proof.
  destruct (ledger_stays_non_negative world_at_50 index_at_50 "INDEX" 100 eq_refl)
    as (r1 & w1 & r2 & w2 & H1 & H2 & H3 & H4 & _).
  - apply map_Forall_empty.
  - exists r1, w1, r2, w2. auto.
Defined.

(** ** The sizing policy, continued *)

Module amount_facts.
Import investment_agent sizing_facts.

(** The cash the sizing policy reads from a snapshot. *)
Definition cash_of (state : State.t) : R :=
  default (default 0 (State.balance state)) (State.bank_balance state).

(** The emergency buffer it reads: the key, or three times the expense. *)
Definition buffer_of (state : State.t) : R :=
  let expense := default (default 0 (State.expense_rate state)) (State.monthly_expense state) in
  default (if bool_decide (expense > 0) then expense * 3 else 0) (State.emergency_buffer state).

(** [available]: the cash above the emergency buffer. *)
Definition available (state : State.t) : R := Rmax 0 (cash_of state - buffer_of state).

Lemma risk_config_get_cases profile :
  (profile = "conservative" /\ risk_config_get profile = RiskConfig.mk 0.02 0.03 0.0 0.7)
  \/ (profile = "aggressive" /\ risk_config_get profile = RiskConfig.mk 0.05 0.12 2.0 1.5)
  \/ (profile <> "conservative" /\ profile <> "aggressive"
      /\ risk_config_get profile = RiskConfig.mk 0.03 0.06 1.0 1.0).
Proof.
  unfold risk_config_get, risk_config. cbn [py.getitem].
  destruct (String.eqb profile "conservative") eqn:E1.
  { apply String.eqb_eq in E1. by left. }
  destruct (String.eqb profile "balanced") eqn:E2.
  { apply String.eqb_eq in E2. subst. right. right. by repeat split. }
  destruct (String.eqb profile "aggressive") eqn:E3.
  { apply String.eqb_eq in E3. right. by left. }
  apply String.eqb_neq in E1, E3. right. right. by repeat split.
Qed.

Lemma sip_factor_range profile :
  0.7 <= RiskConfig.sip_factor (risk_config_get profile) <= 1.5.
Proof.
  destruct (risk_config_get_cases profile) as [[_ ->]|[[_ ->]|(_ & _ & ->)]]; cbn; lra.
Qed.

Lemma _compute_sip_bounds state history profile :
  0 <= _compute_sip state history profile
  /\ _compute_sip state history profile
     <= RiskConfig.sip_factor (risk_config_get profile) * available state.
Proof.
  pose proof (sip_factor_range profile) as Hf.
  split; [apply Rmax_l|].
  unfold _compute_sip. cbv zeta. fold (cash_of state).
  change (default (if bool_decide (default (default 0 (State.expense_rate state))
                                     (State.monthly_expense state) > 0)
                   then default (default 0 (State.expense_rate state))
                          (State.monthly_expense state) * 3
                   else 0) (State.emergency_buffer state)) with (buffer_of state).
  fold (available state).
  set (f := RiskConfig.sip_factor (risk_config_get profile)) in *.
  set (base := Rmax (0.03 * _) (0.02 * _)).
  assert (0 <= available state) as Hav by apply Rmax_l.
  assert (Rmin base (available state) <= available state) as Hm by apply Rmin_r.
  set (m := Rmin base (available state)) in *.
  apply Rmax_lub; [nra|].
  destruct (bool_decide _); [|nra].
  destruct (Rle_dec 0 m); nra.
Qed.

Lemma evaluate_with_coherent (state : State.t) (history : list R)
    (signal_info : SignalInfo.t) (pred_price : R) :
  let opp := evaluate_with state history signal_info pred_price in
  let cfg := risk_config_get (profile_of state) in
  (Opportunity.should_invest opp = true <-> Opportunity.amount opp > 0)
  /\ 0 <= Opportunity.amount opp
  /\ (Opportunity.should_invest opp = false ->
      Opportunity.amount opp = 0 /\ Opportunity.mode opp = "sip")
  /\ (Opportunity.mode opp = "sip" \/ Opportunity.mode opp = "lumpsum")
  /\ Opportunity.ticker opp = "INDEX"
  /\ Opportunity.signal opp = SignalInfo.signal signal_info
  /\ Opportunity.confidence opp = SignalInfo.confidence signal_info
  /\ Opportunity.sip_suggested_amount opp
     = _compute_sip state history (profile_of state)
  /\ (SignalInfo.volatility signal_info > RiskConfig.max_vol cfg ->
      Opportunity.should_invest opp = false).
Proof.
  intros opp cfg. unfold opp, evaluate_with. cbv zeta.
  fold (profile_of state). fold cfg.
  set (sip := _compute_sip state history (profile_of state)).
  set (vol := SignalInfo.volatility signal_info).
  set (lump := _ && _ && _ && _ && _).
  assert (lump = true -> vol < RiskConfig.max_vol cfg) as Hlump.
  { unfold lump. rewrite !andb_true_iff, !bool_decide_eq_true. tauto. }
  destruct lump; cbn [Opportunity.should_invest Opportunity.amount Opportunity.mode
    Opportunity.ticker Opportunity.signal Opportunity.confidence
    Opportunity.sip_suggested_amount].
  - specialize (Hlump eq_refl).
    destruct (bool_decide (sip * RiskConfig.lumpsum_factor cfg > 0)) eqn:E.
    + apply bool_decide_eq_true in E. rewrite Rmax_left by lra.
      split; [by split|]. split; [lra|]. split; [done|]. split; [by right|].
      repeat split. intros. lra.
    + split; [split; [done | lra]|]. split; [lra|]. split; [done|]. split; [by left|].
      by repeat split.
  - clear Hlump.
    destruct (bool_decide (sip > 0)) eqn:E; cbn [andb].
    + apply bool_decide_eq_true in E.
      destruct (bool_decide (vol <= RiskConfig.max_vol cfg)) eqn:Ev.
      * rewrite Rmax_left by lra.
        split; [by split|]. split; [lra|]. split; [done|]. split; [by left|].
        repeat split. apply bool_decide_eq_true in Ev. intros. lra.
      * split; [split; [done | lra]|]. split; [lra|]. split; [done|]. split; [by left|].
        by repeat split.
    + split; [split; [done | lra]|]. split; [lra|]. split; [done|]. split; [by left|].
      by repeat split.
Qed.

End amount_facts.

(** X15.  The bounds of the recurring contribution.  For every snapshot,
    history and profile name, [_compute_sip] is not negative and is at most
    the profile's [sip_factor], which lies between 0.7 and 1.5, times the
    cash above the emergency buffer; it is 0 when the cash does not exceed
    the buffer.  A profile name that is not configured is sized as
    "balanced". *)
Theorem compute_sip_bounds (state : State.t) (history : list R) (profile : string) :
  let sip := investment_agent._compute_sip state history profile in
  let f := RiskConfig.sip_factor (investment_agent.risk_config_get profile) in
  0 <= sip
  /\ 0.7 <= f <= 1.5
  /\ sip <= f * amount_facts.available state
  /\ sip <= 1.5 * amount_facts.available state
  /\ (amount_facts.cash_of state <= amount_facts.buffer_of state -> sip = 0)
  /\ (profile <> "conservative" -> profile <> "aggressive" ->
      sip = investment_agent._compute_sip state history "balanced").
Proof.
  intros sip f.
  destruct (amount_facts._compute_sip_bounds state history profile) as (H0 & Hf).
  pose proof (amount_facts.sip_factor_range profile) as Hrange.
  fold sip f in H0, Hf, Hrange.
  assert (0 <= amount_facts.available state) as Hav by apply Rmax_l.
  split; [exact H0|]. split; [exact Hrange|]. split; [exact Hf|]. split; [nra|]. split.
  - intros Hle.
    assert (amount_facts.available state = 0) as Hz.
    { unfold amount_facts.available. apply Rmax_left. lra. }
    rewrite Hz in Hf. lra.
  - intros Hc Ha. unfold sip, investment_agent._compute_sip.
    destruct (amount_facts.risk_config_get_cases profile) as [[? _]|[[? _]|(_ & _ & ->)]];
      done.
Qed.

(** X16.  The opportunity is coherent.  For every snapshot, history, signal
    and forecast, the dictionary [evaluate_investment_opportunity] builds
    has [should_invest] true exactly when its amount is positive; the
    amount is never negative; without [should_invest] the amount is 0 and
    the mode "sip"; the mode is "sip" or "lumpsum"; the ticker is "INDEX";
    the suggested contribution is [_compute_sip] for the snapshot's profile;
    and a signal volatility above the profile's [max_vol] rules out any
    investment. *)
Theorem opportunity_is_coherent (state : State.t) (history : list R)
    (signal_info : SignalInfo.t) (pred_price : R) :
  let opp := investment_agent.evaluate_with state history signal_info pred_price in
  let cfg := investment_agent.risk_config_get (sizing_facts.profile_of state) in
  (Opportunity.should_invest opp = true <-> Opportunity.amount opp > 0)
  /\ 0 <= Opportunity.amount opp
  /\ (Opportunity.should_invest opp = false ->
      Opportunity.amount opp = 0 /\ Opportunity.mode opp = "sip")
  /\ (Opportunity.mode opp = "sip" \/ Opportunity.mode opp = "lumpsum")
  /\ Opportunity.ticker opp = "INDEX"
  /\ Opportunity.signal opp = SignalInfo.signal signal_info
  /\ Opportunity.confidence opp = SignalInfo.confidence signal_info
  /\ Opportunity.sip_suggested_amount opp
     = investment_agent._compute_sip state history (sizing_facts.profile_of state)
  /\ (SignalInfo.volatility signal_info > RiskConfig.max_vol cfg ->
      Opportunity.should_invest opp = false).
Proof. apply amount_facts.evaluate_with_coherent. Qed.

(** X17.  The buffer is safe outside the aggressive profile.  For every
    snapshot whose profile is not "aggressive", the amount
    [evaluate_investment_opportunity] asks to invest, recurring or lump
    sum, is at most the cash above the emergency buffer. *)
Theorem amount_respects_buffer (state : State.t) (history : list R)
    (signal_info : SignalInfo.t) (pred_price : R) :
  sizing_facts.profile_of state <> "aggressive" ->
  Opportunity.amount (investment_agent.evaluate_with state history signal_info pred_price)
  <= amount_facts.available state.
Proof.
  intros Hp.
  destruct (amount_facts._compute_sip_bounds state history (sizing_facts.profile_of state))
    as (H0 & Hf).
  assert (0 <= amount_facts.available state) as Hav by apply Rmax_l.
  unfold investment_agent.evaluate_with. cbv zeta.
  fold (sizing_facts.profile_of state).
  set (sip := investment_agent._compute_sip state history (sizing_facts.profile_of state)) in *.
  set (cfg := investment_agent.risk_config_get (sizing_facts.profile_of state)) in *.
  assert (RiskConfig.sip_factor cfg <= 1
          /\ (RiskConfig.lumpsum_factor cfg = 0 \/ RiskConfig.lumpsum_factor cfg = 1)) as [Hf1 Hl].
  { unfold cfg.
    destruct (amount_facts.risk_config_get_cases (sizing_facts.profile_of state))
      as [[_ ->]|[[? _]|(_ & _ & ->)]]; [|done|]; cbn; split; try lra; auto. }
  assert (sip <= amount_facts.available state) as Hsip by nra.
  set (lump := _ && _ && _ && _ && _).
  destruct lump; cbn [Opportunity.amount].
  - destruct (bool_decide _); [|lra].
    apply Rmax_lub; [|lra]. destruct Hl as [-> | ->]; lra.
  - destruct (_ && _); [|lra]. apply Rmax_lub; lra.
Qed.

(** The balanced account with cash 10000 and no expenses is asked for at
    most 10000. *)
Lemma amount_respects_buffer_witness :
  Opportunity.amount
    (investment_agent.evaluate_with balanced_state [100] (SignalInfo.mk "buy" 80 0.01) 101)
  <= amount_facts.available balanced_state.
Proof.
  apply (amount_respects_buffer balanced_state [100] (SignalInfo.mk "buy" 80 0.01) 101).
  discriminate.
Defined.

(** ** Planning and executing *)

Module planning_facts.
Import investment_agent sizing_facts utils.

(** The keys of the plan that do not depend on the decision. *)
Lemma plan_from_fixed (inv : Opportunity.t) (state : State.t) :
  let p := planner.plan_from inv state in
  Plan.timestamp p = None
  /\ Plan.suggested_sip p = Some (Opportunity.sip_suggested_amount inv)
  /\ Plan.signal p = Some (Opportunity.signal inv)
  /\ Plan.signal_confidence p = Some (Opportunity.confidence inv).
Proof.
  unfold planner.plan_from. cbv zeta.
  destruct (Opportunity.should_invest inv); [done|].
  destruct (negb _); [done|]. by destruct (bool_decide _).
Qed.

(** The four decisions of [plan]. *)
Lemma plan_from_cases (inv : Opportunity.t) (state : State.t) :
  let p := planner.plan_from inv state in
  let ok := default true (State.emergency_buffer_ok state) in
  let expense := default 0 (State.expense_rate state) in
  let income := default 0 (State.income_rate state) in
  (Opportunity.should_invest inv = true
   /\ Plan.action p = Some "invest"
   /\ Plan.invest_amount p = Some (Opportunity.amount inv)
   /\ Plan.invest_mode p = Some (Opportunity.mode inv)
   /\ Plan.ticker p = Some (Opportunity.ticker inv))
  \/ (Opportunity.should_invest inv = false
      /\ Plan.invest_amount p = Some 0
      /\ Plan.invest_mode p = Some "sip"
      /\ Plan.ticker p = Some "INDEX"
      /\ (ok = false /\ Plan.action p = Some "save"
          \/ ok = true /\ expense > income /\ Plan.action p = Some "repay"
          \/ ok = true /\ expense <= income /\ Plan.action p = Some "hold")).
Proof.
  unfold planner.plan_from. cbv zeta.
  destruct (Opportunity.should_invest inv); [left; by repeat split|].
  right. split; [done|].
  destruct (default true (State.emergency_buffer_ok state)); cbn [negb].
  - destruct (bool_decide _) eqn:E.
    + apply bool_decide_eq_true in E. repeat split. right. left. by repeat split.
    + apply bool_decide_eq_false in E. repeat split. right. right. repeat split. lra.
  - repeat split. left. by split.
Qed.

End planning_facts.

(** X18.  The decision of the planner.  In a market that tracks INDEX,
    [plan] returns and changes nothing.  Its action is "invest" exactly
    when its amount is positive; otherwise the amount is 0 and the mode
    "sip", and the action is "save" when the snapshot says the emergency
    buffer is broken, else "repay" when its expense rate exceeds its income
    rate, else "hold".  The plan carries no timestamp yet.
    The ticker is always "INDEX", and the suggested contribution is
    [_compute_sip] for the snapshot's profile. *)
Theorem plan_decides (w : World) (index : Instrument) (state : State.t) :
  py.getitem (_state w) "INDEX" = Some index ->
  let ok := default true (State.emergency_buffer_ok state) in
  let expense := default 0 (State.expense_rate state) in
  let income := default 0 (State.income_rate state) in
  exists p action amount mode,
    planner.plan state w = Some (p, w)
    /\ Plan.action p = Some action
    /\ Plan.invest_amount p = Some amount
    /\ Plan.invest_mode p = Some mode
    /\ Plan.ticker p = Some "INDEX"
    /\ Plan.timestamp p = None
    /\ Plan.suggested_sip p
       = Some (investment_agent._compute_sip state (history index)
                 (sizing_facts.profile_of state))
    /\ (action = "invest" <-> amount > 0)
    /\ (action <> "invest" -> amount = 0 /\ mode = "sip")
    /\ (action = "invest" \/ action = "save" /\ ok = false
        \/ action = "repay" /\ ok = true /\ expense > income
        \/ action = "hold" /\ ok = true /\ expense <= income).
Proof.
  intros Hidx ok expense income.
  set (inv := investment_agent.evaluate_with state (history index)
                (trading_bot.analyze_market (history index))
                (trading_bot.predict_price (history index))).
  assert (planner.plan state w = Some (planner.plan_from inv state, w)) as Hrun.
  { unfold planner.plan, bind.
    by rewrite (sizing_facts.evaluate_investment_opportunity_eq w index state Hidx). }
  destruct (amount_facts.evaluate_with_coherent state (history index)
              (trading_bot.analyze_market (history index))
              (trading_bot.predict_price (history index)))
    as (Hiff & _ & _ & _ & Htick & _ & _ & Hsip & _).
  cbv zeta in Hiff, Htick, Hsip. fold inv in Hiff, Htick, Hsip.
  destruct (planning_facts.plan_from_fixed inv state) as (Hts & Hsug & _).
  cbv zeta in Hts, Hsug.
  destruct (planning_facts.plan_from_cases inv state)
    as [(Hinv & Ha & Hamt & Hm & Ht)|(Hinv & Hamt & Hm & Ht & Hact)].
  - exists (planner.plan_from inv state), "invest", (Opportunity.amount inv),
      (Opportunity.mode inv).
    split; [exact Hrun|]. split; [exact Ha|]. split; [exact Hamt|]. split; [exact Hm|].
    split; [by rewrite Ht, Htick|]. split; [exact Hts|].
    split; [by rewrite Hsug, Hsip|].
    split; [split; [intros _; by apply Hiff | done]|].
    split; [done | by left].
  - assert (exists action, Plan.action (planner.plan_from inv state) = Some action
              /\ action <> "invest"
              /\ (action = "save" /\ ok = false
                  \/ action = "repay" /\ ok = true /\ expense > income
                  \/ action = "hold" /\ ok = true /\ expense <= income)) as (action & Ha & Hne & Hc).
    { destruct Hact as [[? ?]|[(? & ? & ?)|(? & ? & ?)]];
        [exists "save" | exists "repay" | exists "hold"];
        (split; [done|]); (split; [done|]); auto 10. }
    exists (planner.plan_from inv state), action, 0, "sip".
    split; [exact Hrun|]. split; [exact Ha|]. split; [exact Hamt|]. split; [exact Hm|].
    split; [exact Ht|]. split; [exact Hts|].
    split; [by rewrite Hsug, Hsip|].
    split; [split; [done | lra]|].
    split; [done | by right].
Qed.

(** In [world_at_50] a snapshot is answered with a plan for "INDEX". *)
Lemma plan_decides_witness :
  exists p,
    planner.plan State.empty world_at_50 = Some (p, world_at_50)
    /\ Plan.ticker p = Some "INDEX"
    /\ Plan.timestamp p = None.
Proof.
  destruct (plan_decides world_at_50 index_at_50 State.empty eq_refl)
    as (p & action & amount & mode & Hrun & _ & _ & _ & Ht & Hts & _).
  exists p. auto.
Defined.

(** X19.  Nothing is ever repaid.  When the opportunity says not to invest,
    executing the plan built from it leaves the bank balance, the market,
    the ledger and the generator as they are.  A "repay" plan carries the
    amount 0: it is answered "repaid" with amount 0, books a "repay"
    transaction of 0 and appends the unchanged balance to the balance
    history.  A "save" or "hold" plan changes nothing at all. *)
Theorem nothing_is_repaid (inv : Opportunity.t) (state : State.t) (ts : string) (w : World) :
  Opportunity.should_invest inv = false ->
  let p := cycle.plan_set_timestamp (planner.plan_from inv state) ts in
  let bank := bank_balance (SIM_STATE w) in
  exists r w',
    executor.execute p state w = Some (r, w')
    /\ bank_balance (SIM_STATE w') = bank
    /\ _state w' = _state w
    /\ _global_portfolio w' = _global_portfolio w
    /\ random w' = random w
    /\ (Plan.action p = Some "repay" ->
        r = Result.mk (Some "repaid") None (Some 0) None None
        /\ balance_history (SIM_STATE w') = balance_history (SIM_STATE w) ++ [bank]
        /\ db w' = db w ++ [InsertTransaction ts "repay" "expense" 0 "debt repayment" bank])
    /\ (Plan.action p <> Some "repay" ->
        w' = w
        /\ (r = Result.mk (Some "saved") None None None None
            \/ r = Result.mk (Some "hold") None None None None)).
Proof.
  intros Hno p bank. unfold p, planner.plan_from. cbv zeta. rewrite Hno.
  assert (Rmax 0 0 = 0) as Hz by (apply Rmax_left; lra).
  destruct w as [m [bk binc bexp incs exps bals sips lumps navs invd sug] pf dbt rnd].
  cbn [SIM_STATE bank_balance] in bank.
  unfold executor.execute. cbv zeta.
  destruct (negb (default true (State.emergency_buffer_ok state)));
    [|destruct (bool_decide _)];
    cbn [cycle.plan_set_timestamp Plan.action Plan.timestamp Plan.invest_amount
         Plan.invest_mode Plan.ticker from_option]; unfold Datatypes.id.
  - change (String.eqb "save" "invest") with false.
    change (String.eqb "save" "repay") with false.
    change (String.eqb "save" "save") with true. cbn [andb].
    do 2 eexists. split; [reflexivity|]. repeat split; try done. by left.
  - change (String.eqb "repay" "invest") with false.
    change (String.eqb "repay" "repay") with true. cbn [andb].
    do 2 eexists. split; [reflexivity|].
    cbn [SIM_STATE bank_balance balance_history _state _global_portfolio random db
         utils.set_bank_balance utils.set_balance_history set_SIM_STATE set_db].
    rewrite !Hz. replace (bk - 0) with bk by lra. subst bank.
    repeat split; done.
  - change (String.eqb "hold" "invest") with false.
    change (String.eqb "hold" "repay") with false.
    change (String.eqb "hold" "save") with false. cbn [andb].
    do 2 eexists. split; [reflexivity|]. repeat split; try done. by right.
Qed.

(** A snapshot whose expense rate, 10, exceeds its income rate, 5. *)
Definition overspending : State.t :=
  State.mk None (Some 5) (Some 10) None None None None None None None None None
           None None None None None None.

(** With [overspending] and an opportunity not to invest the plan is to
    "repay"; executed in [world_at_50], it leaves the balance at 10000. *)
Lemma nothing_is_repaid_witness :
  exists r w',
    executor.execute
      (cycle.plan_set_timestamp
         (planner.plan_from (Opportunity.mk false 0 "sip" "hold" 10 "INDEX" 0) overspending)
         "2025-01-01T00:00:00")
      overspending world_at_50 = Some (r, w')
    /\ bank_balance (SIM_STATE w') = 10000.
Proof.
  destruct (nothing_is_repaid (Opportunity.mk false 0 "sip" "hold" 10 "INDEX" 0)
              overspending "2025-01-01T00:00:00" world_at_50 eq_refl)
    as (r & w' & Hrun & Hbank & _).
  exists r, w'. split; [exact Hrun | exact Hbank].
Defined.

(** ** The reward, continued *)


(** ** The account, continued *)

Module account_facts.
Import market_generator market_facts investment_agent ledger_facts sizing_facts utils
       pipeline_facts.

(** [get_state], in closed form. *)
Lemma get_state_eq w index :
  booted w index ->
  let core := core_of w index in
  let sug := sip_of index core in
  get_state w
  = Some (with_suggestion core sug
            (py.sum (income_history (SIM_STATE w))) (py.sum (expense_history (SIM_STATE w))),
          with_sim (set_last_sip_suggested sug) w).
Proof.
  intros Hb core sug. unfold get_state, bind.
  rewrite (_construct_core_state_eq w index Hb).
  rewrite (_recompute_sip_suggestion_eq w index Hb). fold core sug.
  by destruct w as [m [] pf dbt rnd].
Qed.

Lemma core_of_suggestion w index x :
  core_of (with_sim (set_last_sip_suggested x) w) index = core_of w index.
Proof. by destruct w as [m [] pf dbt rnd]. Qed.

Lemma with_sim_suggestion_twice w x :
  with_sim (set_last_sip_suggested x) (with_sim (set_last_sip_suggested x) w)
  = with_sim (set_last_sip_suggested x) w.
Proof. by destruct w as [m [] pf dbt rnd]. Qed.

(** The part of the world that the cash flows and the NAV live in. *)
Definition same_flows (w w' : World) : Prop :=
  _state w' = _state w
  /\ nav_history (SIM_STATE w') = nav_history (SIM_STATE w)
  /\ income_history (SIM_STATE w') = income_history (SIM_STATE w)
  /\ expense_history (SIM_STATE w') = expense_history (SIM_STATE w).

Lemma same_flows_refl w : same_flows w w.
Proof. by repeat split. Qed.

Lemma same_flows_trans w1 w2 w3 : same_flows w1 w2 -> same_flows w2 w3 -> same_flows w1 w3.
Proof. intros (?&?&?&?) (?&?&?&?). repeat split; congruence. Qed.

Lemma apply_investment_flows w index ts mode ticker amount :
  booted w index ->
  runs (apply_investment ts mode ticker amount) w (fun _ w' => same_flows w w').
Proof.
  intros Hb. open_world w. unfold apply_investment. cbv zeta.
  destruct (bool_decide (Rmax 0 amount <= 0)).
  - repeat run_step index. by repeat split.
  - run_step index. run_step index. run_step index. run_step index. run_step index.
    destruct (String.eqb mode "lumpsum"); repeat run_step index; by repeat split.
Qed.

Lemma execute_flows w index plan state :
  booted w index ->
  runs (executor.execute plan state) w (fun _ w' => same_flows w w').
Proof.
  intros Hb. unfold executor.execute. cbv zeta.
  destruct (_ && _); [by apply (apply_investment_flows w index)|].
  open_world w. destruct (String.eqb _ "repay").
  - repeat run_step index. by repeat split.
  - destruct (String.eqb _ "save"); apply runs_ret; by repeat split.
Qed.

End account_facts.

(** X21.  Income and expense are booked.  In a bootstrapped world,
    [simulate_income_and_expense] returns the income and the expense it
    drew, each clamped at 0, from the next two draws; the bank balance
    changes by income minus expense; the income, the expense and the new
    balance are appended to their histories; an "income" and an "expense"
    transaction and the balance, under the date of the timestamp, are sent
    to the database, in this order, the income carrying the balance before
    the expense; the market, the ledger, the investment histories and the
    base means are unchanged. *)
Theorem income_and_expense_are_booked (w : World) (index : Instrument) (ts : string) :
  pipeline_facts.booted w index ->
  let s := SIM_STATE w in
  let income :=
    Rmax 0 (base_income s
            + normal_samples (random w) (consumed (random w)) * (0.3 * base_income s)) in
  let expense :=
    Rmax 0 (base_expense s
            + normal_samples (random w) (S (consumed (random w))) * (0.2 * base_expense s)) in
  let bank' := bank_balance s + income - expense in
  exists w',
    utils.simulate_income_and_expense ts w = Some ((income, expense), w')
    /\ 0 <= income /\ 0 <= expense
    /\ bank_balance (SIM_STATE w') = bank'
    /\ income_history (SIM_STATE w') = income_history s ++ [income]
    /\ expense_history (SIM_STATE w') = expense_history s ++ [expense]
    /\ balance_history (SIM_STATE w') = balance_history s ++ [bank']
    /\ db w' = db w ++ [ InsertTransaction ts "income" "income" income "unstable income"
                           (bank_balance s + income);
                         InsertTransaction ts "expense" "expense" expense "variable expense"
                           bank';
                         ReplaceBalance (utils.balance_date ts) bank' ]
    /\ random w' = mkRandom (normal_samples (random w)) (S (S (consumed (random w))))
    /\ _state w' = _state w
    /\ _global_portfolio w' = _global_portfolio w
    /\ sip_history (SIM_STATE w') = sip_history s
    /\ lumpsum_history (SIM_STATE w') = lumpsum_history s
    /\ nav_history (SIM_STATE w') = nav_history s
    /\ invested_amount (SIM_STATE w') = invested_amount s
    /\ base_income (SIM_STATE w') = base_income s
    /\ base_expense (SIM_STATE w') = base_expense s.
Proof.
  intros Hb s income expense bank'.
  assert (0 <= income /\ 0 <= expense) as [Hi He] by (split; apply Rmax_l).
  enough (runs (utils.simulate_income_and_expense ts) w (fun r w' =>
            r = (income, expense)
            /\ bank_balance (SIM_STATE w') = bank'
            /\ income_history (SIM_STATE w') = income_history s ++ [income]
            /\ expense_history (SIM_STATE w') = expense_history s ++ [expense]
            /\ balance_history (SIM_STATE w') = balance_history s ++ [bank']
            /\ db w' = ((db w ++ [ InsertTransaction ts "income" "income" income
                                     "unstable income" (bank_balance s + income) ])
                        ++ [ InsertTransaction ts "expense" "expense" expense
                               "variable expense" bank' ])
                       ++ [ ReplaceBalance (utils.balance_date ts) bank' ]
            /\ random w' = mkRandom (normal_samples (random w)) (S (S (consumed (random w))))
            /\ _state w' = _state w
            /\ _global_portfolio w' = _global_portfolio w
            /\ sip_history (SIM_STATE w') = sip_history s
            /\ lumpsum_history (SIM_STATE w') = lumpsum_history s
            /\ nav_history (SIM_STATE w') = nav_history s
            /\ invested_amount (SIM_STATE w') = invested_amount s
            /\ base_income (SIM_STATE w') = base_income s
            /\ base_expense (SIM_STATE w') = base_expense s))
    as (r & w' & Hrun & -> & H1 & H2 & H3 & H4 & H5 & H6).
  { exists w'. split; [exact Hrun|]. split; [exact Hi|]. split; [exact He|].
    split; [exact H1|]. split; [exact H2|]. split; [exact H3|]. split; [exact H4|].
    split; [|exact H6]. rewrite H5, <- !app_assoc. reflexivity. }
  subst s income expense bank'. clear Hi He.
  pipeline_facts.open_world w. unfold utils.simulate_income_and_expense.
  repeat pipeline_facts.run_step index. repeat split.
Qed.

(** All draws 0 in [world_at_50]: income 5000, expense 3000. *)
Lemma income_and_expense_are_booked_witness :
  exists w',
    utils.simulate_income_and_expense "2025-01-01T00:00:00" world_at_50
    = Some ((Rmax 0 (5000 + 0 * (0.3 * 5000)), Rmax 0 (3000 + 0 * (0.2 * 3000))), w')
    /\ bank_balance (SIM_STATE w')
       = 10000 + Rmax 0 (5000 + 0 * (0.3 * 5000)) - Rmax 0 (3000 + 0 * (0.2 * 3000)).
Proof.
  destruct (income_and_expense_are_booked world_at_50 index_at_50 "2025-01-01T00:00:00")
    as (w' & Hrun & _ & _ & Hbank & _).
  - split; [reflexivity | apply falling_to_nonempty].
  - exists w'. split; [exact Hrun | exact Hbank].
Defined.

(** X22.  A request for nothing.  [apply_investment] with an amount of 0 or
    less returns "noop" with amount 0 and appends 0 to the SIP history and
    to the lump-sum history; the bank balance, the other histories, the
    invested amount, the suggestion, the database, the market, the ledger
    and the generator are unchanged. *)
Theorem apply_investment_noop (w : World) (ts mode ticker : string) (amount : R) :
  amount <= 0 ->
  exists w',
    utils.apply_investment ts mode ticker amount w
    = Some (Result.mk (Some "noop") None (Some 0) None None, w')
    /\ sip_history (SIM_STATE w') = sip_history (SIM_STATE w) ++ [0]
    /\ lumpsum_history (SIM_STATE w') = lumpsum_history (SIM_STATE w) ++ [0]
    /\ bank_balance (SIM_STATE w') = bank_balance (SIM_STATE w)
    /\ balance_history (SIM_STATE w') = balance_history (SIM_STATE w)
    /\ income_history (SIM_STATE w') = income_history (SIM_STATE w)
    /\ expense_history (SIM_STATE w') = expense_history (SIM_STATE w)
    /\ nav_history (SIM_STATE w') = nav_history (SIM_STATE w)
    /\ invested_amount (SIM_STATE w') = invested_amount (SIM_STATE w)
    /\ last_sip_suggested (SIM_STATE w') = last_sip_suggested (SIM_STATE w)
    /\ db w' = db w
    /\ _state w' = _state w
    /\ _global_portfolio w' = _global_portfolio w
    /\ random w' = random w.
Proof.
  intros Ha. unfold utils.apply_investment. cbv zeta.
  rewrite bool_decide_eq_true_2 by (rewrite Rmax_left by done; lra).
  destruct w as [m [] pf dbt rnd]. eexists. split; [reflexivity|]. by repeat split.
Qed.

Lemma apply_investment_noop_witness :
  exists w',
    utils.apply_investment "2025-01-01T00:00:00" "sip" "INDEX" (-5) world_at_50
    = Some (Result.mk (Some "noop") None (Some 0) None None, w')
    /\ sip_history (SIM_STATE w') = [] ++ [0]
    /\ bank_balance (SIM_STATE w') = 10000.
Proof.
  destruct (apply_investment_noop world_at_50 "2025-01-01T00:00:00" "sip" "INDEX" (-5))
    as (w' & Hrun & Hsip & _ & Hbank & _); [lra|].
  exists w'. split; [exact Hrun|]. split; [exact Hsip | exact Hbank].
Defined.

(** X23.  Every investment is on the books.  In a bootstrapped world,
    [apply_investment] returns for every amount, mode and ticker.  It
    appends exactly one entry to the SIP history and one to the lump-sum
    history, of which the one that is not of the mode is 0 (every mode but
    "lumpsum" counts as SIP); the sum of the two entries is what leaves the
    bank balance and what is added to the invested amount:
    [min(amount, bank balance)] for a positive amount, 0 otherwise. *)
Theorem investment_is_on_the_books (w : World) (index : Instrument)
    (ts mode ticker : string) (amount : R) :
  pipeline_facts.booted w index ->
  let s := SIM_STATE w in
  exists r w' sip lump,
    utils.apply_investment ts mode ticker amount w = Some (r, w')
    /\ sip_history (SIM_STATE w') = sip_history s ++ [sip]
    /\ lumpsum_history (SIM_STATE w') = lumpsum_history s ++ [lump]
    /\ (mode = "lumpsum" -> sip = 0)
    /\ (mode <> "lumpsum" -> lump = 0)
    /\ bank_balance (SIM_STATE w') = bank_balance s - (sip + lump)
    /\ invested_amount (SIM_STATE w') = invested_amount s + (sip + lump)
    /\ (0 < amount -> sip + lump = Rmin amount (bank_balance s))
    /\ (amount <= 0 -> sip + lump = 0).
Proof.
  intros Hb s.
  enough (runs (utils.apply_investment ts mode ticker amount) w (fun r w' =>
            exists sip lump,
              sip_history (SIM_STATE w') = sip_history s ++ [sip]
              /\ lumpsum_history (SIM_STATE w') = lumpsum_history s ++ [lump]
              /\ (mode = "lumpsum" -> sip = 0)
              /\ (mode <> "lumpsum" -> lump = 0)
              /\ bank_balance (SIM_STATE w') = bank_balance s - (sip + lump)
              /\ invested_amount (SIM_STATE w') = invested_amount s + (sip + lump)
              /\ (0 < amount -> sip + lump = Rmin amount (bank_balance s))
              /\ (amount <= 0 -> sip + lump = 0)))
    as (r & w' & Hrun & sip & lump & H).
  { by exists r, w', sip, lump. }
  subst s. pipeline_facts.open_world w. unfold utils.apply_investment. cbv zeta.
  destruct (bool_decide (Rmax 0 amount <= 0)) eqn:E.
  - apply bool_decide_eq_true in E.
    assert (amount <= 0) by (eapply Rle_trans; [apply Rmax_r | exact E]).
    repeat pipeline_facts.run_step index. exists 0, 0.
    repeat split; try done; try lra; try (f_equal; lra); intros; lra.
  - apply bool_decide_eq_false in E.
    assert (0 < amount) as Hpos.
    { destruct (Rle_dec amount 0) as [Hle|]; [|lra].
      exfalso. apply E. rewrite Rmax_left by done. lra. }
    rewrite (Rmax_right 0 amount) by lra.
    do 5 pipeline_facts.run_step index.
    destruct (String.eqb mode "lumpsum") eqn:Em.
    + apply String.eqb_eq in Em. repeat pipeline_facts.run_step index.
      exists 0, (Rmin amount bank).
      repeat split; try done; try lra; try (f_equal; lra); intros; lra.
    + apply String.eqb_neq in Em. repeat pipeline_facts.run_step index.
      exists (Rmin amount bank), 0.
      repeat split; try done; try lra; try (f_equal; lra); intros; lra.
Qed.

Lemma investment_is_on_the_books_witness :
  exists r w' sip lump,
    utils.apply_investment "2025-01-01T00:00:00" "lumpsum" "INDEX" 100 world_at_50 = Some (r, w')
    /\ sip_history (SIM_STATE w') = [] ++ [sip]
    /\ lumpsum_history (SIM_STATE w') = [] ++ [lump]
    /\ sip = 0
    /\ sip + lump = Rmin 100 10000.
Proof.
  destruct (investment_is_on_the_books world_at_50 index_at_50
              "2025-01-01T00:00:00" "lumpsum" "INDEX" 100)
    as (r & w' & sip & lump & Hrun & Hs & Hl & Hm & _ & _ & _ & Hsum & _).
  - split; [reflexivity | apply falling_to_nonempty].
  - exists r, w', sip, lump. split; [exact Hrun|]. split; [exact Hs|]. split; [exact Hl|].
    split; [by apply Hm | apply Hsum; lra].
Defined.

(** X24.  Reading the state twice.  In a bootstrapped world, [get_state]
    returns; it changes nothing but [SIM_STATE["last_sip_suggested"]], which
    it sets to the suggestion it returns, a number that is not negative; a
    second call returns the same snapshot and changes nothing.  The snapshot
    reports the bank balance, the sums of the income and of the expense
    history, and as portfolio value the bank balance plus the value of the
    ledger. *)
Theorem get_state_twice (w : World) (index : Instrument) :
  pipeline_facts.booted w index ->
  exists st w1 sug,
    utils.get_state w = Some (st, w1)
    /\ utils.get_state w1 = Some (st, w1)
    /\ w1 = pipeline_facts.with_sim (utils.set_last_sip_suggested sug) w
    /\ State.sip_suggested_amount st = Some sug
    /\ 0 <= sug
    /\ State.bank_balance st = Some (bank_balance (SIM_STATE w))
    /\ State.balance st = Some (bank_balance (SIM_STATE w))
    /\ State.portfolio_value st
       = Some (bank_balance (SIM_STATE w) + pipeline_facts.nav_of w index)
    /\ State.cashflow_inflow st = Some (py.sum (income_history (SIM_STATE w)))
    /\ State.cashflow_outflow st = Some (py.sum (expense_history (SIM_STATE w)))
    /\ State.last_invest_amount st = None.
Proof.
  intros Hb.
  set (core := pipeline_facts.core_of w index).
  set (sug := pipeline_facts.sip_of index core).
  set (w1 := pipeline_facts.with_sim (utils.set_last_sip_suggested sug) w).
  assert (pipeline_facts.booted w1 index) as Hb1
    by (eapply pipeline_facts.booted_frame; [exact Hb | by destruct w]).
  eexists _, w1, sug.
  split; [by apply account_facts.get_state_eq|].
  split.
  { rewrite (account_facts.get_state_eq w1 index Hb1). cbv zeta.
    unfold w1. rewrite account_facts.core_of_suggestion. fold core sug.
    rewrite account_facts.with_sim_suggestion_twice.
    by destruct w as [m [] pf dbt rnd]. }
  split; [reflexivity|]. split; [reflexivity|].
  split.
  { unfold sug, pipeline_facts.sip_of, investment_agent.evaluate_with. cbv zeta.
    cbn [Opportunity.sip_suggested_amount].
    apply (amount_facts._compute_sip_bounds core (history index)). }
  unfold core, pipeline_facts.core_of, utils.core_state.
  destruct (market_generator.index_metrics (history index)) as [[[ph cp] vol] rt].
  by repeat split.
Qed.

Lemma get_state_twice_witness :
  exists st w1,
    utils.get_state world_at_50 = Some (st, w1)
    /\ utils.get_state w1 = Some (st, w1)
    /\ State.bank_balance st = Some 10000.
Proof.
  destruct (get_state_twice world_at_50 index_at_50)
    as (st & w1 & sug & H1 & H2 & _ & _ & _ & H3 & _).
  - split; [reflexivity | apply falling_to_nonempty].
  - exists st, w1. split; [exact H1|]. split; [exact H2 | exact H3].
Defined.

(** X25.  One point per cycle.  Whenever INDEX is tracked, [run_cycle]
    returns.  It appends exactly one income, one expense (neither negative)
    and one NAV to their histories; the snapshot it returns carries that
    income and expense as monthly income and expense and that NAV as "nav";
    the NAV is the value of the ledger at the end of the cycle; the plan and
    the output carry the timestamp of the cycle. *)
Theorem one_point_per_cycle (w : World) (timestamp : string) :
  py.contains (_state w) "INDEX" = true ->
  exists out w' income expense nav,
    cycle.run_cycle timestamp w = Some (out, w')
    /\ income_history (SIM_STATE w') = income_history (SIM_STATE w) ++ [income]
    /\ expense_history (SIM_STATE w') = expense_history (SIM_STATE w) ++ [expense]
    /\ nav_history (SIM_STATE w') = nav_history (SIM_STATE w) ++ [nav]
    /\ 0 <= income /\ 0 <= expense
    /\ State.monthly_income (CycleOutput.state out) = Some income
    /\ State.monthly_expense (CycleOutput.state out) = Some expense
    /\ State.nav (CycleOutput.state out) = Some nav
    /\ investment_agent.get_portfolio_value w' = Some (nav, w')
    /\ Plan.timestamp (CycleOutput.plan out) = Some timestamp
    /\ CycleOutput.timestamp out = timestamp.
Proof.
  intros Hc.
  enough (runs (cycle.run_cycle timestamp) w (fun out w' =>
            exists income expense nav,
              income_history (SIM_STATE w') = income_history (SIM_STATE w) ++ [income]
              /\ expense_history (SIM_STATE w') = expense_history (SIM_STATE w) ++ [expense]
              /\ nav_history (SIM_STATE w') = nav_history (SIM_STATE w) ++ [nav]
              /\ 0 <= income /\ 0 <= expense
              /\ State.monthly_income (CycleOutput.state out) = Some income
              /\ State.monthly_expense (CycleOutput.state out) = Some expense
              /\ State.nav (CycleOutput.state out) = Some nav
              /\ investment_agent.get_portfolio_value w' = Some (nav, w')
              /\ Plan.timestamp (CycleOutput.plan out) = Some timestamp
              /\ CycleOutput.timestamp out = timestamp))
    as (out & w' & Hrun & income & expense & nav & H).
  { by exists out, w', income, expense, nav. }
  unfold cycle.run_cycle.
  apply runs_bind. eapply runs_mono; [by apply pipeline_facts.step_market_boots|].
  intros [] w1 [[index Hb1] (Hsim1 & _ & _)]. cbv beta.
  apply runs_bind, (pipeline_facts.runs_simulate_income_and_expense w1 index); [done|].
  intros w2 s z1 z2 income expense Hst2 _ Hnav2 _ Hinc2 Hexp2.
  assert (pipeline_facts.booted w2 index) as Hb2 by (by eapply pipeline_facts.booted_frame).
  apply runs_bind. unfold observer.observe.
  eapply runs_eq; [by apply (account_facts.get_state_eq w2 index)|]. cbv zeta.
  set (st := pipeline_facts.with_suggestion _ _ _ _).
  set (w3 := pipeline_facts.with_sim _ w2).
  assert (account_facts.same_flows w2 w3) as Hf3 by (unfold w3; by destruct w2 as [? [] ? ? ?]).
  assert (pipeline_facts.booted w3 index) as Hb3
    by (eapply pipeline_facts.booted_frame; [exact Hb2 | apply Hf3]).
  apply runs_bind, (pipeline_facts.runs_plan w3 index); [done|].
  set (plan_out := cycle.plan_set_timestamp _ timestamp).
  apply runs_bind.
  eapply runs_mono; [by apply (account_facts.execute_flows w3 index)|].
  intros result w4 Hf4. cbv beta.
  pose proof (account_facts.same_flows_trans _ _ _ Hf3 Hf4) as (Hst4 & Hnav4 & Hinc4 & Hexp4).
  assert (pipeline_facts.booted w4 index) as Hb4 by (by eapply pipeline_facts.booted_frame).
  apply runs_bind, (pipeline_facts.runs_update_nav_history w4 index); [done|].
  apply runs_bind, runs_gets, runs_ret.
  exists income, expense, (pipeline_facts.nav_of w4 index).
  cbn [CycleOutput.state CycleOutput.plan CycleOutput.timestamp].
  assert (0 <= income /\ 0 <= expense) as [Hi He] by (split; apply Rmax_l).
  assert (income_history (SIM_STATE w4) = income_history (SIM_STATE w) ++ [income]) as Hinc
    by (rewrite Hinc4, Hinc2; unfold s; by rewrite Hsim1).
  assert (expense_history (SIM_STATE w4) = expense_history (SIM_STATE w) ++ [expense]) as Hexp
    by (rewrite Hexp4, Hexp2; unfold s; by rewrite Hsim1).
  assert (nav_history (SIM_STATE w4) = nav_history (SIM_STATE w)) as Hnav
    by (rewrite Hnav4, Hnav2; unfold s; by rewrite Hsim1).
  split; [rewrite <- Hinc; by destruct w4 as [? [] ? ? ?]|].
  split; [rewrite <- Hexp; by destruct w4 as [? [] ? ? ?]|].
  split; [rewrite <- Hnav; by destruct w4 as [? [] ? ? ?]|].
  split; [exact Hi|]. split; [exact He|].
  split; [reflexivity|]. split; [reflexivity|]. split; [reflexivity|].
  split; [|split; reflexivity].
  destruct Hb4 as [Hidx4 _].
  rewrite (ledger_facts.get_portfolio_value_eq _ index) by (by destruct w4).
  by destruct w4 as [? [] ? ? ?].
Qed.

Lemma one_point_per_cycle_witness :
  exists out w' nav,
    cycle.run_cycle "2025-01-01T00:00:00" world_at_50 = Some (out, w')
    /\ nav_history (SIM_STATE w') = [] ++ [nav]
    /\ CycleOutput.timestamp out = "2025-01-01T00:00:00".
Proof.
  destruct (one_point_per_cycle world_at_50 "2025-01-01T00:00:00" eq_refl)
    as (out & w' & income & expense & nav & Hrun & _ & _ & Hnav & _ & _ & _ & _ & _ & _ & _ & Hts).
  exists out, w', nav. split; [exact Hrun|]. split; [exact Hnav | exact Hts].
Defined.

(** ** Manual transactions and the views *)

(** X26.  A manual transaction.  In a bootstrapped world,
    [insert_transaction] returns.  The type is compared in lower case:
    "income" adds the amount to the bank balance and appends it to the
    income history; "expense" and "repay" subtract it and append it to the
    expense history; any other type, and a missing one ("manual"), leaves
    the balance and both histories alone.  The amount is used as it is
    given, without a clamp.  In every case the resulting balance is appended
    to the balance history, and the balance, under the date of the
    timestamp, and then the transaction, which carries that balance, are
    sent to the database; the market, the ledger, the generator and the
    investment histories are unchanged. *)
Theorem insert_transaction_books (w : World) (index : Instrument) (tx : Transaction.t) :
  pipeline_facts.booted w index ->
  let s := SIM_STATE w in
  let ts := py.str_or (Transaction.date tx) (py.str_or (Transaction.timestamp tx) "") in
  let amount := default 0 (Transaction.amount tx) in
  let ttype := py.lower (py.str_or (Transaction.type tx) "manual") in
  let is_income := String.eqb ttype "income" in
  let is_expense := negb is_income && (String.eqb ttype "expense" || String.eqb ttype "repay") in
  let bank' := if is_income then bank_balance s + amount
               else if is_expense then bank_balance s - amount
               else bank_balance s in
  exists w',
    utils.insert_transaction tx w = Some (tt, w')
    /\ bank_balance (SIM_STATE w') = bank'
    /\ income_history (SIM_STATE w')
       = (if is_income then income_history s ++ [amount] else income_history s)
    /\ expense_history (SIM_STATE w')
       = (if is_expense then expense_history s ++ [amount] else expense_history s)
    /\ balance_history (SIM_STATE w') = balance_history s ++ [bank']
    /\ db w' = db w ++ [ ReplaceBalance (utils.balance_date ts) bank';
                         InsertTransaction ts ttype (default "" (Transaction.category tx))
                           amount (default "manual" (Transaction.description tx)) bank' ]
    /\ _state w' = _state w
    /\ _global_portfolio w' = _global_portfolio w
    /\ random w' = random w
    /\ sip_history (SIM_STATE w') = sip_history s
    /\ lumpsum_history (SIM_STATE w') = lumpsum_history s
    /\ nav_history (SIM_STATE w') = nav_history s
    /\ invested_amount (SIM_STATE w') = invested_amount s.
Proof.
  intros Hb s ts amount ttype is_income is_expense bank'.
  enough (runs (utils.insert_transaction tx) w (fun _ w' =>
            bank_balance (SIM_STATE w') = bank'
            /\ income_history (SIM_STATE w')
               = (if is_income then income_history s ++ [amount] else income_history s)
            /\ expense_history (SIM_STATE w')
               = (if is_expense then expense_history s ++ [amount] else expense_history s)
            /\ balance_history (SIM_STATE w') = balance_history s ++ [bank']
            /\ db w' = (db w ++ [ ReplaceBalance (utils.balance_date ts) bank' ])
                       ++ [ InsertTransaction ts ttype (default "" (Transaction.category tx))
                              amount (default "manual" (Transaction.description tx)) bank' ]
            /\ _state w' = _state w
            /\ _global_portfolio w' = _global_portfolio w
            /\ random w' = random w
            /\ sip_history (SIM_STATE w') = sip_history s
            /\ lumpsum_history (SIM_STATE w') = lumpsum_history s
            /\ nav_history (SIM_STATE w') = nav_history s
            /\ invested_amount (SIM_STATE w') = invested_amount s))
    as ([] & w' & Hrun & H1 & H2 & H3 & H4 & H5 & H6).
  { exists w'. split; [exact Hrun|]. split; [exact H1|]. split; [exact H2|].
    split; [exact H3|]. split; [exact H4|]. split; [|exact H6].
    rewrite H5, <- app_assoc. reflexivity. }
  subst s bank' is_expense is_income. pipeline_facts.open_world w.
  unfold utils.insert_transaction. cbv zeta. fold ts amount ttype.
  destruct (String.eqb ttype "income"); cbn [negb andb].
  - repeat pipeline_facts.run_step index. by repeat split.
  - destruct (String.eqb ttype "expense" || String.eqb ttype "repay").
    + repeat pipeline_facts.run_step index. by repeat split.
    + repeat pipeline_facts.run_step index. by repeat split.
Qed.

(** An "Income" of 250 in [world_at_50]: the balance goes to 10250. *)
Lemma insert_transaction_books_witness :
  exists w',
    utils.insert_transaction
      (Transaction.mk (Some "2025-01-01") None (Some "Income") (Some "salary") (Some 250) None)
      world_at_50 = Some (tt, w')
    /\ bank_balance (SIM_STATE w') = 10000 + 250
    /\ income_history (SIM_STATE w') = [] ++ [250].
Proof.
  destruct (insert_transaction_books world_at_50 index_at_50
              (Transaction.mk (Some "2025-01-01") None (Some "Income") (Some "salary")
                 (Some 250) None))
    as (w' & Hrun & Hbank & Hinc & _).
  - split; [reflexivity | apply falling_to_nonempty].
  - exists w'. split; [exact Hrun|]. split; [exact Hbank | exact Hinc].
Defined.

Module view_facts.
Import utils.

(** [get_portfolio], in closed form. *)
Lemma get_portfolio_eq w index :
  py.getitem (_state w) "INDEX" = Some index ->
  let s := SIM_STATE w in
  let value := bank_balance s + pipeline_facts.nav_of w index in
  utils.get_portfolio w
  = Some (PortfolioView.mk (bank_balance s) (positions (_global_portfolio w)) value
            (invested_amount s) (value - invested_amount s)
            (if bool_decide (invested_amount s > 0)
             then (value - invested_amount s) / invested_amount s * 100 else 0)
            (if bool_decide (2 <= length (nav_history s))%nat
             then nth (length (nav_history s) - 1) (nav_history s) 0
                  - nth (length (nav_history s) - 2) (nav_history s) 0
             else 0)
            (last_sip_suggested s) (py.sum (income_history s)) (py.sum (expense_history s)),
          w).
Proof.
  intros Hidx s value.
  unfold utils.get_portfolio, investment_agent.get_positions, bind, gets, ret.
  cbv beta iota.
  by rewrite (ledger_facts.get_portfolio_value_eq w index Hidx).
Qed.

(** [get_market], in closed form. *)
Lemma get_market_eq w index :
  pipeline_facts.booted w index ->
  let s := SIM_STATE w in
  utils.get_market w
  = Some (MarketView.mk (history index)
            (match history index with [] => 100 | _ :: _ => py.last_or 0 (history index) end)
            (market_generator._realized_volatility (history index))
            (snd (market_generator.index_metrics (history index)))
            (nav_history s) (sip_history s) (lumpsum_history s)
            (income_history s) (expense_history s) (balance_history s), w).
Proof.
  intros Hb s. unfold utils.get_market, bind.
  by rewrite (pipeline_facts.get_index_metrics_eq w index Hb).
Qed.

End view_facts.

(** X27.  The views do not write.  In a bootstrapped world, [get_portfolio]
    and [get_market] return and leave the world exactly as it is.  The
    portfolio view reports as value the bank balance plus the value of the
    ledger, as absolute profit that value minus the invested amount, and as
    percentage 0 when nothing is invested; its daily profit is 0 with fewer
    than two NAV points.  The market view reports the history of INDEX and
    the histories of the account. *)
Theorem views_do_not_write (w : World) (index : Instrument) :
  pipeline_facts.booted w index ->
  let s := SIM_STATE w in
  exists pv mv,
    utils.get_portfolio w = Some (pv, w)
    /\ utils.get_market w = Some (mv, w)
    /\ PortfolioView.cash pv = bank_balance s
    /\ PortfolioView.positions pv = positions (_global_portfolio w)
    /\ PortfolioView.value pv = bank_balance s + pipeline_facts.nav_of w index
    /\ PortfolioView.invested_amount pv = invested_amount s
    /\ PortfolioView.absolute_profit_loss pv = PortfolioView.value pv - invested_amount s
    /\ (invested_amount s <= 0 -> PortfolioView.percentage_profit_loss pv = 0)
    /\ (0 < invested_amount s ->
        PortfolioView.percentage_profit_loss pv
        = PortfolioView.absolute_profit_loss pv / invested_amount s * 100)
    /\ ((length (nav_history s) < 2)%nat -> PortfolioView.daily_profit_loss pv = 0)
    /\ MarketView.price_history mv = history index
    /\ MarketView.current_price mv = py.last_or 0 (history index)
    /\ MarketView.nav_history mv = nav_history s
    /\ MarketView.balance_history mv = balance_history s.
Proof.
  intros Hb s. pose proof Hb as [Hidx Hne].
  eexists _, _.
  split; [by apply view_facts.get_portfolio_eq|].
  split; [by apply view_facts.get_market_eq|].
  cbn [PortfolioView.cash PortfolioView.positions PortfolioView.value
       PortfolioView.invested_amount PortfolioView.absolute_profit_loss
       PortfolioView.percentage_profit_loss PortfolioView.daily_profit_loss
       MarketView.price_history MarketView.current_price MarketView.nav_history
       MarketView.balance_history].
  fold s. split; [done|]. split; [done|]. split; [done|]. split; [done|]. split; [done|].
  split; [intros H; by rewrite bool_decide_eq_false_2 by lra|].
  split; [intros H; by rewrite bool_decide_eq_true_2 by lra|].
  split; [intros H; by rewrite bool_decide_eq_false_2 by lia|].
  split; [done|]. split; [|done].
  by destruct (history index).
Qed.

Lemma views_do_not_write_witness :
  exists pv mv,
    utils.get_portfolio world_at_50 = Some (pv, world_at_50)
    /\ utils.get_market world_at_50 = Some (mv, world_at_50)
    /\ PortfolioView.cash pv = 10000
    /\ MarketView.price_history mv = falling_to 50 200.
Proof.
  destruct (views_do_not_write world_at_50 index_at_50)
    as (pv & mv & H1 & H2 & H3 & _ & _ & _ & _ & _ & _ & _ & H4 & _).
  - split; [reflexivity | apply falling_to_nonempty].
  - exists pv, mv. split; [exact H1|]. split; [exact H2|]. split; [exact H3 | exact H4].
Defined.

(** ** The date of a balance *)

Module date_facts.
Import Stdlib.Strings.Ascii.

Lemma prefix_T s : String.prefix "T" s = true <-> exists s', s = String "T"%char s'.
Proof.
  destruct s as [|c s]; cbn [String.prefix].
  - split; [done | by intros [? ?]].
  - destruct (Ascii.ascii_dec "T"%char c) as [<-|Hne].
    + split; [by eexists | by destruct s].
    + split; [done | intros [? [= ]]; congruence].
Qed.

Lemma split_head_free sep s : py.str_contains sep s = false -> py.split_head sep s = s.
Proof.
  induction s as [|c s IH]; [done|].
  change (py.str_contains sep (String c s))
    with (String.prefix sep (String c s) || py.str_contains sep s).
  intros H. apply orb_false_iff in H as [Hp Hc].
  cbn [py.split_head]. rewrite Hp. by rewrite IH.
Qed.

Lemma split_head_has_no_T s : py.str_contains "T" (py.split_head "T" s) = false.
Proof.
  induction s as [|c s IH]; [done|].
  cbn [py.split_head].
  destruct (String.prefix "T" (String c s)) eqn:E; [done|].
  change (py.str_contains "T" (String c (py.split_head "T" s)))
    with (String.prefix "T" (String c (py.split_head "T" s))
          || py.str_contains "T" (py.split_head "T" s)).
  rewrite IH, orb_false_r.
  destruct (String.prefix "T" (String c (py.split_head "T" s))) eqn:E'; [|done].
  apply prefix_T in E' as [s' [= -> _]].
  assert (String.prefix "T" (String "T"%char s) = true) by (apply prefix_T; eauto). congruence.
Qed.

Lemma split_head_app d rest :
  py.str_contains "T" d = false -> py.split_head "T" (d +:+ String "T"%char rest) = d.
Proof.
  induction d as [|c d IH].
  - intros _. cbn. by destruct rest.
  - change (py.str_contains "T" (String c d))
      with (String.prefix "T" (String c d) || py.str_contains "T" d).
    intros H. apply orb_false_iff in H as [Hp Hc].
    change (String c d +:+ String "T"%char rest) with (String c (d +:+ String "T"%char rest)).
    cbn [py.split_head].
    destruct (String.prefix "T" (String c (d +:+ String "T"%char rest))) eqn:E.
    + apply prefix_T in E as [s' [= -> _]].
      assert (String.prefix "T" (String "T"%char d) = true) by (apply prefix_T; eauto). congruence.
    + by rewrite IH.
Qed.

Lemma str_contains_app d rest : py.str_contains "T" (d +:+ String "T"%char rest) = true.
Proof.
  induction d as [|c d IH].
  - cbn. by destruct rest.
  - change (String c d +:+ String "T"%char rest) with (String c (d +:+ String "T"%char rest)).
    change (py.str_contains "T" (String c (d +:+ String "T"%char rest)))
      with (String.prefix "T" (String c (d +:+ String "T"%char rest))
            || py.str_contains "T" (d +:+ String "T"%char rest)).
    rewrite IH. apply orb_true_r.
Qed.

Lemma balance_date_iso d rest :
  d <> "" -> py.str_contains "T" d = false ->
  utils.balance_date (d +:+ ("T" +:+ rest)) = d.
Proof.
  intros Hne Hfree. change ("T" +:+ rest) with (String "T"%char rest).
  unfold utils.balance_date, py.str_or.
  rewrite str_contains_app, split_head_app by done.
  apply String.eqb_neq in Hne. by rewrite Hne.
Qed.

Lemma balance_date_T rest : utils.balance_date ("T" +:+ rest) = "1970-01-01".
Proof. change ("T" +:+ rest) with (String "T"%char rest). cbn. by destruct rest. Qed.

End date_facts.

(** X29.  The date of a balance.  The key under which [_persist_balance]
    stores a balance is never empty and never contains "T".  A non-empty
    timestamp without "T" is its own date; a timestamp [d ++ "T" ++ rest]
    whose [d] is non-empty and has no "T", such as an ISO timestamp, has the
    date [d]; the empty timestamp, and one that starts with "T", have the
    date "1970-01-01". *)
Theorem balance_date_of_timestamp (timestamp : string) :
  utils.balance_date timestamp <> ""
  /\ py.str_contains "T" (utils.balance_date timestamp) = false
  /\ (timestamp <> "" -> py.str_contains "T" timestamp = false ->
      utils.balance_date timestamp = timestamp)
  /\ (forall d rest, timestamp = d +:+ ("T" +:+ rest) ->
        d <> "" -> py.str_contains "T" d = false ->
        utils.balance_date timestamp = d)
  /\ (timestamp = "" \/ (exists rest, timestamp = "T" +:+ rest) ->
      utils.balance_date timestamp = "1970-01-01").
Proof.
  unfold utils.balance_date, py.str_or.
  split; [|split; [|split; [|split]]].
  - destruct (String.eqb _ "") eqn:E; [done|]. by apply String.eqb_neq in E.
  - destruct (String.eqb _ "") eqn:E; [done|].
    destruct (py.str_contains "T" timestamp) eqn:Ec; [|done].
    apply date_facts.split_head_has_no_T.
  - intros Hne Hfree. rewrite Hfree.
    apply String.eqb_neq in Hne. by rewrite Hne.
  - intros d rest -> Hne Hfree. by apply date_facts.balance_date_iso.
  - intros [-> | [rest ->]]; [done | apply date_facts.balance_date_T].
Qed.

(** ** frontend/pages/investments.py: the drawdown *)

Module drawdown_facts.
Import investments.

Lemma dd_range peak v :
  let peak' := Rmax peak v in
  let dd := if bool_decide (peak' > 0) then (v - peak') / peak' else 0 in
  dd <= 0 /\ (0 <= v -> -1 <= dd) /\ (peak <= v -> dd = 0).
Proof.
  cbv zeta. pose proof (Rmax_r peak v) as Hv. set (peak' := Rmax peak v) in *.
  destruct (bool_decide (peak' > 0)) eqn:E.
  - apply bool_decide_eq_true in E. split; [|split].
    + apply Rmult_le_reg_r with peak'; [lra|]. unfold Rdiv.
      rewrite Rmult_assoc, Rinv_l by lra. lra.
    + intros H0. apply Rmult_le_reg_r with peak'; [lra|]. unfold Rdiv.
      rewrite Rmult_assoc, Rinv_l by lra. lra.
    + intros Hle. unfold peak'. rewrite Rmax_right by done. unfold Rdiv. lra.
  - split; [lra|]. split; [intros; lra | done].
Qed.

Lemma drawdown_loop_le nav_hist peak max_dd :
  max_dd <= 0 -> drawdown_loop nav_hist peak max_dd <= 0.
Proof.
  revert peak max_dd. induction nav_hist as [|v rest IH]; intros peak max_dd Hm; [done|].
  cbn [drawdown_loop]. apply IH. eapply Rle_trans; [apply Rmin_l | done].
Qed.

Lemma drawdown_loop_ge nav_hist peak max_dd :
  Forall (fun v => 0 <= v) nav_hist -> -1 <= max_dd ->
  -1 <= drawdown_loop nav_hist peak max_dd.
Proof.
  revert peak max_dd. induction nav_hist as [|v rest IH]; intros peak max_dd Hall Hm; [done|].
  apply Forall_cons in Hall as [Hv Hall]. cbn [drawdown_loop]. apply IH; [done|].
  apply Rmin_glb; [done|]. by apply dd_range.
Qed.

Lemma drawdown_loop_rising nav_hist peak :
  price_facts.consecutive Rle (peak :: nav_hist) -> drawdown_loop nav_hist peak 0 = 0.
Proof.
  revert peak. induction nav_hist as [|v rest IH]; intros peak Hs; [done|].
  assert (peak <= v) as Hle by (by apply (Hs 0%nat)).
  cbn [drawdown_loop].
  destruct (dd_range peak v) as (_ & _ & Hz). rewrite (Hz Hle).
  rewrite Rmax_right by done. rewrite Rmin_left by lra. apply IH.
  intros i a b Ha Hb. by apply (Hs (S i)).
Qed.

End drawdown_facts.

(** X30.  The drawdown.  [_simple_drawdown] never returns a positive number;
    for a NAV history without negative entries it returns at least -1; for
    a history that never falls it returns 0; and for a history of two
    points, a positive peak and then a value that is not above it, it
    returns the relative fall [(low - peak) / peak]. *)
Theorem simple_drawdown_range (nav_hist : list R) :
  investments._simple_drawdown nav_hist <= 0
  /\ (Forall (fun v => 0 <= v) nav_hist -> -1 <= investments._simple_drawdown nav_hist)
  /\ (price_facts.consecutive Rle nav_hist -> investments._simple_drawdown nav_hist = 0)
  /\ (forall peak low, nav_hist = [peak; low] -> 0 < peak -> low <= peak ->
        investments._simple_drawdown nav_hist = (low - peak) / peak).
Proof.
  unfold investments._simple_drawdown.
  split; [|split; [|split]].
  - destruct nav_hist; [lra|]. apply drawdown_facts.drawdown_loop_le. lra.
  - intros Hall. destruct nav_hist; [lra|].
    apply drawdown_facts.drawdown_loop_ge; [done | lra].
  - intros Hs. destruct nav_hist as [|v0 rest]; [done|].
    apply drawdown_facts.drawdown_loop_rising.
    intros [|i] a b Ha Hb.
    + cbn in Ha, Hb. injection Ha as <-. injection Hb as <-. lra.
    + by apply (Hs i).
  - intros peak low -> Hp Hl. cbn [investments.drawdown_loop].
    rewrite (Rmax_left peak peak) by lra.
    rewrite (Rmax_left peak low) by done.
    rewrite bool_decide_eq_true_2 by lra.
    replace ((peak - peak) / peak) with 0 by (unfold Rdiv; lra).
    rewrite (Rmin_left 0 0) by lra.
    assert ((low - peak) / peak <= 0) as Hd.
    { apply Rmult_le_reg_r with peak; [lra|]. unfold Rdiv.
      rewrite Rmult_assoc, Rinv_l by lra. lra. }
    by rewrite Rmin_right.
Qed.
